(** * Minecraft Server Manager: a shallow embedding of [main.py]

    The development follows the layout of the script:
    - [PyStr]: the Python [str] operations the script uses;
    - [Py]: exceptions, JSON values and ElementTree elements;
    - [ApiClients]: the four version-catalog adapters and the lookups of
      download and installer URLs;
    - [JavaFinder]: probing and ranking of Java installations;
    - [Utils]: the console dialogue;
    - [MinecraftManager]: directory naming, the persisted Java choice, the
      process supervisor, the installed servers, the prompts and steps of a
      new installation, and the launch command;
    - [Samples]: a small host, remote and server process to run them on.

    A string is the UTF-8 encoding of a Python [str], one 8-bit character
    per byte.  [lower] maps [A-Z] to [a-z] and is used on ASCII names;
    [lower_text], the digits of [\d] and [int], and the letters of
    [re.IGNORECASE] take the characters outside ASCII into account. *)

From Stdlib Require Import ZArith Ascii String DecimalString Decimal Lia Bool.
From Stdlib Require Import Permutation Sorted OrdersEx.
From stdpp Require Import base list strings gmap sets.

Local Open Scope Z_scope.
Local Set Warnings "-register-all".

(** ** Python [str] operations *)

Module PyStr.

(** [s.startswith(prefix)] *)
Fixpoint startswith (s prefix : string) {struct prefix} : bool :=
  match prefix with
  | EmptyString => true
  | String a p' =>
      match s with
      | String b s' => if Ascii.eqb a b then startswith s' p' else false
      | EmptyString => false
      end
  end.

(** [sub in s] *)
Fixpoint contains (sub s : string) : bool :=
  startswith s sub ||
  match s with
  | EmptyString => false
  | String _ s' => contains sub s'
  end.

(** Occurrence of one character; [contains (String c EmptyString) s]
    computes the same thing (lemma [contains_char]). *)
Fixpoint has_char (c : ascii) (s : string) : bool :=
  match s with
  | EmptyString => false
  | String a s' => Ascii.eqb a c || has_char c s'
  end.

Definition lower_char (c : ascii) : ascii :=
  let n := nat_of_ascii c in
  if ((65 <=? n) && (n <=? 90))%nat then ascii_of_nat (n + 32) else c.

(** [s.lower()] *)
Fixpoint lower (s : string) : string :=
  match s with
  | EmptyString => EmptyString
  | String c s' => String (lower_char c) (lower s')
  end.

(** [s.split(sep)] for a one-character separator: never empty, the empty
    string gives one empty field. *)
Fixpoint split (sep : ascii) (s : string) : list string :=
  match s with
  | EmptyString => [EmptyString]
  | String c s' =>
      if Ascii.eqb c sep then EmptyString :: split sep s'
      else match split sep s' with
           | x :: xs => String c x :: xs
           | [] => [String c EmptyString]
           end
  end.

(** The text before and after the first [sep], if there is one. *)
Fixpoint partition_first (sep : ascii) (s : string) : option (string * string) :=
  match s with
  | EmptyString => None
  | String c s' =>
      if Ascii.eqb c sep then Some (EmptyString, s')
      else match partition_first sep s' with
           | Some (a, b) => Some (String c a, b)
           | None => None
           end
  end.

(** [s.split(sep, 1)] *)
Definition split1 (sep : ascii) (s : string) : list string :=
  match partition_first sep s with
  | Some (a, b) => [a; b]
  | None => [s]
  end.

(** [s.replace(old, new)] for a non-empty [old]: occurrences are replaced
    left to right and do not overlap; [skip] counts the characters of the
    occurrence just replaced that are still to be passed over. *)
Fixpoint replace_from (old new : string) (skip : nat) (s : string) : string :=
  match s with
  | EmptyString => EmptyString
  | String c s' =>
      match skip with
      | S k => replace_from old new k s'
      | O =>
          if startswith s old
          then new +:+ replace_from old new (String.length old - 1) s'
          else String c (replace_from old new O s')
      end
  end.

Definition replace (old new s : string) : string := replace_from old new O s.

(** An ASCII digit, and its value. *)
Definition is_digit (c : ascii) : bool :=
  let n := nat_of_ascii c in ((48 <=? n) && (n <=? 57))%nat.

Definition digit_value (c : ascii) : Z := Z.of_nat (nat_of_ascii c) - 48.

Definition is_ascii (c : ascii) : bool := (nat_of_ascii c <? 128)%nat.

Fixpoint all_digits (s : string) : bool :=
  match s with
  | EmptyString => true
  | String c s' => is_digit c && all_digits s'
  end.

Section Digits.
(** The decimal digits outside ASCII.  If [s] starts with the encoding of
    one, [wide_digit s] is the number of characters the encoding takes after
    its first one, and the value of the digit. *)
Variable wide_digit : string -> option (nat * Z).

(** The decimal digit at the start of [s], if there is one: what [\d]
    matches and [int] converts. *)
Definition digit_at (s : string) : option (nat * Z) :=
  match s with
  | EmptyString => None
  | String c _ =>
      if is_digit c then Some (O, digit_value c)
      else if is_ascii c then None
      else wide_digit s
  end.

(** [re.findall(r'\d+', s)]: the maximal runs of digits, left to right.
    [cur] is the run being read, in reverse; [skip] counts the characters
    still to be read of the digit whose encoding has begun. *)
Fixpoint findall_digits_from (cur : list ascii) (skip : nat) (s : string)
    : list string :=
  let flush (rest : list string) :=
    match cur with
    | [] => rest
    | _ => string_of_list_ascii (rev cur) :: rest
    end in
  match s with
  | EmptyString => flush []
  | String c s' =>
      match skip with
      | S k => findall_digits_from (c :: cur) k s'
      | O =>
          match digit_at s with
          | Some (more, _) => findall_digits_from (c :: cur) more s'
          | None => flush (findall_digits_from [] O s')
          end
      end
  end.

Definition findall_digits (s : string) : list string :=
  findall_digits_from [] O s.

(** The values of the digits of a run of digits. *)
Fixpoint digits_of (skip : nat) (s : string) : list Z :=
  match s with
  | EmptyString => []
  | String _ s' =>
      match skip with
      | S k => digits_of k s'
      | O =>
          match digit_at s with
          | Some (more, value) => value :: digits_of more s'
          | None => digits_of O s'
          end
      end
  end.

End Digits.

(** The number that a sequence of decimal digits writes. *)
Definition number_of (digits : list Z) : Z :=
  fold_left (fun acc value => 10 * acc + value) digits 0.

(** [int] converts a run of more than [int_str_digits_threshold] digits only
    when its length is within the limit of the interpreter. *)
Definition int_str_digits_threshold : nat := 640.

(** [str(n)] *)
Definition str (n : Z) : string := NilZero.string_of_int (Z.to_int n).

(** The double quote character. *)
Definition dquote : ascii := "034"%char.

(** The one-character string that ends a line. *)
Definition newline : string := String "010"%char EmptyString.

(** [s] without its prefix [prefix], if it has that prefix. *)
Fixpoint strip_prefix (prefix s : string) {struct prefix} : option string :=
  match prefix with
  | EmptyString => Some s
  | String a p' =>
      match s with
      | String b s' => if Ascii.eqb a b then strip_prefix p' s' else None
      | EmptyString => None
      end
  end.

(** The letters outside ASCII that [re.IGNORECASE] takes for the lower-case
    letter [a], in their UTF-8 encoding: the dotted capital and the dotless
    small i (U+0130, U+0131), the Kelvin sign (U+212A) and the long s
    (U+017F). *)
Definition folded_letters (a : ascii) : list string :=
  if Ascii.eqb a "i" then [String "196" (String "176" EmptyString);
                           String "196" (String "177" EmptyString)]
  else if Ascii.eqb a "k"
  then [String "226" (String "132" (String "170" EmptyString))]
  else if Ascii.eqb a "s" then [String "197" (String "191" EmptyString)]
  else [].

(** [s] without the first of [prefixes] that it starts with. *)
Fixpoint strip_any (prefixes : list string) (s : string) : option string :=
  match prefixes with
  | [] => None
  | prefix :: others =>
      match strip_prefix prefix s with
      | Some rest => Some rest
      | None => strip_any others s
      end
  end.

(** What follows, in [s], one character that matches the lower-case
    character [a] of a pattern compiled with [re.IGNORECASE]. *)
Definition strip_char_nocase (a : ascii) (s : string) : option string :=
  match s with
  | String b s' =>
      if Ascii.eqb a (lower_char b) then Some s'
      else strip_any (folded_letters a) s
  | EmptyString => None
  end.

(** [s] without its prefix [prefix], comparing as [re.IGNORECASE] does;
    [prefix] is given in lower case. *)
Fixpoint strip_prefix_nocase (prefix s : string) {struct prefix} : option string :=
  match prefix with
  | EmptyString => Some s
  | String a p' =>
      match strip_char_nocase a s with
      | Some s' => strip_prefix_nocase p' s'
      | None => None
      end
  end.

(** [s.lower()] of a text that may hold characters outside ASCII, as far as
    ASCII letters are concerned: besides [A-Z], the Kelvin sign becomes [k]
    and the dotted capital i becomes [i] followed by a combining dot
    (U+0307); no other character gains or loses an ASCII letter.  [skip]
    counts the characters of an encoding still to be passed over. *)
Fixpoint lower_text_from (skip : nat) (s : string) : string :=
  match s with
  | EmptyString => EmptyString
  | String c s' =>
      match skip with
      | S k => lower_text_from k s'
      | O =>
          if startswith s (String "226" (String "132" (String "170" EmptyString)))
          then String "k" (lower_text_from 2 s')
          else if startswith s (String "196" (String "176" EmptyString))
          then String "i" (String "204" (String "135" (lower_text_from 1 s')))
          else String (lower_char c) (lower_text_from O s')
      end
  end.

Definition lower_text (s : string) : string := lower_text_from O s.

(** The longest prefix of [s] without [c], and what follows it. *)
Fixpoint span_until (c : ascii) (s : string) : string * string :=
  match s with
  | EmptyString => (EmptyString, EmptyString)
  | String a s' =>
      if Ascii.eqb a c then (EmptyString, s)
      else let (run, rest) := span_until c s' in (String a run, rest)
  end.

(** A match, at the start of [s], of the quoted group that ends both version
    patterns: a quote, one or more characters other than a quote (group 1),
    a quote.  The group is greedy and a quote must follow it, so it is the
    whole run up to the next quote, which must exist, and it is not empty. *)
Definition quoted_at (s : string) : option string :=
  match s with
  | String q s' =>
      if Ascii.eqb q dquote then
        match span_until dquote s' with
        | (String c run, String _ _) => Some (String c run)
        | _ => None
        end
      else None
  | EmptyString => None
  end.

(** Truth value of a string: the empty string is falsy. *)
Definition truthy (s : string) : bool :=
  match s with EmptyString => false | _ => true end.

(** How an f-string renders an [Optional[str]]. *)
Definition format_optional (o : option string) : string :=
  match o with Some s => s | None => "None" end.

End PyStr.

(** ** Exceptions, JSON values, XML elements *)

Module Py.

(** The exception classes the script can meet.  [Response.json()] of the
    [requests] library raises [requests.exceptions.JSONDecodeError], which
    inherits from both [requests.RequestException] and
    [json.JSONDecodeError]; [json.loads] raises the latter.  The parsers
    and [int] also raise errors of their own that no handler of the script
    names: [RecursionError] on a deeply nested document, [ValueError] on a
    number with too many digits or an unsupported encoding, [LookupError]
    on an unknown encoding; and decoding the output of a child process
    raises [UnicodeDecodeError]. *)
Inductive exn :=
| ConnectionError
| Timeout
| HTTPError (status : Z)
| RequestsJSONDecodeError
| ParseError
| KeyError (key : string)
| AttributeError
| TypeError
| IndexError
| JSONDecodeError
| OSError (message : string)
| EOFError
| KeyboardInterrupt
| RecursionError
| ValueError
| LookupError
| UnicodeDecodeError.

(** [isinstance(e, requests.RequestException)] *)
Definition is_RequestException (e : exn) : bool :=
  match e with
  | ConnectionError | Timeout | HTTPError _ | RequestsJSONDecodeError => true
  | _ => false
  end.

(** [isinstance(e, json.JSONDecodeError)] *)
Definition is_JSONDecodeError (e : exn) : bool :=
  match e with RequestsJSONDecodeError | JSONDecodeError => true | _ => false end.

(** [isinstance(e, IOError)]; [IOError] is another name of [OSError], and
    [requests.RequestException] inherits from it. *)
Definition is_IOError (e : exn) : bool :=
  match e with OSError _ => true | _ => is_RequestException e end.

(** [isinstance(e, ET.ParseError)] *)
Definition is_ParseError (e : exn) : bool :=
  match e with ParseError => true | _ => false end.

(** A computation returns a value or raises. *)
Inductive result (A : Type) :=
| Ok (a : A)
| Raise (e : exn).
Global Arguments Ok {A} a.
Global Arguments Raise {A} e.

Global Instance result_ret : MRet result := fun A a => Ok a.
Global Instance result_bind : MBind result := fun A B f m =>
  match m with
  | Ok a => f a
  | Raise e => Raise e
  end.

(** [try: body  except <classes>: handler] *)
Definition try_except {A} (body : result A) (caught : exn -> bool)
    (handler : result A) : result A :=
  match body with
  | Ok a => Ok a
  | Raise e => if caught e then handler else Raise e
  end.

(** A loop that appends to a list: [f x] is what one iteration appends,
    and the first iteration that raises ends the loop. *)
Fixpoint for_each {A B} (f : A -> result (list B)) (l : list A) : result (list B) :=
  match l with
  | [] => Ok []
  | x :: l' => ys ← f x; rest ← for_each f l'; Ok (ys ++ rest)
  end.

(** JSON values as [json.loads] builds them: an object lists each of its
    keys once.  Of a float the script only ever uses its truth value. *)
Inductive json :=
| JNull
| JBool (b : bool)
| JInt (n : Z)
| JFloat (nonzero : bool)
| JStr (s : string)
| JArr (items : list json)
| JObj (fields : list (string * json)).

Fixpoint assoc (k : string) (fields : list (string * json)) : option json :=
  match fields with
  | [] => None
  | (k', v) :: rest => if String.eqb k k' then Some v else assoc k rest
  end.

(** [d.get(key, default)]: only a dict has [get]. *)
Definition get_default (d : json) (key : string) (fallback : json) : result json :=
  match d with
  | JObj fields => Ok (default fallback (assoc key fields))
  | _ => Raise AttributeError
  end.

(** [d.get(key)] *)
Definition get (d : json) (key : string) : result json := get_default d key JNull.

(** [d[key]] for a string key *)
Definition getitem (d : json) (key : string) : result json :=
  match d with
  | JObj fields =>
      match assoc key fields with
      | Some v => Ok v
      | None => Raise (KeyError key)
      end
  | _ => Raise TypeError
  end.

Fixpoint chars (s : string) : list json :=
  match s with
  | EmptyString => []
  | String c s' => JStr (String c EmptyString) :: chars s'
  end.

(** [for x in v]: a list gives its items, a dict its keys, a string its
    characters; nothing else is iterable. *)
Definition iter (v : json) : result (list json) :=
  match v with
  | JArr items => Ok items
  | JObj fields => Ok (map (fun kv => JStr (fst kv)) fields)
  | JStr s => Ok (chars s)
  | _ => Raise TypeError
  end.

(** [bool(v)] *)
Definition truth (v : json) : bool :=
  match v with
  | JNull => false
  | JBool b => b
  | JInt n => negb (n =? 0)
  | JFloat nonzero => nonzero
  | JStr s => PyStr.truthy s
  | JArr items => match items with [] => false | _ => true end
  | JObj fields => match fields with [] => false | _ => true end
  end.

(** [v == s] for a string [s] *)
Definition eq_str (v : json) (s : string) : bool :=
  match v with JStr t => String.eqb t s | _ => false end.

(** An [xml.etree.ElementTree.Element]. *)
Inductive element :=
| Element (tag : string) (text : option string) (children : list element).

Definition tag (e : element) : string := match e with Element t _ _ => t end.
Definition text (e : element) : option string := match e with Element _ t _ => t end.

(** [e.iter()]: the element and everything below it, in document order. *)
Fixpoint iter_elements (e : element) : list element :=
  match e with
  | Element _ _ children =>
      e :: (fix below (l : list element) : list element :=
              match l with
              | [] => []
              | c :: l' => iter_elements c ++ below l'
              end) children
  end.

(** [root.findall(".//name")]: the elements below [root], at any depth,
    whose tag is [name]. *)
Definition findall_below (name : string) (root : element) : list element :=
  List.filter (fun e => String.eqb (tag e) name) (List.tl (iter_elements root)).

(** ** [sorted(l, key=..., reverse=True)]

    The sort is stable: with [reverse=True] elements with equal keys keep
    their original order.  [ltb] is the strict order of the keys. *)
Section Sorted.
Context {A K : Type} (ltb : K -> K -> bool) (key : A -> K).

Fixpoint insert_reverse (x : A) (l : list A) : list A :=
  match l with
  | [] => [x]
  | y :: l' => if ltb (key x) (key y) then y :: insert_reverse x l' else x :: l
  end.

Definition sorted_reverse (l : list A) : list A :=
  fold_right insert_reverse [] l.

(** [a] may stand before [b] in a descending list: its key is not smaller. *)
Definition not_below (a b : A) : Prop := ltb (key a) (key b) = false.
End Sorted.

(** Order of [str] *)
Definition str_ltb (a b : string) : bool :=
  match String_as_OT.compare a b with Lt => true | _ => false end.

(** ** A [dict] with string keys

    A dict keeps its keys in insertion order, and assigning to a key that is
    present keeps the key where it is. *)
Section Dict.
Context {V : Type}.

(** [d.get(k)] *)
Fixpoint dict_get (k : string) (d : list (string * V)) : option V :=
  match d with
  | [] => None
  | (k', v') :: d' => if String.eqb k k' then Some v' else dict_get k d'
  end.

(** [d[k] = v] *)
Fixpoint dict_set (k : string) (v : V) (d : list (string * V)) : list (string * V) :=
  match d with
  | [] => [(k, v)]
  | (k', v') :: d' =>
      if String.eqb k k' then (k, v) :: d' else (k', v') :: dict_set k v d'
  end.

(** [d.values()] *)
Definition dict_values (d : list (string * V)) : list V := map snd d.
End Dict.

End Py.

(** ** Catalog adapters *)

Module ApiClients.
Import PyStr Py.

Record Response := { status_code : Z; content : string }.

(** The dataclasses of the adapters.  The fields of the two JSON-backed ones
    hold whatever JSON value the remote document has there. *)
Module MinecraftVersion.
Record t := { id : json; type : json; url : json }.
End MinecraftVersion.

Module ForgeVersion.
Record t := { full_version : string; mc_version : string; forge_version : string }.
End ForgeVersion.

Module FabricLoaderVersion.
Record t := { version : json; stable : json }.
End FabricLoaderVersion.

Module NeoForgeVersion.
Record t := { full_version : string; mc_version : string; neoforge_version : string }.
End NeoForgeVersion.

Definition mojang_manifest_url : string :=
  "https://piston-meta.mojang.com/mc/game/version_manifest_v2.json".
Definition forge_metadata_url : string :=
  "https://maven.minecraftforge.net/net/minecraftforge/forge/maven-metadata.xml".
Definition fabric_loader_url (mc_version : string) : string :=
  "https://meta.fabricmc.net/v2/versions/loader/" +:+ mc_version.
Definition neoforge_metadata_url : string :=
  "https://maven.neoforged.net/releases/net/neoforged/neoforge/maven-metadata.xml".

Definition fabric_installer_index_url : string :=
  "https://meta.fabricmc.net/v2/versions/installer".

(** [ForgeVersion.get_installer_url] and [NeoForgeVersion.get_installer_url] *)
Definition forge_installer_url (self : ForgeVersion.t) : string :=
  "https://maven.minecraftforge.net/net/minecraftforge/forge/"
    +:+ ForgeVersion.full_version self +:+ "/forge-"
    +:+ ForgeVersion.full_version self +:+ "-installer.jar".

Definition neoforge_installer_url (self : NeoForgeVersion.t) : string :=
  "https://maven.neoforged.net/releases/net/neoforged/neoforge/"
    +:+ NeoForgeVersion.full_version self +:+ "/neoforge-"
    +:+ NeoForgeVersion.full_version self +:+ "-installer.jar".

Section Remote.
(** [_CLIENT.get(url, timeout=t)]: raises on a transport failure, otherwise
    gives the response whatever its status. *)
Variable client_get : string -> Z -> result Response.
(** The JSON and XML parsers: they give the document or raise.  On a
    payload that is not JSON the first raises [JSONDecodeError], on one that
    is not well-formed XML the second raises [ParseError]; either may raise
    something else. *)
Variable json_loads : string -> result json.
Variable ET_fromstring : string -> result element.

Definition raise_for_status (response : Response) : result unit :=
  if (400 <=? status_code response) && (status_code response <? 600)
  then Raise (HTTPError (status_code response))
  else Ok tt.

(** [response.json()]: the decode error of the parser is raised again as
    the one of [requests]; whatever else the parser raises passes through. *)
Definition response_json (response : Response) : result json :=
  match json_loads (content response) with
  | Ok data => Ok data
  | Raise e =>
      if is_JSONDecodeError e then Raise RequestsJSONDecodeError else Raise e
  end.

(** [ET.fromstring(payload)] *)
Definition fromstring (payload : string) : result element :=
  ET_fromstring payload.

Definition get_minecraft_versions (filter_type : string)
    : result (list MinecraftVersion.t) :=
  try_except
    (response ← client_get mojang_manifest_url 10;
     _ ← raise_for_status response;
     data ← response_json response;
     listed ← get_default data "versions" (JArr []);
     items ← iter listed;
     for_each (fun v_data =>
       keep ← (if negb (truthy filter_type) then Ok true
               else t ← get v_data "type"; Ok (eq_str t filter_type));
       if keep : bool then
         id ← getitem v_data "id";
         ty ← getitem v_data "type";
         url ← getitem v_data "url";
         Ok [ {| MinecraftVersion.id := id; MinecraftVersion.type := ty; MinecraftVersion.url := url |} ]
       else Ok []) items)
    is_RequestException
    (Ok []).

(** What one [<version>] node adds to the Forge list. *)
Definition forge_entry (mc_version : string) (version_node : element)
    : list ForgeVersion.t :=
  match text version_node with
  | Some full_version =>
      if truthy full_version && startswith full_version (mc_version +:+ "-")
      then match split1 "-" full_version with
           | [p0; p1] =>
               [ {| ForgeVersion.full_version := full_version;
                    ForgeVersion.mc_version := p0;
                    ForgeVersion.forge_version := p1 |} ]
           | _ => []
           end
      else []
  | None => []
  end.

Definition get_forge_versions (mc_version : string) : result (list ForgeVersion.t) :=
  try_except
    (response ← client_get forge_metadata_url 15;
     _ ← raise_for_status response;
     root ← fromstring (content response);
     let versions :=
       flat_map (forge_entry mc_version) (findall_below "version" root) in
     Ok (sorted_reverse str_ltb ForgeVersion.forge_version versions))
    (fun e => is_RequestException e || is_ParseError e)
    (Ok []).

(** The body of the [try] of [get_fabric_loader_versions]. *)
Definition fabric_loader_versions_try (mc_version : string)
    : result (list FabricLoaderVersion.t) :=
  response ← client_get (fabric_loader_url mc_version) 10;
  if status_code response =? 404 then Ok []
  else
    _ ← raise_for_status response;
    data ← response_json response;
    items ← iter data;
    for_each (fun item =>
      loader_data ← get item "loader";
      if truth loader_data then
        v ← getitem loader_data "version";
        st ← getitem loader_data "stable";
        Ok [ {| FabricLoaderVersion.version := v; FabricLoaderVersion.stable := st |} ]
      else Ok []) items.

Definition get_fabric_loader_versions (mc_version : string)
    : result (list FabricLoaderVersion.t) :=
  try_except
    (fabric_loader_versions_try mc_version)
    (fun e => is_RequestException e || is_JSONDecodeError e)
    (Ok []).

(** What one [<version>] node adds to the NeoForge list. *)
Definition neoforge_entry (mc_major_prefix : string) (version_node : element)
    : list NeoForgeVersion.t :=
  match text version_node with
  | Some full_version =>
      if truthy full_version && startswith full_version (mc_major_prefix +:+ ".")
      then [ {| NeoForgeVersion.full_version := full_version;
                NeoForgeVersion.mc_version := "1." +:+ List.hd EmptyString (split "." full_version);
                NeoForgeVersion.neoforge_version := full_version |} ]
      else []
  | None => []
  end.

Definition get_neoforge_versions (mc_version : string)
    : result (list NeoForgeVersion.t) :=
  match split "." mc_version with
  | _ :: mc_major_prefix :: _ =>
      try_except
        (response ← client_get neoforge_metadata_url 15;
         _ ← raise_for_status response;
         root ← fromstring (content response);
         let versions :=
           flat_map (neoforge_entry mc_major_prefix)
                    (findall_below "version" root) in
         Ok (sorted_reverse str_ltb NeoForgeVersion.full_version versions))
        (fun e => is_RequestException e || is_ParseError e)
        (Ok [])
  | _ => Ok []
  end.

(** [_CLIENT.get(url, timeout=t)] for a URL taken out of a JSON document: a
    string is fetched as before; what [requests] makes of any other value is
    left open. *)
Variable non_string_get : json -> Z -> result Response.

Definition client_get_value (url : json) (timeout : Z) : result Response :=
  match url with
  | JStr u => client_get u timeout
  | _ => non_string_get url timeout
  end.

(** [get_minecraft_download_url]; Python's [None] is [JNull]. *)
Definition get_minecraft_download_url (version_id : string) : result json :=
  all_versions ← get_minecraft_versions EmptyString;
  let version_url :=
    match List.find (fun v => eq_str (MinecraftVersion.id v) version_id) all_versions with
    | Some v => MinecraftVersion.url v
    | None => JNull
    end in
  if negb (truth version_url) then Ok JNull
  else
    try_except
      (response ← client_get_value version_url 10;
       _ ← raise_for_status response;
       data ← response_json response;
       downloads ← get_default data "downloads" (JObj []);
       server ← get_default downloads "server" (JObj []);
       get server "url")
      (fun e => is_RequestException e || is_JSONDecodeError e)
      (Ok JNull).

(** [get_fabric_installer_url] *)
Definition get_fabric_installer_url : result json :=
  try_except
    (response ← client_get fabric_installer_index_url 10;
     _ ← raise_for_status response;
     data ← response_json response;
     match data with
     | JArr (first :: _) => get first "url"
     | _ => Ok JNull
     end)
    (fun e => is_RequestException e || is_JSONDecodeError e)
    (Ok JNull).

End Remote.

(** The version strings of an index document: the text of every [<version>]
    node that has one, in document order. *)
Definition index_entries (root : element) : list string :=
  omap text (findall_below "version" root).

(** The ways a catalog fetch fails that an adapter absorbs: the transport
    raises, the server answers 404, or the parser declines the payload with
    its decode error ([declined] tells which errors these are). *)
Inductive fetch_failure {T} (parse : string -> result T) (declined : exn -> bool)
    : result Response -> Prop :=
| transport_error (e : exn) :
    is_RequestException e = true -> fetch_failure parse declined (Raise e)
| http_not_found (response : Response) :
    status_code response = 404 -> fetch_failure parse declined (Ok response)
| malformed_payload (response : Response) (e : exn) :
    parse (content response) = Raise e -> declined e = true ->
    fetch_failure parse declined (Ok response).

(** The value under [key] of a JSON object, [JNull] when there is none. *)
Definition field (key : string) (v : json) : json :=
  match v with
  | JObj fields => default JNull (assoc key fields)
  | _ => JNull
  end.

(** A JSON object that has all of [keys]. *)
Definition has_keys (keys : list string) (v : json) : Prop :=
  match v with
  | JObj fields => Forall (fun k => assoc k fields <> None) keys
  | _ => False
  end.

(** The version a manifest entry stands for, and whether it passes the
    filter of [get_minecraft_versions]. *)
Definition version_of_entry (v_data : json) : MinecraftVersion.t :=
  {| MinecraftVersion.id := field "id" v_data;
     MinecraftVersion.type := field "type" v_data;
     MinecraftVersion.url := field "url" v_data |}.

Definition passes_filter (filter_type : string) (v_data : json) : bool :=
  negb (truthy filter_type) || eq_str (field "type" v_data) filter_type.

(** The loader version an item of the Fabric loader index stands for, and
    whether the item has a loader at all. *)
Definition loader_of_item (item : json) : FabricLoaderVersion.t :=
  {| FabricLoaderVersion.version := field "version" (field "loader" item);
     FabricLoaderVersion.stable := field "stable" (field "loader" item) |}.

Definition has_loader (item : json) : bool := truth (field "loader" item).

(** An item of the Fabric loader index as the adapter expects it: an object
    whose loader, when it has one, has a version and a stability mark. *)
Definition loader_item_ok (item : json) : Prop :=
  (exists fields, item = JObj fields)
  /\ (has_loader item = true -> has_keys ["version"; "stable"] (field "loader" item)).

End ApiClients.

(** ** Java discovery *)

Module JavaFinder.
Import PyStr Py.

(** A [pathlib.PosixPath], as its [parts]; an absolute path starts with its
    root, the part ["/"] or, for a path written with exactly two leading
    slashes, ["//"]. *)
Abbreviation Path := (list string).

(** [p.parent]: the root is its own parent. *)
Definition parent (p : Path) : Path :=
  match p with
  | [root] => if startswith root "/" then p else []
  | _ => removelast p
  end.

(** The parts of a path written as [s]: the names between slashes, without
    the empty ones and the single dots, after the root if [s] starts with a
    slash. *)
Definition parts_of (s : string) : Path :=
  let names :=
    List.filter (fun name => negb (String.eqb name EmptyString || String.eqb name "."))
                (split "/" s) in
  if startswith s "/" then
    (if startswith s "//" && negb (startswith s "///") then "//" else "/") :: names
  else names.

(** [p / name]: the parts of [name] follow those of [p], unless [name] is
    absolute, which starts the path over. *)
Definition joinpath (p : Path) (name : string) : Path :=
  if startswith name "/" then parts_of name else p ++ parts_of name.

Record JavaInstallation := {
  java_home : Path;
  java_type : string;
  version : string;
  vendor : string;
  major_version : Z;
  display_alias : string;
  path_depth : nat
}.

(** [re.search] of the first pattern, the word [version], a space and the
    quoted group: group 1 of the leftmost match. *)
Fixpoint search_version (output : string) : option string :=
  match (match strip_prefix "version " output with
         | Some rest => quoted_at rest
         | None => None
         end) with
  | Some group => Some group
  | None =>
      match output with
      | EmptyString => None
      | String _ output' => search_version output'
      end
  end.

(** A match, at the start of [s] and ignoring case, of the second pattern:
    [openjdk] or [java], a space, [version], a space and the quoted group. *)
Definition vendor_version_at (s : string) : option string :=
  let after_name :=
    match strip_prefix_nocase "openjdk" s with
    | Some rest => Some rest
    | None => strip_prefix_nocase "java" s
    end in
  match after_name with
  | Some rest =>
      match strip_prefix_nocase " version " rest with
      | Some rest' => quoted_at rest'
      | None => None
      end
  | None => None
  end.

(** [re.search] of the second pattern with [re.IGNORECASE] *)
Fixpoint search_vendor_version (output : string) : option string :=
  match vendor_version_at output with
  | Some group => Some group
  | None =>
      match output with
      | EmptyString => None
      | String _ output' => search_vendor_version output'
      end
  end.

Section Numbers.
(** The decimal digits outside ASCII, and
    [sys.get_int_max_str_digits()]: 0 for no limit. *)
Variable wide_digit : string -> option (nat * Z).
Variable int_max_str_digits : nat.

(** [int(s)] on a run of digits *)
Definition int (s : string) : result Z :=
  let digits := digits_of wide_digit O s in
  if (int_str_digits_threshold <? length digits)%nat
     && (0 <? int_max_str_digits)%nat
     && (int_max_str_digits <? length digits)%nat
  then Raise ValueError
  else Ok (number_of digits).

(** The major version of a version string. *)
Definition major_version_of (version_str : string) : result Z :=
  let version_parts := findall_digits wide_digit version_str in
  match version_parts with
  | [] => Ok 0
  | first :: rest =>
      if String.eqb first "1" then
        match rest with
        | second :: _ => int second
        | [] => Ok 8
        end
      else int first
  end.

End Numbers.

(** The vendor named by the output of [java -version]. *)
Definition vendor_of (output : string) : string :=
  let output_lower := lower_text output in
  if contains "zulu" output_lower then "Zulu"
  else if contains "temurin" output_lower then "Eclipse Temurin"
  else if contains "graalvm" output_lower then "GraalVM"
  else if contains "oracle corporation" output_lower
          || (contains "java(tm) se" output_lower
              && negb (contains "openjdk" output_lower)) then "Oracle"
  else if contains "openjdk" output_lower then "OpenJDK"
  else "Unknown".

(** [f"{sanitized_vendor}{major_version}"] *)
Definition alias_of (vendor : string) (major_version : Z) : string :=
  let sanitized_vendor := replace "eclipse" EmptyString
                            (replace " " EmptyString (lower vendor)) in
  sanitized_vendor +:+ str major_version.

(** How [subprocess.run([java_exe, "-version"], ..., text=True, timeout=5)]
    ends: with the decoded output, or with an exception, which for output
    that is not text in the encoding of the locale is a
    [UnicodeDecodeError]. *)
Inductive run_outcome :=
| Completed (stdout : string)
| TimeoutExpired
| FileNotFoundError
| OtherOSError (message : string)
| UndecodableOutput.

Section Host.
(** The interpreter: the decimal digits outside ASCII, and the limit on the
    length of a number that [int] converts. *)
Variable wide_digit : string -> option (nat * Z).
Variable int_max_str_digits : nat.
(** The host: running a candidate, resolving symlinks, and file tests. *)
Variable run_java_version : Path -> run_outcome.
Variable resolve : Path -> Path.
Variable exists_ : Path -> bool.
Variable is_file : Path -> bool.
Variable access_X_OK : Path -> bool.
(** [os.environ.get('JAVA_HOME')], [shutil.which('java')], [Path(s)],
    [p.expanduser()], [p.is_dir()] and [p.rglob('bin/java')]. *)
Variable environ_JAVA_HOME : option string.
Variable which_java : option string.
Variable Path_of : string -> Path.
Variable expanduser : Path -> Path.
Variable is_dir : Path -> bool.
Variable rglob_bin_java : Path -> list Path.
(** The order in which a set of paths hands out its elements. *)
Variable iteration_order : gset Path -> list Path.

Definition get_java_details (java_exe : Path) : result (option JavaInstallation) :=
  match run_java_version java_exe with
  | Completed output =>
      let version_match :=
        match search_version output with
        | Some g => Some g
        | None => search_vendor_version output
        end in
      match version_match with
      | None => Ok None
      | Some version_str =>
          major_version ← major_version_of wide_digit int_max_str_digits version_str;
          let vendor := vendor_of output in
          let real_java_exe := resolve java_exe in
          let java_home := parent (parent real_java_exe) in
          let java_type :=
            if exists_ (joinpath (joinpath java_home "bin") "javac")
            then "JDK" else "JRE" in
          Ok (Some {| java_home := java_home;
                      java_type := java_type;
                      version := version_str;
                      vendor := vendor;
                      major_version := major_version;
                      display_alias := alias_of vendor major_version;
                      path_depth := length real_java_exe |})
      end
  | TimeoutExpired | FileNotFoundError => Ok None
  | OtherOSError message => Raise (OSError message)
  | UndecodableOutput => Raise UnicodeDecodeError
  end.

(** The state of the loop over the candidates. *)
Record finder_state := {
  found_installations : list (string * JavaInstallation);
  processed_homes : gset Path
}.

(** The update of [found_installations]: [details] is stored under its alias
    when the alias is new or [details] lies at a smaller depth than the
    installation stored there. *)
Definition keep_shallowest (found : list (string * JavaInstallation))
    (details : JavaInstallation) : list (string * JavaInstallation) :=
  match dict_get (display_alias details) found with
  | None => dict_set (display_alias details) details found
  | Some current =>
      if (path_depth details <? path_depth current)%nat
      then dict_set (display_alias details) details found
      else found
  end.

(** One iteration of the loop over [candidate_exes]: an [OSError] from the
    probe skips the candidate, any other exception leaves the loop. *)
Definition process_candidate (st : finder_state) (java_exe_candidate : Path)
    : result finder_state :=
  if negb (is_file java_exe_candidate) || negb (access_X_OK java_exe_candidate)
  then Ok st
  else
    try_except
      (details ← get_java_details java_exe_candidate;
       match details with
       | Some details =>
           if decide (java_home details ∈ processed_homes st) then Ok st
           else
             Ok {| found_installations :=
                     keep_shallowest (found_installations st) details;
                   processed_homes := {[ java_home details ]} ∪ processed_homes st |}
       | None => Ok st
       end)
      is_IOError (Ok st).

(** Steps 1 and 2 of [find_java_installations]: the candidates named by
    [JAVA_HOME] and by the [PATH], and every executable [bin/java] under a
    search path that is a directory. *)
Definition candidate_exes (search_paths : list string) : gset Path :=
  let from_java_home : gset Path :=
    match environ_JAVA_HOME with
    | Some java_home_env =>
        if truthy java_home_env
        then {[ joinpath (joinpath (Path_of java_home_env) "bin") "java" ]}
        else ∅
    | None => ∅
    end in
  let from_path : gset Path :=
    match which_java with
    | Some java_in_path =>
        if truthy java_in_path then {[ Path_of java_in_path ]} else ∅
    | None => ∅
    end in
  let under (search_path_str : string) : gset Path :=
    let search_path := expanduser (Path_of search_path_str) in
    if is_dir search_path
    then list_to_set (List.filter access_X_OK (rglob_bin_java search_path))
    else ∅ in
  from_java_home ∪ from_path ∪ ⋃ (map under search_paths).

(** Step 3, the loop over the candidates, and the final sort. *)
Fixpoint for_candidates (st : finder_state) (order : list Path)
    : result finder_state :=
  match order with
  | [] => Ok st
  | java_exe_candidate :: later =>
      st' ← process_candidate st java_exe_candidate;
      for_candidates st' later
  end.

Definition process_candidates (order : list Path) : result (list JavaInstallation) :=
  st ← for_candidates {| found_installations := []; processed_homes := ∅ |} order;
  Ok (sorted_reverse Z.ltb major_version (dict_values (found_installations st))).

Definition find_java_installations (search_paths : list string)
    : result (list JavaInstallation) :=
  process_candidates (iteration_order (candidate_exes search_paths)).

(** What the probe of one candidate yields, if anything. *)
Definition probe (java_exe_candidate : Path) : option JavaInstallation :=
  if negb (is_file java_exe_candidate) || negb (access_X_OK java_exe_candidate)
  then None
  else match get_java_details java_exe_candidate with
       | Ok (Some details) => Some details
       | _ => None
       end.

(** The installations left after dropping every one whose install root was
    seen before. *)
Fixpoint dedup_by_home (seen : gset Path) (l : list JavaInstallation)
    : list JavaInstallation :=
  match l with
  | [] => []
  | d :: l' =>
      if decide (java_home d ∈ seen) then dedup_by_home seen l'
      else d :: dedup_by_home ({[ java_home d ]} ∪ seen) l'
  end.

(** The discovered installations: every candidate probed, in the order of the
    loop, one installation per install root. *)
Definition discovered_in (order : list Path) : list JavaInstallation :=
  dedup_by_home ∅ (omap probe order).

Definition discovered (search_paths : list string) : list JavaInstallation :=
  discovered_in (iteration_order (candidate_exes search_paths)).

End Host.

(** What holds of the dict [found] once the installations [seen] have gone
    through [keep_shallowest]: keys are aliases, each stored installation is
    one of [seen] and none of [seen] with its alias lies at a smaller depth,
    and every alias of [seen] is a key. *)
Record shallowest_of (seen : list JavaInstallation)
    (found : list (string * JavaInstallation)) : Prop := {
  keys_unique : NoDup (map fst found);
  stored_minimal : forall k v, (k, v) ∈ found ->
    display_alias v = k /\ v ∈ seen /\
    forall c, c ∈ seen -> display_alias c = k -> (path_depth v <= path_depth c)%nat;
  aliases_present : forall c, c ∈ seen -> display_alias c ∈ map fst found
}.

End JavaFinder.

(** ** Console dialogue ([Utils]) *)

Module Utils.
Import PyStr Py.

Definition ESC : string := String "027"%char EmptyString.
Definition RESET : string := ESC +:+ "[0m".
Definition GREEN : string := ESC +:+ "[32m".

Definition colorize (text color : string) : string := color +:+ text +:+ RESET.

(** What the operator does at one call of [input()]: types a line, or hits
    CTRL+C.  When the script of keys is used up, standard input is at its
    end. *)
Inductive key :=
| Line (s : string)
| CtrlC.

(** How one call of [input()] ended. *)
Inductive answer :=
| Typed (s : string)
| AtEnd
| Interrupted.

(** The console: the keys still to come, and every prompt shown so far with
    what came back. *)
Record console := {
  stdin : list key;
  transcript : list (string * answer)
}.

(** [input(prompt)] *)
Definition input (prompt : string) (c : console) : result string * console :=
  match stdin c with
  | [] =>
      (Raise EOFError,
       {| stdin := []; transcript := transcript c ++ [(prompt, AtEnd)] |})
  | CtrlC :: rest =>
      (Raise KeyboardInterrupt,
       {| stdin := rest; transcript := transcript c ++ [(prompt, Interrupted)] |})
  | Line s :: rest =>
      (Ok s, {| stdin := rest; transcript := transcript c ++ [(prompt, Typed s)] |})
  end.

Section Dialogue.
(** [s.strip()], and [int(s)] with [None] for a [ValueError]. *)
Variable strip : string -> string.
Variable parse_int : string -> option Z.

(** The [while True] loop of [show_menu]; every round reads one key. *)
Fixpoint show_menu_loop (full_prompt : string) (n_items : nat)
    (keys : list key) (log : list (string * answer)) : result Z * console :=
  match keys with
  | [] =>
      (Raise EOFError,
       {| stdin := []; transcript := log ++ [(full_prompt, AtEnd)] |})
  | CtrlC :: rest =>
      (Raise KeyboardInterrupt,
       {| stdin := rest; transcript := log ++ [(full_prompt, Interrupted)] |})
  | Line s :: rest =>
      let log' := log ++ [(full_prompt, Typed s)] in
      let choice_str := lower (strip s) in
      if String.eqb choice_str "q" || String.eqb choice_str "quit"
      then (Ok (-1), {| stdin := rest; transcript := log' |})
      else
        match parse_int choice_str with
        | Some choice =>
            if (1 <=? choice) && (choice <=? Z.of_nat n_items)
            then (Ok choice, {| stdin := rest; transcript := log' |})
            else show_menu_loop full_prompt n_items rest log'
        | None => show_menu_loop full_prompt n_items rest log'
        end
  end.

(** [show_menu(title, prompt, items)]: the number chosen, from 1, or -1. *)
Definition show_menu (title prompt : string) (items : list string) (c : console)
    : result Z * console :=
  match items with
  | [] => (Ok (-1), c)
  | _ =>
      show_menu_loop (colorize prompt GREEN +:+ " (输入 'q' 退出): ")
        (length items) (stdin c) (transcript c)
  end.

(** The loop of [prompt_yes_no]. *)
Fixpoint prompt_yes_no_loop (full_prompt : string)
    (keys : list key) (log : list (string * answer)) : result (option bool) * console :=
  match keys with
  | [] =>
      (Raise EOFError,
       {| stdin := []; transcript := log ++ [(full_prompt, AtEnd)] |})
  | CtrlC :: rest =>
      (Raise KeyboardInterrupt,
       {| stdin := rest; transcript := log ++ [(full_prompt, Interrupted)] |})
  | Line s :: rest =>
      let log' := log ++ [(full_prompt, Typed s)] in
      let choice := lower (strip s) in
      if String.eqb choice "y" then (Ok (Some true), {| stdin := rest; transcript := log' |})
      else if String.eqb choice "n"
      then (Ok (Some false), {| stdin := rest; transcript := log' |})
      else if String.eqb choice "q" || String.eqb choice "quit"
      then (Ok None, {| stdin := rest; transcript := log' |})
      else prompt_yes_no_loop full_prompt rest log'
  end.

(** [prompt_yes_no(question)]: [True], [False], or [None] on [q]. *)
Definition prompt_yes_no (question : string) (c : console)
    : result (option bool) * console :=
  prompt_yes_no_loop (colorize question GREEN +:+ " (y/n/q): ")
    (stdin c) (transcript c).

End Dialogue.

(** What an answer to [prompt_yes_no] means, once stripped and lowered:
    [None] for an answer the loop does not accept. *)
Definition yes_no_meaning (choice : string) : option (option bool) :=
  if String.eqb choice "y" then Some (Some true)
  else if String.eqb choice "n" then Some (Some false)
  else if String.eqb choice "q" || String.eqb choice "quit" then Some None
  else None.

End Utils.

(** ** The manager ([MinecraftManager]) *)

Module MinecraftManager.
Import PyStr.

Inductive ServerType := VANILLA | FORGE | FABRIC | NEOFORGE.

Definition ServerType_eq_dec (a b : ServerType) : {a = b} + {a <> b}.
Proof. decide equality. Defined.

(** [stype.name] *)
Definition name (stype : ServerType) : string :=
  match stype with
  | VANILLA => "VANILLA"
  | FORGE => "FORGE"
  | FABRIC => "FABRIC"
  | NEOFORGE => "NEOFORGE"
  end.

(** [mod_version.split('-')[-1] if mod_version and '-' in mod_version
    else mod_version] *)
Definition mod_version_sanitized (mod_version : option string) : option string :=
  match mod_version with
  | Some m =>
      if truthy m && contains "-" m
      then Some (List.last (split "-" m) EmptyString)
      else mod_version
  | None => mod_version
  end.

Definition _get_server_dir_name
    (stype : ServerType) (mc_version : string) (mod_version : option string) : string :=
  match stype with
  | VANILLA => mc_version
  | _ =>
      mc_version +:+ "-" +:+ lower (name stype) +:+ "-"
        +:+ format_optional (mod_version_sanitized mod_version)
  end.

Definition _infer_server_type (dir_name : string) : ServerType :=
  let name := lower dir_name in
  if contains "-forge-" name then FORGE
  else if contains "-fabric-" name then FABRIC
  else if contains "-neoforge-" name then NEOFORGE
  else VANILLA.

Definition _infer_mc_version (dir_name : string) : string :=
  List.hd EmptyString (split "-" dir_name).

(** *** The Java saved for a server *)

Section SelectJava.
Import Py JavaFinder Utils.

(** The file system, with the operations the method calls.  [mkdir_parents]
    is [mkdir(parents=True, exist_ok=True)]. *)
Context {FS : Type}.
Variable exists_ : FS -> Path -> bool.
Variable read_text : FS -> Path -> result string.
Variable is_file : FS -> Path -> bool.
Variable access_X_OK : FS -> Path -> bool.
Variable mkdir_parents : Path -> FS -> result unit * FS.
Variable write_text : Path -> string -> FS -> result unit * FS.
(** [json.loads], [json.dumps(config, indent=2)], [Path(s)], [str(p)],
    [s.strip()] and [int(s)]. *)
Variable json_loads : string -> result json.
Variable json_dumps : json -> string.
Variable Path_of : string -> Path.
Variable str_of_path : Path -> string.
Variable strip : string -> string.
Variable parse_int : string -> option Z.

Record world := {
  fs : FS;
  terminal : console
}.

(** [str(inst)] *)
Definition installation_str (inst : JavaInstallation) : string :=
  display_alias inst +:+ " - " +:+ str_of_path (java_home inst)
    +:+ " (v: " +:+ version inst +:+ ", " +:+ vendor inst +:+ ")".

(** The check of the saved configuration: [Ok (Some p)] when the method
    returns [p] at once, [Ok None] when it goes on to ask the operator. *)
Definition saved_java (files : FS) (java_config_file : Path)
    : result (option string) :=
  if exists_ files java_config_file then
    try_except
      (content ← read_text files java_config_file;
       config ← json_loads content;
       java_path ← get_default config "javaPath" (JStr EmptyString);
       java_home ← match java_path with
                   | JStr p => Ok (Path_of p)
                   | _ => Raise TypeError
                   end;
       let java_exec := joinpath (joinpath java_home "bin") "java" in
       if is_file files java_exec && access_X_OK files java_exec
       then Ok (Some (str_of_path java_exec))
       else Ok None)
      (fun e => is_JSONDecodeError e || is_IOError e)
      (Ok None)
  else Ok None.

(** The question that offers to save the choice. *)
Definition save_question (selected_java : JavaInstallation) : string :=
  "是否将 " +:+ display_alias selected_java +:+ " 设置为此服务器的默认Java?".

Definition _select_java_for_version (mc_version : string) (server_dir : Path)
    (java_future : result (list JavaInstallation)) (w : world)
    : result (option string) * world :=
  let java_config_file := joinpath server_dir "java-path.json" in
  match saved_java (fs w) java_config_file with
  | Raise e => (Raise e, w)
  | Ok (Some java_exec) => (Ok (Some java_exec), w)
  | Ok None =>
      match java_future with
      | Raise e => (Raise e, w)
      | Ok [] => (Raise (OSError "未找到任何Java安装。请安装Java后重试。"), w)
      | Ok java_installations =>
          let display_items := map installation_str java_installations in
          let (choice, c1) :=
            show_menu strip parse_int
              ("为 MC " +:+ mc_version +:+ " 选择 Java 版本")
              "请选择要使用的 Java 版本：" display_items (terminal w) in
          match choice with
          | Raise e => (Raise e, {| fs := fs w; terminal := c1 |})
          | Ok choice =>
              if choice =? -1 then (Ok None, {| fs := fs w; terminal := c1 |})
              else
                match java_installations !! Z.to_nat (choice - 1) with
                | None => (Raise IndexError, {| fs := fs w; terminal := c1 |})
                | Some selected_java =>
                    let java_path :=
                      str_of_path
                        (joinpath (joinpath (java_home selected_java) "bin") "java") in
                    let (save_default, c2) :=
                      prompt_yes_no strip (save_question selected_java) c1 in
                    match save_default with
                    | Raise e => (Raise e, {| fs := fs w; terminal := c2 |})
                    | Ok (Some true) =>
                        let (made, fs1) := mkdir_parents server_dir (fs w) in
                        match made with
                        | Raise e => (Raise e, {| fs := fs1; terminal := c2 |})
                        | Ok _ =>
                            let config :=
                              JObj [("javaPath",
                                     JStr (str_of_path (java_home selected_java)))] in
                            let (written, fs2) :=
                              write_text java_config_file (json_dumps config) fs1 in
                            match written with
                            | Raise e => (Raise e, {| fs := fs2; terminal := c2 |})
                            | Ok _ =>
                                (Ok (Some java_path), {| fs := fs2; terminal := c2 |})
                            end
                        end
                    | Ok _ => (Ok (Some java_path), {| fs := fs w; terminal := c2 |})
                    end
                end
          end
      end
  end.

(** The operator confirmed: the last thing on the transcript is the save
    question, answered with [y]. *)
Definition confirmed_saving (c : console) : Prop :=
  exists selected_java line,
    last (transcript c)
      = Some (colorize (save_question selected_java) GREEN +:+ " (y/n/q): ", Typed line)
    /\ lower (strip line) = "y".

End SelectJava.

(** *** The supervisor: the main thread of [_start_server]

    The launch command is worked out from the server directory and handed
    to [Popen]; what follows here starts from the spawned process.  The
    trace lists, in order, what the main thread did and what it got back.

    CTRL+C raises [KeyboardInterrupt] in the main thread wherever it is.
    The model lets it arrive at the calls the main thread makes on the
    terminal and on the process: [input], [poll], the writes to the
    process's input, and [wait]. *)

(** How [server_process.poll()] ends: with the return code, [None] while the
    process runs, or with [KeyboardInterrupt]. *)
Inductive poll_outcome :=
| Status (returncode : option Z)
| PollInterrupted.

(** How [server_process.wait(timeout=60)] ends: the process has exited, the
    timeout expired ([TimeoutExpired], a [SubprocessError]), or CTRL+C came
    first ([KeyboardInterrupt]). *)
Inductive wait_outcome :=
| Exited (returncode : Z)
| TimedOut
| WaitInterrupted.

(** How a write to the process's input, flushed, ends: the line is in the
    pipe, the write raised an [OSError] such as [BrokenPipeError], or CTRL+C
    came first. *)
Inductive write_outcome :=
| Written
| WriteFailed (message : string)
| WriteInterrupted.

Inductive event :=
| Polled (returncode : option Z)
| InterruptedPoll
| Read (a : Utils.answer)
| Wrote (line : string) (o : write_outcome)
| Waited (timeout : Z) (o : wait_outcome)
| Killed.

(** The operator's shutdown signals: end of input, or CTRL+C. *)
Definition signal (a : Utils.answer) : Prop :=
  a = Utils.AtEnd \/ a = Utils.Interrupted.

(** How the [while] loop over the operator's input ends: the process has
    exited; the handler of the loop has sent the stop command and left the
    loop; forwarding a line raised an [OSError]; or a [KeyboardInterrupt]
    was raised outside the [try] of the loop body or inside its handler. *)
Inductive loop_exit :=
| ProcessEnded
| StopSent
| ForwardFailed (message : string)
| LoopInterrupted.

Section StartServer.
Import Py Utils.

(** The spawned process as the main thread sees it.  Every operation also
    lets the process run on, so it gives the state the process is left in. *)
Context {Proc : Type}.
Variable poll : Proc -> poll_outcome * Proc.
Variable stdin_write : string -> Proc -> write_outcome * Proc.
Variable wait : Z -> Proc -> wait_outcome * Proc.
Variable kill : Proc -> Proc.
Variable strip : string -> string.

(** [if server_process and server_process.poll() is None:
    server_process.kill()], the body of both outer [except] clauses; a
    [KeyboardInterrupt] raised there leaves the method. *)
Definition kill_if_running (p : Proc) : result unit * list event * Proc :=
  let (o, p1) := poll p in
  match o with
  | Status None => (Ok tt, [Polled None; Killed], kill p1)
  | Status (Some c) => (Ok tt, [Polled (Some c)], p1)
  | PollInterrupted => (Raise KeyboardInterrupt, [InterruptedPoll], p1)
  end.

(** [server_process.wait(timeout=60)] and the [except] clause it may reach. *)
Definition wait_for_exit (p : Proc) : result unit * list event * Proc :=
  let (o, p1) := wait 60 p in
  match o with
  | Exited _ => (Ok tt, [Waited 60 o], p1)
  | TimedOut | WaitInterrupted =>
      let '(r, evs, p2) := kill_if_running p1 in (r, Waited 60 o :: evs, p2)
  end.

(** The handler of [EOFError] and [KeyboardInterrupt] in the loop: the stop
    command is written, an [OSError] of the write is swallowed, and the
    loop is left; a [KeyboardInterrupt] during the write is not caught
    there. *)
Definition send_stop (p : Proc) : loop_exit * list event * Proc :=
  let (o, p1) := stdin_write ("stop" +:+ newline) p in
  (match o with WriteInterrupted => LoopInterrupted | _ => StopSent end,
   [Wrote ("stop" +:+ newline) o], p1).

(** [while server_process.poll() is None: ...]; every round reads one key. *)
Fixpoint input_loop (keys : list key) (p : Proc) : loop_exit * list event * Proc :=
  let (polled, p1) := poll p in
  match polled with
  | PollInterrupted => (LoopInterrupted, [InterruptedPoll], p1)
  | Status (Some c) => (ProcessEnded, [Polled (Some c)], p1)
  | Status None =>
      match keys with
      | [] =>
          let '(exit, evs, p2) := send_stop p1 in
          (exit, Polled None :: Read AtEnd :: evs, p2)
      | CtrlC :: _ =>
          let '(exit, evs, p2) := send_stop p1 in
          (exit, Polled None :: Read Interrupted :: evs, p2)
      | Line user_input :: rest =>
          if truthy (strip user_input) then
            let (o, p2) := stdin_write (user_input +:+ newline) p1 in
            match o with
            | Written =>
                let '(exit, evs, p3) := input_loop rest p2 in
                (exit,
                 Polled None :: Read (Typed user_input)
                   :: Wrote (user_input +:+ newline) o :: evs,
                 p3)
            | WriteFailed message =>
                (ForwardFailed message,
                 [Polled None; Read (Typed user_input);
                  Wrote (user_input +:+ newline) o],
                 p2)
            | WriteInterrupted =>
                let '(exit, evs, p3) := send_stop p2 in
                (exit,
                 Polled None :: Read (Typed user_input)
                   :: Wrote (user_input +:+ newline) o :: evs,
                 p3)
            end
          else
            let '(exit, evs, p3) := input_loop rest p1 in
            (exit, Polled None :: Read (Typed user_input) :: evs, p3)
      end
  end.

(** [_start_server] from the spawned process on.  An [OSError] from
    forwarding a line is caught by none of the [except] clauses; a
    [KeyboardInterrupt] that leaves the loop is caught by the second. *)
Definition _start_server (server_process : Proc) (keys : list key)
    : result unit * list event * Proc :=
  let '(exit, evs, p1) := input_loop keys server_process in
  match exit with
  | ForwardFailed message => (Raise (OSError message), evs, p1)
  | ProcessEnded | StopSent =>
      let '(r, evs', p2) := wait_for_exit p1 in (r, evs ++ evs', p2)
  | LoopInterrupted =>
      let '(r, evs', p2) := kill_if_running p1 in (r, evs ++ evs', p2)
  end.

(** The process after the main thread has done what a trace lists: each
    event names the operation that was applied to it. *)
Fixpoint replay (trace : list event) (p : Proc) : Proc :=
  match trace with
  | [] => p
  | Polled _ :: rest | InterruptedPoll :: rest => replay rest (snd (poll p))
  | Read _ :: rest => replay rest p
  | Wrote line _ :: rest => replay rest (snd (stdin_write line p))
  | Waited timeout _ :: rest => replay rest (snd (wait timeout p))
  | Killed :: rest => replay rest (kill p)
  end.

End StartServer.

(** The lines the main thread wrote, or tried to write, to the process; the
    lines the operator typed; and whether a shutdown signal reached the
    loop body: the end of the input or CTRL+C at the prompt, or CTRL+C
    while a typed line was being forwarded. *)
Fixpoint wrote_lines (trace : list event) : list string :=
  match trace with
  | [] => []
  | Wrote line _ :: rest => line :: wrote_lines rest
  | _ :: rest => wrote_lines rest
  end.

Fixpoint typed_lines (trace : list event) : list string :=
  match trace with
  | [] => []
  | Read (Utils.Typed s) :: rest => s :: typed_lines rest
  | _ :: rest => typed_lines rest
  end.

Fixpoint signalled (trace : list event) : bool :=
  match trace with
  | [] => false
  | Read Utils.AtEnd :: _ | Read Utils.Interrupted :: _
  | Wrote _ WriteInterrupted :: _ => true
  | _ :: rest => signalled rest
  end.

(** Whether the main thread waited for, or killed, the process. *)
Fixpoint waited_or_killed (trace : list event) : bool :=
  match trace with
  | [] => false
  | Waited _ _ :: _ | Killed :: _ => true
  | _ :: rest => waited_or_killed rest
  end.

(** *** The output thread of [_start_server]

    The spawned process writes lines into a pipe; the thread [read_output]
    takes them out one at a time and writes them to standard output.  The
    thread is a daemon and is never joined. *)

(** [output_thread.daemon] *)
Definition output_thread_daemon : bool := true.

Record stream := {
  pipe : list string;          (* written by the process, not yet read *)
  write_end_open : bool;       (* the process still holds its output open *)
  emitted : list string;       (* everything the process has written *)
  forwarded : list string;     (* everything written to standard output *)
  reader_finished : bool;      (* [read_output] has returned *)
  interpreter_exited : bool    (* the control flow is over *)
}.

Definition stream_start : stream :=
  {| pipe := []; write_end_open := true; emitted := []; forwarded := [];
     reader_finished := false; interpreter_exited := false |}.

(** What can happen next: the process writes a line; the process closes its
    output, by exiting or being killed; the output thread gets a turn; the
    control flow returns and the interpreter exits. *)
Inductive turn :=
| Emit (line : string)
| CloseOutput
| ReaderTurn
| InterpreterExit.

(** One round of [for line in iter(proc.stdout.readline, '')]: a line in the
    pipe is forwarded; on an empty pipe [readline] blocks while the process
    holds the pipe open and gives the empty string, which ends the loop,
    once it is closed.  A daemon thread gets no turn after the interpreter
    has exited. *)
Definition read_output_turn (s : stream) : stream :=
  if reader_finished s || (output_thread_daemon && interpreter_exited s) then s
  else
    match pipe s with
    | line :: rest =>
        {| pipe := rest; write_end_open := write_end_open s;
           emitted := emitted s; forwarded := forwarded s ++ [line];
           reader_finished := false; interpreter_exited := interpreter_exited s |}
    | [] =>
        if write_end_open s then s
        else
          {| pipe := []; write_end_open := false;
             emitted := emitted s; forwarded := forwarded s;
             reader_finished := true; interpreter_exited := interpreter_exited s |}
    end.

Definition take_turn (s : stream) (t : turn) : stream :=
  match t with
  | Emit line =>
      if write_end_open s then
        {| pipe := pipe s ++ [line]; write_end_open := true;
           emitted := emitted s ++ [line]; forwarded := forwarded s;
           reader_finished := reader_finished s;
           interpreter_exited := interpreter_exited s |}
      else s
  | CloseOutput =>
      {| pipe := pipe s; write_end_open := false;
         emitted := emitted s; forwarded := forwarded s;
         reader_finished := reader_finished s;
         interpreter_exited := interpreter_exited s |}
  | ReaderTurn => read_output_turn s
  | InterpreterExit =>
      {| pipe := pipe s; write_end_open := write_end_open s;
         emitted := emitted s; forwarded := forwarded s;
         reader_finished := reader_finished s;
         interpreter_exited := true |}
  end.

(** The state after a schedule of turns. *)
Definition run_schedule (schedule : list turn) (s : stream) : stream :=
  fold_left take_turn schedule s.

(** *** Installed servers, and the prompts of an installation *)

(** [l[i]]: a negative index counts from the end. *)
Definition list_getitem {A} (l : list A) (i : Z) : Py.result A :=
  let n := Z.of_nat (length l) in
  let j := if i <? 0 then i + n else i in
  if (0 <=? j) && (j <? n) then
    match l !! Z.to_nat j with
    | Some x => Py.Ok x
    | None => Py.Raise Py.IndexError
    end
  else Py.Raise Py.IndexError.

(** [p.name]: the last part, and nothing for the root. *)
Definition path_name (p : JavaFinder.Path) : string :=
  match p with
  | [root] => if PyStr.startswith root "/" then EmptyString else root
  | _ => List.last p EmptyString
  end.

Definition MINECRAFT_SERVER_BASE_DIR : JavaFinder.Path := ["minecraft_server"].

(** [dict(items)] *)
Definition dict_of_items {V} (items : list (string * V)) : list (string * V) :=
  fold_left (fun d kv => Py.dict_set (fst kv) (snd kv) d) items [].

Section Installed.
Import Py JavaFinder Utils.

Context {FS : Type}.
Variable exists_ : FS -> Path -> bool.
Variable is_dir : FS -> Path -> bool.
(** [p.iterdir()], as the list of the children it yields. *)
Variable iterdir : FS -> Path -> result (list Path).
Variable read_text : FS -> Path -> result string.
(** [p.mkdir(exist_ok=True)] and [p.write_text(s)] *)
Variable mkdir : Path -> FS -> result unit * FS.
Variable write_text : Path -> string -> FS -> result unit * FS.
Variable strip : string -> string.
Variable parse_int : string -> option Z.

(** Whether a child of the base directory counts as an installed server. *)
Definition is_server_dir (files : FS) (version_dir : Path) : bool :=
  is_dir files version_dir && exists_ files (joinpath version_dir "eula.txt").

Definition _get_installed_versions (files : FS) : result (list (string * Path)) :=
  if negb (is_dir files MINECRAFT_SERVER_BASE_DIR) then Ok []
  else
    children ← iterdir files MINECRAFT_SERVER_BASE_DIR;
    let installed :=
      fold_left (fun installed version_dir =>
                   if is_server_dir files version_dir
                   then dict_set (path_name version_dir) version_dir installed
                   else installed)
                children [] in
    Ok (dict_of_items (sorted_reverse str_ltb fst installed)).

Definition _select_existing_server (installed_versions : list (string * Path))
    (c : console) : result (option Path) * console :=
  let version_ids := map fst installed_versions in
  let (choice, c1) :=
    show_menu strip parse_int "选择要启动的 Minecraft 服务器"
      "请选择已安装的服务器：" version_ids c in
  match choice with
  | Raise e => (Raise e, c1)
  | Ok choice =>
      if choice =? -1 then (Ok None, c1)
      else
        match list_getitem version_ids (choice - 1) with
        | Raise e => (Raise e, c1)
        | Ok version_id =>
            match dict_get version_id installed_versions with
            | Some version_dir => (Ok (Some version_dir), c1)
            | None => (Raise (KeyError version_id), c1)
            end
        end
  end.

(** The test at the head of [_accept_eula]: the file is there, can be read
    and holds [eula=true].  An [IOError] from reading counts as no. *)
Definition eula_accepted (files : FS) (eula_file : Path) : result bool :=
  if exists_ files eula_file then
    try_except
      (content ← read_text files eula_file;
       Ok (contains "eula=true" content))
      is_IOError
      (Ok false)
  else Ok false.

Definition _accept_eula (eula_file : Path) (files : FS) : result unit * FS :=
  match eula_accepted files eula_file with
  | Raise e => (Raise e, files)
  | Ok true => (Ok tt, files)
  | Ok false =>
      let (made, fs1) := mkdir (parent eula_file) files in
      match made with
      | Raise e => (Raise e, fs1)
      | Ok _ => write_text eula_file ("eula=true" +:+ newline) fs1
      end
  end.

End Installed.

Section Prompts.
Import Py ApiClients Utils.

Variable strip : string -> string.
Variable parse_int : string -> option Z.
(** [f"{v}"] of a JSON value *)
Variable format_value : json -> string.

(** [bool(l)] of a list *)
Definition bool_of_list {A} (l : list A) : bool :=
  match l with
  | [] => false
  | _ :: _ => true
  end.

(** The [availability] dict of [_prompt_for_server_type], in the order of
    its keys. *)
Definition availability {A B C} (forge : list A) (fabric : list B)
    (neoforge : list C) : list (ServerType * bool) :=
  [(VANILLA, true);
   (FORGE, bool_of_list forge);
   (FABRIC, bool_of_list fabric);
   (NEOFORGE, bool_of_list neoforge)].

(** [_prompt_for_server_type], from the point where the three fetches are
    done; a fetch that raised raises again when its result is asked for. *)
Definition _prompt_for_server_type (mc_version : string)
    (forge_future : result (list ForgeVersion.t))
    (fabric_future : result (list FabricLoaderVersion.t))
    (neoforge_future : result (list NeoForgeVersion.t)) (c : console)
    : result (option ServerType) * console :=
  match (forge ← forge_future;
         fabric ← fabric_future;
         neoforge ← neoforge_future;
         Ok (availability forge fabric neoforge)) with
  | Raise e => (Raise e, c)
  | Ok availability =>
      let available_types := map fst (List.filter snd availability) in
      let available_display := map name available_types in
      match available_types with
      | [only] => (Ok (Some only), c)
      | _ =>
          let (choice, c1) :=
            show_menu strip parse_int
              ("为 MC " +:+ mc_version +:+ " 选择服务端类型")
              "请选择类型:" available_display c in
          match choice with
          | Raise e => (Raise e, c1)
          | Ok choice =>
              if negb (choice =? -1) then
                match list_getitem available_types (choice - 1) with
                | Ok stype => (Ok (Some stype), c1)
                | Raise e => (Raise e, c1)
                end
              else (Ok None, c1)
          end
      end
  end.

(** The inner function of [_prompt_for_mod_loader_version]. *)
Definition select_from_list {A} (name : string) (display_versions : list string)
    (return_values : list A) (c : console) : result (option A) * console :=
  match display_versions with
  | [] => (Ok None, c)
  | _ =>
      let (choice, c1) :=
        show_menu strip parse_int ("选择 " +:+ name +:+ " 具体版本")
          ("请选择 " +:+ name +:+ " 服务端版本：") display_versions c in
      match choice with
      | Raise e => (Raise e, c1)
      | Ok choice =>
          if negb (choice =? -1) then
            match list_getitem return_values (choice - 1) with
            | Ok value => (Ok (Some value), c1)
            | Raise e => (Raise e, c1)
            end
          else (Ok None, c1)
      end
  end.

(** [_prompt_for_mod_loader_version]; a Forge or NeoForge version is a
    string, a Fabric one is what the loader index holds. *)
Definition _prompt_for_mod_loader_version (server_type : ServerType)
    (forge_versions : list ForgeVersion.t)
    (fabric_versions : list FabricLoaderVersion.t)
    (neoforge_versions : list NeoForgeVersion.t) (c : console)
    : result (option json) * console :=
  match server_type with
  | FORGE =>
      select_from_list "Forge"
        (map ForgeVersion.forge_version forge_versions)
        (map (fun v => JStr (ForgeVersion.full_version v)) forge_versions) c
  | FABRIC =>
      select_from_list "Fabric"
        (map (fun v => format_value (FabricLoaderVersion.version v) +:+ " "
                       +:+ (if truth (FabricLoaderVersion.stable v)
                            then "(stable)" else EmptyString))
             fabric_versions)
        (map FabricLoaderVersion.version fabric_versions) c
  | NEOFORGE =>
      select_from_list "NeoForge"
        (map NeoForgeVersion.neoforge_version neoforge_versions)
        (map (fun v => JStr (NeoForgeVersion.full_version v)) neoforge_versions) c
  | VANILLA => (Ok None, c)
  end.

End Prompts.

(** *** Installing the server files, and the launch command *)

(** How [subprocess.Popen(command, ...)], the copying of its output and
    [process.wait()] end: the process returned, starting it raised a
    [SubprocessError] or a [FileNotFoundError], or something else was
    raised. *)
Inductive spawn_outcome :=
| Returned (returncode : Z)
| SpawnFailed (message : string)
| SpawnRaised (e : Py.exn).

(** What [_install_server_core] does to the file system, in order. *)
Inductive install_step :=
| MakeDirs (p : JavaFinder.Path)
| Download (url : Py.json) (target : JavaFinder.Path)
| RunInstaller (command : list string) (work_dir : JavaFinder.Path)
               (o : spawn_outcome)
| Unlink (p : JavaFinder.Path).

Section InstallCore.
Import Py ApiClients JavaFinder.

Context {FS : Type}.
Variable client_get : string -> Z -> result Response.
Variable json_loads : string -> result json.
Variable non_string_get : json -> Z -> result Response.
(** [p.mkdir(parents=True, exist_ok=True)]; the body of the [try] of
    [_download_file]; [str(e)]; the child process; [p.unlink()]. *)
Variable mkdir_parents : Path -> FS -> result unit * FS.
Variable http_download : json -> Path -> FS -> result unit * FS.
Variable describe : exn -> string.
Variable popen_run : list string -> Path -> FS -> spawn_outcome * FS.
Variable unlink : Path -> FS -> result unit * FS.

Definition _download_file (url : json) (target : Path) (files : FS)
    : result unit * FS :=
  let (r, fs1) := http_download url target files in
  match r with
  | Raise e =>
      if is_RequestException e
      then (Raise (OSError ("下载失败: " +:+ describe e)), fs1)
      else (Raise e, fs1)
  | Ok _ => (Ok tt, fs1)
  end.

(** [_run_process], with what the child did. *)
Definition _run_process (command : list string) (work_dir : Path) (files : FS)
    : result unit * spawn_outcome * FS :=
  let (o, fs1) := popen_run command work_dir files in
  match o with
  | Returned returncode =>
      if negb (returncode =? 0)
      then (Raise (OSError ("安装子进程失败，退出码: " +:+ str returncode)), o, fs1)
      else (Ok tt, o, fs1)
  | SpawnFailed message =>
      (Raise (OSError ("执行安装命令失败: " +:+ message)), o, fs1)
  | SpawnRaised e => (Raise e, o, fs1)
  end.

(** A step of the installation: it returns or raises, leaves a trace and
    a file system. *)
Definition installing (A : Type) : Type := FS -> result A * list install_step * FS.

Definition and_then {A B} (m : installing A) (k : A -> installing B)
    : installing B :=
  fun files =>
    match m files with
    | (Ok a, t1, fs1) => let '(r, t2, fs2) := k a fs1 in (r, t1 ++ t2, fs2)
    | (Raise e, t1, fs1) => (Raise e, t1, fs1)
    end.

Definition quietly {A} (r : result A) : installing A :=
  fun files => (r, [], files).

Definition logged (s : install_step) (op : FS -> result unit * FS)
    : installing unit :=
  fun files => let (r, fs1) := op files in (r, [s], fs1).

Definition download (url : json) (target : Path) : installing unit :=
  logged (Download url target) (_download_file url target).

Definition run_installer (command : list string) (work_dir : Path)
    : installing unit :=
  fun files =>
    let '(r, o, fs1) := _run_process command work_dir files in
    (r, [RunInstaller command work_dir o], fs1).

Definition _install_server_core (stype : ServerType) (mc_version : string)
    (mod_version : option string) (server_dir : Path) (java_path : string)
    : installing unit :=
  and_then (logged (MakeDirs server_dir) (mkdir_parents server_dir)) (fun _ =>
  match stype with
  | VANILLA =>
      and_then (quietly (get_minecraft_download_url client_get json_loads
                           non_string_get mc_version)) (fun url =>
      if negb (truth url)
      then quietly (Raise (OSError ("获取 Vanilla " +:+ mc_version
                                      +:+ " 下载链接失败。")))
      else
        let target_jar :=
          joinpath server_dir
            (_get_server_dir_name stype mc_version None +:+ ".jar") in
        download url target_jar)
  | FABRIC =>
      and_then (quietly (get_fabric_installer_url client_get json_loads)) (fun url =>
      if negb (truth url)
      then quietly (Raise (OSError "获取 Fabric 安装程序下载链接失败。"))
      else
        let installer_jar := joinpath server_dir "fabric-installer.jar" in
        and_then (download url installer_jar) (fun _ =>
        and_then (match mod_version with
                  | Some loader =>
                      run_installer
                        [java_path; "-jar"; path_name installer_jar; "server";
                         "-mcversion"; mc_version; "-loader"; loader;
                         "-downloadMinecraft"] server_dir
                  | None => quietly (Raise TypeError)
                  end) (fun _ =>
        logged (Unlink installer_jar) (unlink installer_jar))))
  | FORGE | NEOFORGE =>
      let url :=
        match stype with
        | FORGE =>
            forge_installer_url
              {| ForgeVersion.full_version := format_optional mod_version;
                 ForgeVersion.mc_version := mc_version;
                 ForgeVersion.forge_version := EmptyString |}
        | _ =>
            neoforge_installer_url
              {| NeoForgeVersion.full_version := format_optional mod_version;
                 NeoForgeVersion.mc_version := mc_version;
                 NeoForgeVersion.neoforge_version := EmptyString |}
        end in
      let installer_jar :=
        joinpath server_dir (lower (name stype) +:+ "-installer.jar") in
      and_then (download (JStr url) installer_jar) (fun _ =>
      and_then (run_installer
                  [java_path; "-jar"; path_name installer_jar; "--installServer"]
                  server_dir) (fun _ =>
      logged (Unlink installer_jar) (unlink installer_jar)))
  end).

End InstallCore.

Section Launch.
Import Py JavaFinder.

Context {FS : Type}.
(** [list(server_dir.glob('**/unix_args.txt'))], [p.exists()],
    [p.read_text()], [os.chmod(p, 0o755)], [s.strip()], [shlex.split(s)],
    [str(p)] and [p.resolve()]. *)
Variable glob_unix_args : FS -> Path -> list Path.
Variable exists_ : FS -> Path -> bool.
Variable read_text : FS -> Path -> result string.
Variable chmod_755 : Path -> FS -> result unit * FS.
Variable strip : string -> string.
Variable shlex_split : string -> result (list string).
Variable str_of_path : Path -> string.
Variable resolve : Path -> Path.

(** The command that [_start_server] hands to [Popen]. *)
Definition launch_command (stype : ServerType) (java_path : string)
    (server_dir : Path) (files : FS) : result (list string) * FS :=
  match stype with
  | FORGE | NEOFORGE =>
      match glob_unix_args files server_dir with
      | args_file :: _ =>
          let jvm_args_file := joinpath server_dir "user_jvm_args.txt" in
          (jvm_args ← (if exists_ files jvm_args_file
                       then text ← read_text files jvm_args_file; Ok (strip text)
                       else Ok EmptyString);
           args_text ← read_text files args_file;
           let main_args :=
             replace "@user_jvm_args.txt" jvm_args (strip args_text) in
           words ← shlex_split main_args;
           Ok (java_path :: words),
           files)
      | [] =>
          let run_script := joinpath server_dir "run.sh" in
          if negb (exists_ files run_script)
          then (Raise (OSError ("启动脚本 " +:+ str_of_path (resolve run_script)
                                  +:+ " 未找到!")),
                files)
          else
            let (changed, fs1) := chmod_755 run_script files in
            match changed with
            | Raise e => (Raise e, fs1)
            | Ok _ => (Ok ["/bin/bash"; str_of_path run_script], fs1)
            end
      end
  | FABRIC =>
      (Ok [java_path; "-Xmx2G"; "-Xms1G"; "-jar"; "fabric-server-launch.jar";
           "nogui"],
       files)
  | VANILLA =>
      (Ok [java_path; "-Xmx2G"; "-Xms1G"; "-jar";
           path_name server_dir +:+ ".jar"; "nogui"],
       files)
  end.

End Launch.

(** The steps of a trace that remove a file. *)
Definition is_unlink (s : install_step) : bool :=
  match s with Unlink _ => true | _ => false end.

(** *** Choosing the base version *)

(** The inner function of [_prompt_for_mc_version]. *)
Definition get_major_minor (v_id : string) : string :=
  match split "." v_id with
  | p0 :: p1 :: _ => p0 +:+ "." +:+ p1
  | _ => v_id
  end.

(** The ids of the versions as strings; [v.id.split] raises
    [AttributeError] at the first id that is not one. *)
Fixpoint version_ids (all_versions : list ApiClients.MinecraftVersion.t)
    : Py.result (list string) :=
  match all_versions with
  | [] => Py.Ok []
  | v :: rest =>
      match ApiClients.MinecraftVersion.id v with
      | Py.JStr v_id =>
          match version_ids rest with
          | Py.Ok ids => Py.Ok (v_id :: ids)
          | Py.Raise e => Py.Raise e
          end
      | _ => Py.Raise Py.AttributeError
      end
  end.

(** [sorted(list(set(series)), reverse=True)]: the distinct series, which
    being distinct have one descending order. *)
Definition major_series_of (ids : list string) : list string :=
  Py.sorted_reverse Py.str_ltb (fun s => s) (remove_dups (map get_major_minor ids)).

Section PromptVersion.
Import Py ApiClients Utils.

Variable client_get : string -> Z -> result Response.
Variable json_loads : string -> result json.
Variable strip : string -> string.
Variable parse_int : string -> option Z.

Definition _prompt_for_mc_version (c : console) : result (option string) * console :=
  match get_minecraft_versions client_get json_loads "release" with
  | Raise e => (Raise e, c)
  | Ok all_versions =>
      if negb (bool_of_list all_versions)
      then (Raise (OSError "未能获取到 Minecraft 版本列表。"), c)
      else
        match version_ids all_versions with
        | Raise e => (Raise e, c)
        | Ok ids =>
            let major_series := major_series_of ids in
            let (choice, c1) :=
              show_menu strip parse_int "选择 Minecraft 主要版本系列"
                "请选择版本系列：" major_series c in
            match choice with
            | Raise e => (Raise e, c1)
            | Ok choice =>
                if choice =? -1 then (Ok None, c1)
                else
                  match list_getitem major_series (choice - 1) with
                  | Raise e => (Raise e, c1)
                  | Ok selected_series =>
                      let specific_versions :=
                        List.filter
                          (fun v_id => String.eqb (get_major_minor v_id) selected_series)
                          ids in
                      let (choice, c2) :=
                        show_menu strip parse_int "选择 Minecraft 具体版本"
                          "请选择服务端版本：" specific_versions c1 in
                      match choice with
                      | Raise e => (Raise e, c2)
                      | Ok choice =>
                          if choice =? -1 then (Ok None, c2)
                          else
                            match list_getitem specific_versions (choice - 1) with
                            | Raise e => (Raise e, c2)
                            | Ok v_id => (Ok (Some v_id), c2)
                            end
                      end
                  end
            end
        end
  end.

End PromptVersion.

(** *** A new installation *)

(** The question asked when the directory of the new server is there. *)
Definition overwrite_question (server_dir_name : string) : string :=
  "目录 " +:+ server_dir_name +:+ " 已存在。是否覆盖安装?".

Section InstallNew.
Import Py ApiClients JavaFinder Utils.

Context {FS : Type}.
Variable client_get : string -> Z -> result Response.
Variable json_loads : string -> result json.
Variable ET_fromstring : string -> result element.
Variable non_string_get : json -> Z -> result Response.
Variable strip : string -> string.
Variable parse_int : string -> option Z.
Variable format_value : json -> string.
Variable exists_ : FS -> Path -> bool.
Variable read_text : FS -> Path -> result string.
Variable is_file : FS -> Path -> bool.
Variable access_X_OK : FS -> Path -> bool.
Variable mkdir_parents : Path -> FS -> result unit * FS.
Variable write_text : Path -> string -> FS -> result unit * FS.
Variable mkdir : Path -> FS -> result unit * FS.
(** [shutil.rmtree(p)] *)
Variable rmtree : Path -> FS -> result unit * FS.
Variable http_download : json -> Path -> FS -> result unit * FS.
Variable describe : exn -> string.
Variable popen_run : list string -> Path -> FS -> spawn_outcome * FS.
Variable unlink : Path -> FS -> result unit * FS.
Variable json_dumps : json -> string.
Variable Path_of : string -> Path.
Variable str_of_path : Path -> string.
(** What the method goes on to do with a loader version that is not a
    string, which a Fabric index may hold; it is left open. *)
Variable exotic_version :
  ServerType -> string -> json -> @world FS ->
  result (option (Path * string)) * @world FS.

(** A dialogue leaves the files alone; a file operation the console. *)
Definition on_terminal {A} (dialogue : console -> result A * console)
    (w : @world FS) : result A * @world FS :=
  let (r, c1) := dialogue (terminal w) in
  (r, {| fs := fs w; terminal := c1 |}).

Definition on_files {A} (operation : FS -> result A * FS)
    (w : @world FS) : result A * @world FS :=
  let (r, fs1) := operation (fs w) in
  (r, {| fs := fs1; terminal := terminal w |}).

(** Step 4 of [_install_new_server], from the test of the directory on:
    [Ok true] when the way is clear, [Ok false] when the method returns
    [None]. *)
Definition clear_server_dir (server_dir_name : string) (server_dir : Path)
    (w : @world FS) : result bool * @world FS :=
  if exists_ (fs w) server_dir then
    let (overwrite, w1) :=
      on_terminal (prompt_yes_no strip (overwrite_question server_dir_name)) w in
    match overwrite with
    | Raise e => (Raise e, w1)
    | Ok (Some true) =>
        let (removed, w2) := on_files (rmtree server_dir) w1 in
        match removed with
        | Raise e => (Raise e, w2)
        | Ok _ => (Ok true, w2)
        end
    | Ok _ => (Ok false, w1)
    end
  else (Ok true, w).

(** Steps 4 to 6 of [_install_new_server]. *)
Definition install_chosen (server_type : ServerType) (mc_version : string)
    (mod_version : option string)
    (java_future : result (list JavaInstallation)) (w : @world FS)
    : result (option (Path * string)) * @world FS :=
  let server_dir_name := _get_server_dir_name server_type mc_version mod_version in
  let server_dir := joinpath MINECRAFT_SERVER_BASE_DIR server_dir_name in
  let (cleared, w1) := clear_server_dir server_dir_name server_dir w in
  match cleared with
  | Raise e => (Raise e, w1)
  | Ok false => (Ok None, w1)
  | Ok true =>
      let (java, w2) :=
        _select_java_for_version exists_ read_text is_file access_X_OK
          mkdir_parents write_text json_loads json_dumps Path_of str_of_path
          strip parse_int mc_version server_dir java_future w1 in
      match java with
      | Raise e => (Raise e, w2)
      | Ok None => (Ok None, w2)
      | Ok (Some java_path) =>
          if negb (truthy java_path) then (Ok None, w2)
          else
            let (installed, w3) :=
              on_files (fun files =>
                          let '(r, _, fs1) :=
                            _install_server_core client_get json_loads
                              non_string_get mkdir_parents http_download describe
                              popen_run unlink server_type mc_version mod_version
                              server_dir java_path files in
                          (r, fs1)) w2 in
            match installed with
            | Raise e => (Raise e, w3)
            | Ok _ =>
                let (accepted, w4) :=
                  on_files (_accept_eula exists_ read_text mkdir write_text
                              (joinpath server_dir "eula.txt")) w3 in
                match accepted with
                | Raise e => (Raise e, w4)
                | Ok _ => (Ok (Some (server_dir, java_path)), w4)
                end
            end
      end
  end.

(** Steps 1 to 3 of [_install_new_server]: the base version, the server
    type and the loader version the operator chose, or [None] where the
    method returns [None].  The three fetches of step 2 are the calls of the
    adapters, whose results the futures hand out. *)
Definition choose_server (w : @world FS)
    : result (option (ServerType * string * option json)) * @world FS :=
  let (chosen, w1) :=
    on_terminal (_prompt_for_mc_version client_get json_loads strip parse_int) w in
  match chosen with
  | Raise e => (Raise e, w1)
  | Ok None => (Ok None, w1)
  | Ok (Some mc_version) =>
      if negb (truthy mc_version) then (Ok None, w1)
      else
        let forge_future := get_forge_versions client_get ET_fromstring mc_version in
        let fabric_future :=
          get_fabric_loader_versions client_get json_loads mc_version in
        let neoforge_future :=
          get_neoforge_versions client_get ET_fromstring mc_version in
        let (offered, w2) :=
          on_terminal (_prompt_for_server_type strip parse_int mc_version
                         forge_future fabric_future neoforge_future) w1 in
        match offered with
        | Raise e => (Raise e, w2)
        | Ok None => (Ok None, w2)
        | Ok (Some server_type) =>
            if ServerType_eq_dec server_type VANILLA
            then (Ok (Some (server_type, mc_version, None)), w2)
            else
              match (forge_versions ← forge_future;
                     fabric_versions ← fabric_future;
                     neoforge_versions ← neoforge_future;
                     Ok (forge_versions, fabric_versions, neoforge_versions)) with
              | Raise e => (Raise e, w2)
              | Ok (forge_versions, fabric_versions, neoforge_versions) =>
                  let (picked, w3) :=
                    on_terminal (_prompt_for_mod_loader_version strip parse_int
                                   format_value server_type forge_versions
                                   fabric_versions neoforge_versions) w2 in
                  match picked with
                  | Raise e => (Raise e, w3)
                  | Ok None => (Ok None, w3)
                  | Ok (Some mod_version) =>
                      if negb (truth mod_version) then (Ok None, w3)
                      else (Ok (Some (server_type, mc_version, Some mod_version)),
                            w3)
                  end
              end
        end
  end.

(** [_install_new_server]: steps 1 to 3, then steps 4 to 6 with what was
    chosen. *)
Definition _install_new_server (java_future : result (list JavaInstallation))
    (w : @world FS) : result (option (Path * string)) * @world FS :=
  let (chosen, w1) := choose_server w in
  match chosen with
  | Raise e => (Raise e, w1)
  | Ok None => (Ok None, w1)
  | Ok (Some (server_type, mc_version, None)) =>
      install_chosen server_type mc_version None java_future w1
  | Ok (Some (server_type, mc_version, Some (JStr m))) =>
      install_chosen server_type mc_version (Some m) java_future w1
  | Ok (Some (server_type, mc_version, Some mod_version)) =>
      exotic_version server_type mc_version mod_version w1
  end.

End InstallNew.

End MinecraftManager.

(** ** Sample hosts and remotes *)

Module Samples.
Import PyStr Py ApiClients JavaFinder.

Definition quoted (s : string) : string :=
  String dquote (s +:+ String dquote EmptyString).

(** What an OpenJDK 17 prints for [java -version] (first line). *)
Definition openjdk17_output : string :=
  "openjdk version " +:+ quoted "17.0.2" +:+ " 2022-01-18".

(** What a Java 8 prints (first line). *)
Definition java8_output : string :=
  "java version " +:+ quoted "1.8.0_291".

Definition opt_java : Path := ["/"; "opt"; "jdk-17"; "bin"; "java"].
Definition jvm_java : Path := ["/"; "usr"; "lib"; "jvm"; "java-17"; "bin"; "java"].
Definition jvm_java8 : Path := ["/"; "usr"; "lib"; "jvm"; "java-8"; "bin"; "java"].

(** A host with two OpenJDK 17 at different depths and one Java 8. *)
Definition host_run (java_exe : Path) : run_outcome :=
  if decide (java_exe = opt_java) then Completed openjdk17_output
  else if decide (java_exe = jvm_java) then Completed openjdk17_output
  else if decide (java_exe = jvm_java8) then Completed java8_output
  else FileNotFoundError.

(** [Path(s)] for the few strings the samples use. *)
Definition sample_Path_of (s : string) : Path :=
  if String.eqb s "/opt/jdk-17" then ["/"; "opt"; "jdk-17"]
  else if String.eqb s "/opt/jdk-17/bin/java" then opt_java
  else if String.eqb s "/usr/lib/jvm" then ["/"; "usr"; "lib"; "jvm"]
  else if String.eqb s "/usr/bin/java" then ["/"; "usr"; "bin"; "java"]
  else [s].

Definition host_resolve (p : Path) : Path := p.

(** The same host with [/usr/bin/java], a symbolic link to the OpenJDK 17
    under [/usr/lib/jvm]. *)
Definition usr_bin_java : Path := ["/"; "usr"; "bin"; "java"].
Definition linked_run (java_exe : Path) : run_outcome :=
  if decide (java_exe = usr_bin_java) then Completed openjdk17_output
  else host_run java_exe.
Definition linked_resolve (p : Path) : Path :=
  if decide (p = usr_bin_java) then jvm_java else p.
Definition linked_order (candidates : gset Path) : list Path :=
  List.filter (fun p => bool_decide (p ∈ candidates))
              [usr_bin_java; jvm_java; jvm_java8; opt_java].

(** An interpreter that knows the ASCII digits only and puts no limit on
    [int], and one that also knows the full-width digits (U+FF10 to
    U+FF19). *)
Definition no_wide_digit (s : string) : option (nat * Z) := None.
Definition fullwidth_digit (s : string) : option (nat * Z) :=
  match s with
  | String a (String b (String c _)) =>
      if Ascii.eqb a "239" && Ascii.eqb b "188"
         && (144 <=? nat_of_ascii c)%nat && (nat_of_ascii c <=? 153)%nat
      then Some (2%nat, Z.of_nat (nat_of_ascii c) - 144)
      else None
  | _ => None
  end.
(** A host whose Java prints bytes that are no text. *)
Definition garbled_run (java_exe : Path) : run_outcome :=
  if decide (java_exe = jvm_java) then UndecodableOutput else host_run java_exe.
Definition host_true (p : Path) : bool := true.

(** What lies under [/usr/lib/jvm], and an order for sets of candidates:
    the deeper paths first. *)
Definition host_rglob (search_path : Path) : list Path := [jvm_java; jvm_java8].
Definition host_order (candidates : gset Path) : list Path :=
  List.filter (fun p => bool_decide (p ∈ candidates)) [jvm_java; jvm_java8; opt_java].

Definition installation_at (java_exe : Path) : JavaInstallation :=
  {| java_home := parent (parent java_exe);
     java_type := "JDK";
     version := "17.0.2";
     vendor := "OpenJDK";
     major_version := 17;
     display_alias := "openjdk17";
     path_depth := length java_exe |}.

(** A remote that answers 404 to every request, and parsers that reject
    every payload. *)
Definition remote_404 (url : string) (timeout : Z) : result Response :=
  Ok {| status_code := 404; content := "Not Found" |}.
Definition reject_json (payload : string) : result json := Raise JSONDecodeError.
Definition reject_xml (payload : string) : result element := Raise ParseError.

(** Parsers that give up on every payload with an error other than their
    decode error, as [json.loads] does on a payload of a hundred thousand
    opening brackets and [ET.fromstring] on a document that declares an encoding it
    does not know. *)
Definition overflow_json (payload : string) : result json := Raise RecursionError.
Definition unknown_encoding_xml (payload : string) : result element :=
  Raise LookupError.

(** A file system that is a map from paths to file contents, on a host
    whose only executable is [/opt/jdk-17/bin/java]. *)
Definition disk_exists (files : gmap Path string) (p : Path) : bool :=
  bool_decide (is_Some (files !! p)).
Definition disk_read_text (files : gmap Path string) (p : Path) : result string :=
  match files !! p with
  | Some content => Ok content
  | None => Raise (OSError "No such file or directory")
  end.
Definition disk_is_java (files : gmap Path string) (p : Path) : bool :=
  bool_decide (p = opt_java).
Definition disk_mkdir (p : Path) (files : gmap Path string)
    : result unit * gmap Path string := (Ok tt, files).
Definition disk_write_text (p : Path) (content : string) (files : gmap Path string)
    : result unit * gmap Path string := (Ok tt, <[p := content]> files).

(** Paths written with single-word parts, and a JSON codec that knows one
    document. *)
Definition sample_str_of_path (p : Path) : string :=
  if decide (p = opt_java) then "/opt/jdk-17/bin/java"
  else if decide (p = ["/"; "opt"; "jdk-17"]) then "/opt/jdk-17"
  else "?".
Definition sample_json_loads (content : string) : result json :=
  if String.eqb content "saved" then Ok (JObj [("javaPath", JStr "/opt/jdk-17")])
  else if String.eqb content "binary"
  then Ok (JObj [("javaPath", JStr "/opt/jdk-17/bin/java")])
  else Raise JSONDecodeError.
Definition sample_json_dumps (v : json) : string := "saved".
Definition sample_strip (s : string) : string := s.
Definition sample_parse_int2 (s : string) : option Z :=
  if String.eqb s "1" then Some 1
  else if String.eqb s "2" then Some 2
  else if String.eqb s "7" then Some 7
  else None.
Definition sample_parse_int (s : string) : option Z :=
  if String.eqb s "1" then Some 1 else None.

(** A server that ignores what it is told and runs until it is killed; its
    state says whether it has been killed. *)
Definition stubborn_returncode (killed : bool) : option Z :=
  if killed then Some (-9) else None.
Definition stubborn_poll (killed : bool) : MinecraftManager.poll_outcome * bool :=
  (MinecraftManager.Status (stubborn_returncode killed), killed).
Definition stubborn_write (line : string) (killed : bool)
    : MinecraftManager.write_outcome * bool :=
  (MinecraftManager.Written, killed).
Definition stubborn_wait (timeout : Z) (killed : bool)
    : MinecraftManager.wait_outcome * bool :=
  (if killed then MinecraftManager.Exited (-9) else MinecraftManager.TimedOut,
   killed).
Definition stubborn_kill (killed : bool) : bool := true.

(** A server that does what it is told: its state is the lines it has
    received and its status.  Waited for, it exits with status 0 when the
    last line it received is the stop command, and runs on otherwise. *)
Definition heedful : Type := list string * option Z.
Definition heedful_returncode (p : heedful) : option Z := snd p.
Definition heedful_poll (p : heedful) : MinecraftManager.poll_outcome * heedful :=
  (MinecraftManager.Status (snd p), p).
Definition heedful_write (line : string) (p : heedful)
    : MinecraftManager.write_outcome * heedful :=
  match snd p with
  | None => (MinecraftManager.Written, (fst p ++ [line], None))
  | Some _ => (MinecraftManager.WriteFailed "Broken pipe", p)
  end.
Definition heedful_wait (timeout : Z) (p : heedful)
    : MinecraftManager.wait_outcome * heedful :=
  match snd p with
  | Some c => (MinecraftManager.Exited c, p)
  | None =>
      if bool_decide (last (fst p) = Some ("stop" +:+ newline))
      then (MinecraftManager.Exited 0, (fst p, Some 0))
      else (MinecraftManager.TimedOut, p)
  end.
Definition heedful_kill (p : heedful) : heedful :=
  match snd p with
  | None => (fst p, Some (-9))
  | Some _ => p
  end.

(** The same server when CTRL+C arrives during the first [poll]: the state
    also counts the polls. *)
Definition hasty : Type := nat * heedful.
Definition hasty_poll (p : hasty) : MinecraftManager.poll_outcome * hasty :=
  match fst p with
  | O => (MinecraftManager.PollInterrupted, (1%nat, snd p))
  | S n => (MinecraftManager.Status (snd (snd p)), (S (S n), snd p))
  end.
Definition hasty_write (line : string) (p : hasty)
    : MinecraftManager.write_outcome * hasty :=
  (fst (heedful_write line (snd p)), (fst p, snd (heedful_write line (snd p)))).
Definition hasty_wait (timeout : Z) (p : hasty)
    : MinecraftManager.wait_outcome * hasty :=
  (fst (heedful_wait timeout (snd p)), (fst p, snd (heedful_wait timeout (snd p)))).
Definition hasty_kill (p : hasty) : hasty := (fst p, heedful_kill (snd p)).

(** A process whose input has been closed: every write fails. *)
Definition broken_write (line : string) (killed : bool)
    : MinecraftManager.write_outcome * bool :=
  (MinecraftManager.WriteFailed "Broken pipe", killed).

Definition server_dir : Path := ["minecraft_server"; "1.20.1"].
Definition config_file : Path := ["minecraft_server"; "1.20.1"; "java-path.json"].

(** A remote that answers every request with status 200 and, as payload, the
    URL asked for; and a JSON parser that knows three documents by that
    payload: the version manifest, the detail document of 1.21, and the
    Fabric installer index. *)
Definition remote_ok (url : string) (timeout : Z) : result Response :=
  Ok {| status_code := 200; content := url |}.

Definition manifest_entry (id type url : string) : json :=
  JObj [("id", JStr id); ("type", JStr type); ("url", JStr url);
        ("complianceLevel", JInt 1)].

Definition sample_manifest : json :=
  JObj [("latest", JObj [("release", JStr "1.21")]);
        ("versions",
         JArr [manifest_entry "1.21" "release" "https://meta/1.21.json";
               manifest_entry "24w14a" "snapshot" "https://meta/24w14a.json";
               manifest_entry "1.20.4" "release" "https://meta/1.20.4.json"])].

Definition sample_detail : json :=
  JObj [("downloads",
         JObj [("client", JObj [("url", JStr "https://dl/client.jar")]);
               ("server", JObj [("url", JStr "https://dl/server.jar")])])].

Definition sample_installers : json :=
  JArr [JObj [("url", JStr "https://maven/fabric-installer-1.0.1.jar");
              ("version", JStr "1.0.1")];
        JObj [("url", JStr "https://maven/fabric-installer-1.0.0.jar")]].

Definition sample_loaders : json :=
  JArr [JObj [("loader", JObj [("version", JStr "0.15.11"); ("stable", JBool true)])];
        JObj [("intermediary", JObj [])];
        JObj [("loader", JObj [("version", JStr "0.15.10"); ("stable", JBool false)])]].

Definition documents (payload : string) : result json :=
  if String.eqb payload mojang_manifest_url then Ok sample_manifest
  else if String.eqb payload "https://meta/1.21.json" then Ok sample_detail
  else if String.eqb payload fabric_installer_index_url then Ok sample_installers
  else if String.eqb payload (fabric_loader_url "1.21") then Ok sample_loaders
  else Raise JSONDecodeError.

Definition no_other_url (url : json) (timeout : Z) : result Response :=
  Raise ConnectionError.

(** A base directory with three children; the files on the disk make two of
    them servers. *)
Definition sample_children : list Path :=
  [ ["minecraft_server"; "1.20.1"];
    ["minecraft_server"; "notes"];
    ["minecraft_server"; "1.21-fabric-0.15.11"] ].
Definition tree_is_dir (files : gmap Path string) (p : Path) : bool :=
  bool_decide (p = ["minecraft_server"]) || bool_decide (p ∈ sample_children).
Definition tree_iterdir (files : gmap Path string) (p : Path)
    : result (list Path) :=
  if decide (p = ["minecraft_server"]) then Ok sample_children
  else Raise (OSError "Not a directory").
Definition sample_servers : gmap Path string :=
  {[ ["minecraft_server"; "1.20.1"; "eula.txt"] := "eula=true";
     ["minecraft_server"; "1.21-fabric-0.15.11"; "eula.txt"] := "eula=false" ]}.

(** Downloads that store the URL's text as the file, an installer that
    returns the given code, and removal of a file. *)
Definition disk_download (url : json) (target : Path) (files : gmap Path string)
    : result unit * gmap Path string :=
  (Ok tt, <[target := "jar"]> files).
Definition installer_returning (returncode : Z) (command : list string)
    (work_dir : Path) (files : gmap Path string)
    : MinecraftManager.spawn_outcome * gmap Path string :=
  (MinecraftManager.Returned returncode, files).
Definition disk_unlink (p : Path) (files : gmap Path string)
    : result unit * gmap Path string :=
  (Ok tt, delete p files).
Definition sample_describe (e : exn) : string := "error".

(** Removal of a tree, on a disk of files: the files under it go. *)
Definition disk_rmtree (p : Path) (files : gmap Path string)
    : result unit * gmap Path string :=
  (Ok tt, filter (fun kv => ¬ p `prefix_of` fst kv) files).
(** A disk on which the directory of the Vanilla 1.21 server is there. *)
Definition vanilla_exists (files : gmap Path string) (p : Path) : bool :=
  bool_decide (p = ["minecraft_server"; "1.21"]) || disk_exists files p.
(** Loader versions that are not strings are not installed. *)
Definition decline_exotic (stype : MinecraftManager.ServerType) (mc_version : string)
    (mod_version : json) (w : @MinecraftManager.world (gmap Path string))
    : result (option (Path * string)) * @MinecraftManager.world (gmap Path string) :=
  (Ok None, w).

End Samples.

(** * Properties *)

Local Arguments String.append : simpl nomatch.

Section StrFacts.
Import PyStr.

Lemma append_assoc (a b c : string) : (a +:+ b) +:+ c = a +:+ (b +:+ c).
Proof. induction a as [|x a IH]; simpl; [reflexivity | now rewrite IH]. Qed.

Lemma contains_char (c : ascii) (s : string) :
  contains (String c EmptyString) s = has_char c s.
Proof.
  induction s as [|a s IH]; simpl; [reflexivity|].
  rewrite IH, (Ascii.eqb_sym c a). now destruct (Ascii.eqb a c).
Qed.

Lemma has_char_app (c : ascii) (a b : string) :
  has_char c (a +:+ b) = has_char c a || has_char c b.
Proof.
  induction a as [|x a IH]; simpl; [reflexivity|].
  now rewrite IH, orb_assoc.
Qed.

Lemma lower_app (a b : string) : lower (a +:+ b) = lower a +:+ lower b.
Proof. induction a as [|x a IH]; simpl; [reflexivity | now rewrite IH]. Qed.

Lemma lower_char_dash (c : ascii) :
  Ascii.eqb (lower_char c) "-" = Ascii.eqb c "-".
Proof. destruct c as [[] [] [] [] [] [] [] []]; reflexivity. Qed.

Lemma has_dash_lower (s : string) : has_char "-" (lower s) = has_char "-" s.
Proof.
  induction s as [|c s IH]; simpl; [reflexivity|].
  now rewrite lower_char_dash, IH.
Qed.

(** A string without [c] has no prefix, and no substring, in which [c] occurs. *)
Lemma startswith_no_char (c : ascii) (p s : string) :
  has_char c s = false -> has_char c p = true -> startswith s p = false.
Proof.
  revert s. induction p as [|a p IH]; intros s Hs Hp; [discriminate|].
  destruct s as [|b s]; [reflexivity|]. simpl in *.
  destruct (Ascii.eqb a b) eqn:E; [|reflexivity].
  apply Ascii.eqb_eq in E; subst b.
  apply orb_false_iff in Hs as [Hb Hs]. rewrite Hb in Hp. simpl in Hp.
  now apply IH.
Qed.

Lemma contains_no_char (c : ascii) (p s : string) :
  has_char c s = false -> has_char c p = true -> contains p s = false.
Proof.
  intros Hs Hp. induction s as [|b s IH].
  - simpl. rewrite (startswith_no_char c); auto.
  - cbn [contains]. rewrite (startswith_no_char c); auto.
    simpl in Hs. apply orb_false_iff in Hs as [_ Hs]. now apply IH.
Qed.

(** Searching for a string that begins with [c] skips a prefix without [c]. *)
Lemma contains_skip (c : ascii) (p a t : string) :
  has_char c a = false ->
  contains (String c p) (a +:+ t) = contains (String c p) t.
Proof.
  intros Ha. induction a as [|b a IH]; [reflexivity|].
  simpl in Ha. apply orb_false_iff in Ha as [Hb Ha].
  change (String b a +:+ t) with (String b (a +:+ t)).
  cbn [contains startswith]. rewrite (Ascii.eqb_sym c b), Hb. simpl.
  now apply IH.
Qed.

(** Matching [x-] at the start of [y-b], for [x] and [y] without dashes,
    is comparing [x] with [y]. *)
Lemma startswith_field (c : ascii) (x y b : string) :
  has_char c x = false -> has_char c y = false ->
  startswith (y +:+ String c b) (x +:+ String c EmptyString) = String.eqb x y.
Proof.
  revert y. induction x as [|a x IH]; intros [|d y] Hx Hy; simpl in *.
  - now rewrite Ascii.eqb_refl.
  - apply orb_false_iff in Hy as [Hd _]. now rewrite (Ascii.eqb_sym c d), Hd.
  - apply orb_false_iff in Hx as [Ha _]. now rewrite Ha.
  - apply orb_false_iff in Hx as [_ Hx]. apply orb_false_iff in Hy as [_ Hy].
    destruct (Ascii.eqb a d); [now apply IH | reflexivity].
Qed.

(** A name [a-y-b] whose three fields have no dash contains the marker
    [-x-] exactly when [x] is the middle field. *)
Lemma contains_marker (c : ascii) (x y a b : string) :
  has_char c x = false -> has_char c y = false ->
  has_char c a = false -> has_char c b = false ->
  contains (String c (x +:+ String c EmptyString))
           (a +:+ String c (y +:+ String c b)) = String.eqb x y.
Proof.
  intros Hx Hy Ha Hb.
  assert (Hp : has_char c (x +:+ String c EmptyString) = true).
  { rewrite has_char_app. simpl. rewrite Ascii.eqb_refl. apply orb_true_r. }
  assert (Hq : has_char c (String c (x +:+ String c EmptyString)) = true).
  { simpl. now rewrite Ascii.eqb_refl. }
  rewrite contains_skip by assumption.
  cbn [contains startswith]. rewrite Ascii.eqb_refl.
  rewrite startswith_field by assumption.
  rewrite contains_skip by assumption.
  cbn [contains startswith]. rewrite Ascii.eqb_refl.
  rewrite (startswith_no_char c), (contains_no_char c) by assumption.
  now rewrite !orb_false_r.
Qed.

Lemma split_nonempty (sep : ascii) (s : string) : split sep s <> [].
Proof.
  induction s as [|c s IH]; simpl; [discriminate|].
  destruct (Ascii.eqb c sep); [discriminate|].
  destruct (split sep s); discriminate.
Qed.

Lemma split_no_sep (sep : ascii) (s : string) :
  has_char sep s = false -> split sep s = [s].
Proof.
  induction s as [|c s IH]; simpl; [reflexivity|].
  intros H. apply orb_false_iff in H as [Hc Hs].
  now rewrite Hc, (IH Hs).
Qed.

Lemma split_hd_app (sep : ascii) (a t : string) :
  has_char sep a = false ->
  List.hd EmptyString (split sep (a +:+ String sep t)) = a.
Proof.
  induction a as [|c a IH]; simpl; intros H.
  - now rewrite Ascii.eqb_refl.
  - apply orb_false_iff in H as [Hc Ha]. rewrite Hc.
    specialize (IH Ha).
    destruct (split sep (a +:+ String sep t)) eqn:E; simpl in *.
    + now apply split_nonempty in E.
    + now subst.
Qed.

(** No field of a split contains the separator. *)
Lemma split_fields (sep : ascii) (s x : string) :
  In x (split sep s) -> has_char sep x = false.
Proof.
  revert x. induction s as [|c s IH]; simpl; intros x Hx.
  - destruct Hx as [<-|[]]. reflexivity.
  - destruct (Ascii.eqb c sep) eqn:E.
    + destruct Hx as [<-|Hx]; [reflexivity | now apply IH].
    + destruct (split sep s) as [|y ys] eqn:Es.
      * destruct Hx as [<-|[]]. simpl. now rewrite E.
      * destruct Hx as [<-|Hx].
        -- simpl. rewrite E. apply IH. now left.
        -- apply IH. now right.
Qed.

Lemma last_In {A} (l : list A) (d : A) : l <> [] -> In (List.last l d) l.
Proof.
  induction l as [|x l IH]; [congruence|]. intros _.
  destruct l as [|y l]; [now left|].
  right. apply IH. discriminate.
Qed.

End StrFacts.

Section NamingFacts.
Import PyStr MinecraftManager.

(** The loader-version suffix of a directory name never contains a dash. *)
Lemma sanitized_no_dash (mod_version : option string) :
  has_char "-" (format_optional (mod_version_sanitized mod_version)) = false.
Proof.
  destruct mod_version as [m|]; [|reflexivity].
  unfold mod_version_sanitized.
  destruct (truthy m && contains "-" m) eqn:E; simpl.
  - apply (split_fields "-" m). apply last_In, split_nonempty.
  - apply andb_false_iff in E as [E|E].
    + destruct m; [reflexivity | discriminate].
    + now rewrite <- contains_char.
Qed.

End NamingFacts.

Import PyStr MinecraftManager.

(** C10. If the base-game version contains no ['-'], the text before the
    first ['-'] of the generated directory name is the base-game version,
    for every server type and every mod-loader version. *)
Theorem infer_mc_version_get_server_dir_name
    (stype : ServerType) (mc_version : string) (mod_version : option string) :
  contains "-" mc_version = false ->
  _infer_mc_version (_get_server_dir_name stype mc_version mod_version) = mc_version.
Proof.
  intros H. rewrite contains_char in H.
  unfold _infer_mc_version, _get_server_dir_name.
  destruct stype; try (apply split_hd_app; assumption).
  now rewrite split_no_sep.
Qed.

Lemma infer_mc_version_get_server_dir_name_witness :
  _infer_mc_version (_get_server_dir_name FORGE "1.20.1" (Some "1.20.1-47.2.0"))
  = "1.20.1".
Proof. apply (infer_mc_version_get_server_dir_name FORGE "1.20.1"). reflexivity. Defined.

Example dir_name_vanilla :
  _get_server_dir_name VANILLA "1.20.1" None = "1.20.1".
Proof. reflexivity. Qed.

Example dir_name_forge :
  _get_server_dir_name FORGE "1.20.1" (Some "1.20.1-47.2.0") = "1.20.1-forge-47.2.0".
Proof. reflexivity. Qed.

Example dir_name_fabric :
  _get_server_dir_name FABRIC "1.20.1" (Some "0.15.11") = "1.20.1-fabric-0.15.11".
Proof. reflexivity. Qed.

Example infer_neoforge :
  _infer_server_type "1.20.4-neoforge-20.4.237" = NEOFORGE
  /\ _infer_mc_version "1.20.4-neoforge-20.4.237" = "1.20.4".
Proof. split; reflexivity. Qed.

Section InferType.

Variables (mc_version : string) (mod_version : option string).
Hypothesis mc_no_dash : contains "-" mc_version = false.

(** The lowered name of a modded server: the lowered base version and the
    lowered suffix are free of dashes, the channel sits between them. *)
Lemma lower_dir_name (stype : ServerType) :
  stype <> VANILLA ->
  exists a b,
    lower (_get_server_dir_name stype mc_version mod_version)
      = a +:+ "-" +:+ lower (lower (name stype)) +:+ "-" +:+ b
    /\ has_char "-" a = false /\ has_char "-" b = false.
Proof.
  intros Hs.
  exists (lower mc_version),
         (lower (format_optional (mod_version_sanitized mod_version))).
  split; [|split].
  - destruct stype; [congruence| | |];
      unfold _get_server_dir_name; now rewrite !lower_app.
  - rewrite has_dash_lower, <- contains_char. exact mc_no_dash.
  - rewrite has_dash_lower. apply sanitized_no_dash.
Qed.

End InferType.

(** C2, as the code has it.  If the base-game version contains no ['-'],
    inferring the channel from the generated directory name gives back the
    server type the name was generated for, for every server type and every
    mod-loader version (NeoForge included: ["-forge-"] does not occur in
    ["-neoforge-"]). *)
Theorem infer_server_type_get_server_dir_name
    (stype : ServerType) (mc_version : string) (mod_version : option string) :
  contains "-" mc_version = false ->
  _infer_server_type (_get_server_dir_name stype mc_version mod_version) = stype.
Proof.
  intros H. unfold _infer_server_type.
  destruct (ServerType_eq_dec stype VANILLA) as [->|Hs].
  - pose proof H as H'. rewrite contains_char, <- has_dash_lower in H'.
    cbn [_get_server_dir_name]. rewrite !(contains_no_char "-"); auto.
  - destruct (lower_dir_name mc_version mod_version H stype Hs)
      as (a & b & -> & Ha & Hb).
    change "-forge-" with (String "-" ("forge" +:+ "-")).
    change "-fabric-" with (String "-" ("fabric" +:+ "-")).
    change "-neoforge-" with (String "-" ("neoforge" +:+ "-")).
    change (a +:+ "-" +:+ lower (lower (name stype)) +:+ "-" +:+ b)
      with (a +:+ String "-" (lower (lower (name stype)) +:+ String "-" b)).
    destruct stype; [congruence| | |];
      rewrite !contains_marker by (assumption || reflexivity); reflexivity.
Qed.

Lemma infer_server_type_get_server_dir_name_witness :
  _infer_server_type (_get_server_dir_name NEOFORGE "1.20.4" (Some "20.4.237"))
  = NEOFORGE.
Proof.
  apply (infer_server_type_get_server_dir_name NEOFORGE "1.20.4"). reflexivity.
Defined.

(** C2, as stated, fails when the base-game version itself carries a channel
    marker: a Fabric server for base version [1.14-forge-pre] is read back as
    a Forge server. *)
Lemma infer_server_type_roundtrip_fails :
  _get_server_dir_name FABRIC "1.14-forge-pre" (Some "0.15.11")
    = "1.14-forge-pre-fabric-0.15.11"
  /\ _infer_server_type
       (_get_server_dir_name FABRIC "1.14-forge-pre" (Some "0.15.11")) = FORGE
  /\ _infer_server_type
       (_get_server_dir_name FABRIC "1.14-forge-pre" (Some "0.15.11")) <> FABRIC.
Proof. repeat split. discriminate. Qed.

(** ** Facts about [sorted(..., reverse=True)] *)

Section SortFacts.
Import Py.
Context {A K : Type} (ltb : K -> K -> bool) (key : A -> K).

Lemma insert_reverse_perm (x : A) (l : list A) :
  Permutation (insert_reverse ltb key x l) (x :: l).
Proof.
  induction l as [|y l IH]; simpl; [reflexivity|].
  destruct (ltb (key x) (key y)); [|reflexivity].
  rewrite IH. apply perm_swap.
Qed.

Lemma sorted_reverse_perm (l : list A) : Permutation (sorted_reverse ltb key l) l.
Proof.
  induction l as [|x l IH]; simpl; [reflexivity|].
  rewrite insert_reverse_perm. now constructor.
Qed.

Hypothesis ltb_asym : forall a b, ltb a b = true -> ltb b a = false.
Hypothesis ltb_neg_trans :
  forall a b c, ltb a b = false -> ltb b c = false -> ltb a c = false.

Lemma insert_reverse_sorted (x : A) (l : list A) :
  StronglySorted (not_below ltb key) l -> StronglySorted (not_below ltb key) (insert_reverse ltb key x l).
Proof.
  induction 1 as [|y l Hl IH Hy]; simpl.
  - repeat constructor.
  - destruct (ltb (key x) (key y)) eqn:E.
    + constructor; [exact IH|].
      eapply Permutation_Forall; [symmetry; apply insert_reverse_perm|].
      constructor; [now apply ltb_asym | exact Hy].
    + constructor; [now constructor|].
      constructor; [exact E|].
      eapply Forall_impl; [exact Hy|].
      intros z Hz. unfold not_below in *. eauto.
Qed.

Lemma sorted_reverse_sorted (l : list A) :
  StronglySorted (not_below ltb key) (sorted_reverse ltb key l).
Proof.
  induction l as [|x l IH]; simpl; [constructor|].
  now apply insert_reverse_sorted.
Qed.

End SortFacts.

Section StrOrder.
Import Py.

Lemma str_ltb_lt (a b : string) : str_ltb a b = true <-> String_as_OT.lt a b.
Proof.
  unfold str_ltb, String_as_OT.lt.
  destruct (String_as_OT.compare a b); split; congruence.
Qed.

Lemma str_ltb_asym (a b : string) : str_ltb a b = true -> str_ltb b a = false.
Proof.
  intros H. apply not_true_is_false. intros H'.
  apply str_ltb_lt in H, H'.
  apply (StrictOrder_Irreflexive (R := String_as_OT.lt) a).
  now transitivity b.
Qed.

Lemma str_ltb_false (a b : string) :
  str_ltb a b = false <-> a = b \/ String_as_OT.lt b a.
Proof.
  split.
  - intros H. destruct (String_as_OT.compare_spec a b) as [E|L|G]; auto.
    apply str_ltb_lt in L. congruence.
  - intros [->|L]; apply not_true_is_false; intros H; apply str_ltb_lt in H.
    + now apply (StrictOrder_Irreflexive (R := String_as_OT.lt) b).
    + apply (StrictOrder_Irreflexive (R := String_as_OT.lt) a).
      now transitivity b.
Qed.

Lemma str_ltb_neg_trans (a b c : string) :
  str_ltb a b = false -> str_ltb b c = false -> str_ltb a c = false.
Proof.
  rewrite !str_ltb_false. intros [->|L1] [->|L2]; auto.
  right. now transitivity b.
Qed.

End StrOrder.

(** ** Catalog adapters *)

Section CatalogFacts.
Import Py ApiClients.

Lemma startswith_has_char (c : ascii) (p t s : string) :
  startswith s (p +:+ String c t) = true -> has_char c s = true.
Proof.
  revert s. induction p as [|a p IH]; intros [|b s]; simpl; try discriminate.
  - destruct (Ascii.eqb c b) eqn:E; [|discriminate].
    intros _. now rewrite (Ascii.eqb_sym b c), E.
  - destruct (Ascii.eqb a b); [|discriminate].
    intros H. rewrite (IH _ H). apply orb_true_r.
Qed.

Lemma startswith_app (s p : string) :
  startswith s p = true -> exists t, s = p +:+ t.
Proof.
  revert s. induction p as [|a p IH]; intros s; simpl.
  - exists s. reflexivity.
  - destruct s as [|b s]; [discriminate|].
    destruct (Ascii.eqb a b) eqn:E; [|discriminate].
    apply Ascii.eqb_eq in E as ->. intros H.
    destruct (IH _ H) as [t ->]. now exists t.
Qed.

Lemma partition_first_some (c : ascii) (s : string) :
  has_char c s = true -> exists a b, partition_first c s = Some (a, b).
Proof.
  induction s as [|x s IH]; simpl; [discriminate|].
  destruct (Ascii.eqb x c); simpl; [eauto|].
  intros H. destruct (IH H) as (a & b & ->). eauto.
Qed.

(** An entry that starts with [mc_version-] is listed, with the text around
    its first dash as its two versions. *)
Lemma forge_entry_match (mc_version full_version : string) (tg : string) ch :
  startswith full_version (mc_version +:+ "-") = true ->
  exists a b,
    partition_first "-" full_version = Some (a, b) /\
    forge_entry mc_version (Element tg (Some full_version) ch)
      = [ {| ForgeVersion.full_version := full_version; ForgeVersion.mc_version := a; ForgeVersion.forge_version := b |} ].
Proof.
  intros H. unfold forge_entry. simpl. rewrite H.
  destruct (partition_first_some "-" full_version) as (a & b & Hab).
  { now apply (startswith_has_char "-" mc_version EmptyString). }
  exists a, b. split; [exact Hab|].
  unfold split1. rewrite Hab.
  destruct full_version; [|reflexivity].
  destruct mc_version; discriminate.
Qed.

Lemma forge_entries_full (mc_version : string) (nodes : list element) :
  map ForgeVersion.full_version (flat_map (forge_entry mc_version) nodes)
  = List.filter (fun t => startswith t (mc_version +:+ "-")) (omap text nodes).
Proof.
  induction nodes as [|[tg [t|] ch] nodes IH]; simpl; [reflexivity| |exact IH].
  rewrite map_app, IH. change (text (Element tg (Some t) ch)) with (Some t).
  simpl. destruct (startswith t (mc_version +:+ "-")) eqn:E.
  - destruct (forge_entry_match mc_version t tg ch E) as (a & b & _ & ->).
    reflexivity.
  - unfold forge_entry. simpl. rewrite E, andb_false_r. reflexivity.
Qed.

Lemma forge_entries_split (mc_version : string) (nodes : list element) :
  Forall (fun v => partition_first "-" (ForgeVersion.full_version v)
                   = Some (ForgeVersion.mc_version v, ForgeVersion.forge_version v))
         (flat_map (forge_entry mc_version) nodes).
Proof.
  induction nodes as [|[tg [t|] ch] nodes IH]; simpl; [constructor| |exact IH].
  apply Forall_app. split; [|exact IH].
  destruct (startswith t (mc_version +:+ "-")) eqn:E.
  - destruct (forge_entry_match mc_version t tg ch E) as (a & b & Hab & ->).
    now repeat constructor.
  - unfold forge_entry. simpl. rewrite E, andb_false_r. constructor.
Qed.

(** The first dot-separated component of an entry that starts with [X.],
    for an [X] that is itself one component. *)
Lemma first_component (prefix full_version : string) :
  has_char "." prefix = false ->
  startswith full_version (prefix +:+ ".") = true ->
  List.hd EmptyString (split "." full_version) = prefix.
Proof.
  intros Hp H. destruct (startswith_app _ _ H) as [t ->].
  rewrite append_assoc. now apply split_hd_app.
Qed.

Lemma neoforge_entries_full (prefix : string) (nodes : list element) :
  map NeoForgeVersion.full_version (flat_map (neoforge_entry prefix) nodes)
  = List.filter (fun t => startswith t (prefix +:+ ".")) (omap text nodes).
Proof.
  induction nodes as [|[tg [t|] ch] nodes IH]; simpl; [reflexivity| |exact IH].
  rewrite map_app, IH. change (text (Element tg (Some t) ch)) with (Some t).
  unfold neoforge_entry. simpl.
  destruct (startswith t (prefix +:+ ".")) eqn:E.
  - destruct t; [destruct prefix; discriminate|]. reflexivity.
  - now rewrite andb_false_r.
Qed.

Lemma neoforge_entries_fields (prefix : string) (nodes : list element) :
  has_char "." prefix = false ->
  Forall (fun v =>
            NeoForgeVersion.mc_version v
              = "1." +:+ List.hd EmptyString (split "." (NeoForgeVersion.full_version v))
            /\ List.hd EmptyString (split "." (NeoForgeVersion.full_version v)) = prefix
            /\ NeoForgeVersion.neoforge_version v = NeoForgeVersion.full_version v)
         (flat_map (neoforge_entry prefix) nodes).
Proof.
  intros Hp.
  induction nodes as [|[tg [t|] ch] nodes IH]; simpl; [constructor| |exact IH].
  apply Forall_app. split; [|exact IH].
  unfold neoforge_entry. simpl.
  destruct (truthy t && startswith t (prefix +:+ ".")) eqn:E; [|constructor].
  apply andb_true_iff in E as [_ E].
  repeat constructor. simpl. now apply first_component.
Qed.

End CatalogFacts.

Import Py ApiClients.

(** C6. On a successful fetch the Forge adapter lists exactly the index
    entries that start with [mc_version-]; of each it records the text
    before and after the first dash; and the list is in descending order of
    the raw string order of the text after the dash.  That order is not the
    numeric one: [47.9.0] is listed before [47.10.0]. *)
Theorem forge_versions_prefix_filtered_lexical_desc :
  (forall (client_get : string -> Z -> result Response)
          (ET_fromstring : string -> result element)
          (mc_version : string) (response : Response) (root : element),
      client_get forge_metadata_url 15 = Ok response ->
      raise_for_status response = Ok tt ->
      ET_fromstring (content response) = Ok root ->
      exists versions,
        get_forge_versions client_get ET_fromstring mc_version = Ok versions
        /\ Permutation (map ForgeVersion.full_version versions)
             (List.filter (fun t => startswith t (mc_version +:+ "-"))
                          (index_entries root))
        /\ Forall (fun v => partition_first "-" (ForgeVersion.full_version v)
                            = Some (ForgeVersion.mc_version v, ForgeVersion.forge_version v)) versions
        /\ StronglySorted (not_below str_ltb ForgeVersion.forge_version) versions)
  /\ (let index :=
        Element "metadata" None
          [Element "versions" None
             [Element "version" (Some "1.20.1-47.10.0") [];
              Element "version" (Some "1.20.1-47.9.0") [];
              Element "version" (Some "1.19.4-45.2.0") []]] in
      map ForgeVersion.forge_version
        (match get_forge_versions
                 (fun _ _ => Ok {| status_code := 200; content := "index" |})
                 (fun _ => Ok index) "1.20.1" with
         | Ok versions => versions
         | Raise _ => []
         end) = ["47.9.0"; "47.10.0"]).
Proof.
  split; [|reflexivity].
  intros client_get ET_fromstring mc_version response root Hget Hstatus Hparse.
  unfold get_forge_versions, fromstring. rewrite Hget. simpl.
  rewrite Hstatus. simpl. rewrite Hparse. simpl.
  eexists. split; [reflexivity|]. split; [|split].
  - rewrite (Permutation_map _ (sorted_reverse_perm _ _ _)).
    now rewrite forge_entries_full.
  - eapply Permutation_Forall; [symmetry; apply sorted_reverse_perm|].
    apply forge_entries_split.
  - apply sorted_reverse_sorted; [apply str_ltb_asym | apply str_ltb_neg_trans].
Qed.

Lemma forge_versions_prefix_filtered_lexical_desc_witness :
  exists versions,
    get_forge_versions
      (fun _ _ => Ok {| status_code := 200; content := "index" |})
      (fun _ => Ok (Element "metadata" None
                        [Element "version" (Some "1.20.1-47.2.0") [];
                         Element "version" (Some "1.20-46.0.14") [];
                         Element "version" (Some "1.20.1-47.3.0") []]))
      "1.20.1" = Ok versions
    /\ map ForgeVersion.full_version versions = ["1.20.1-47.3.0"; "1.20.1-47.2.0"].
Proof.
  destruct (proj1 forge_versions_prefix_filtered_lexical_desc
              (fun _ _ => Ok {| status_code := 200; content := "index" |})
              (fun _ => Ok (Element "metadata" None
                        [Element "version" (Some "1.20.1-47.2.0") [];
                         Element "version" (Some "1.20-46.0.14") [];
                         Element "version" (Some "1.20.1-47.3.0") []]))
              "1.20.1" {| status_code := 200; content := "index" |}
              (Element "metadata" None
                        [Element "version" (Some "1.20.1-47.2.0") [];
                         Element "version" (Some "1.20-46.0.14") [];
                         Element "version" (Some "1.20.1-47.3.0") []])
              eq_refl eq_refl eq_refl) as (versions & Hv & _).
  exists versions. split; [exact Hv|].
  vm_compute in Hv. injection Hv as <-. reflexivity.
Defined.

(** C7. The NeoForge adapter does not look for the base version itself.  A
    base version with fewer than two dot-separated components gives the
    empty list, whatever the remote index holds.  Otherwise, with [series]
    the second component ([X] of [1.X] or [1.X.Y]), a successful fetch lists
    exactly the index entries that start with [series.]; each entry's base
    version is rebuilt as [1.] followed by its first component, which is
    [series]; the loader version is the entry itself. *)
Theorem neoforge_versions_match_derived_series
    (client_get : string -> Z -> result Response)
    (ET_fromstring : string -> result element) (mc_version : string) :
  ((length (split "." mc_version) < 2)%nat ->
   get_neoforge_versions client_get ET_fromstring mc_version = Ok [])
  /\ (forall (first series : string) (rest : list string)
             (response : Response) (root : element),
        split "." mc_version = first :: series :: rest ->
        client_get neoforge_metadata_url 15 = Ok response ->
        raise_for_status response = Ok tt ->
        ET_fromstring (content response) = Ok root ->
        exists versions,
          get_neoforge_versions client_get ET_fromstring mc_version = Ok versions
          /\ Permutation (map NeoForgeVersion.full_version versions)
               (List.filter (fun t => startswith t (series +:+ "."))
                            (index_entries root))
          /\ Forall (fun v =>
                       NeoForgeVersion.mc_version v
                         = "1." +:+ List.hd EmptyString (split "." (NeoForgeVersion.full_version v))
                       /\ List.hd EmptyString (split "." (NeoForgeVersion.full_version v)) = series
                       /\ NeoForgeVersion.neoforge_version v = NeoForgeVersion.full_version v) versions
          /\ StronglySorted (not_below str_ltb NeoForgeVersion.full_version) versions).
Proof.
  split.
  - unfold get_neoforge_versions.
    destruct (split "." mc_version) as [|a [|b l]]; simpl; auto. lia.
  - intros first series rest response root Hsplit Hget Hstatus Hparse.
    unfold get_neoforge_versions, fromstring. rewrite Hsplit, Hget. simpl.
    rewrite Hstatus. simpl. rewrite Hparse. simpl.
    eexists. split; [reflexivity|]. split; [|split].
    + rewrite (Permutation_map _ (sorted_reverse_perm _ _ _)).
      now rewrite neoforge_entries_full.
    + eapply Permutation_Forall; [symmetry; apply sorted_reverse_perm|].
      apply neoforge_entries_fields.
      apply (split_fields "." mc_version). rewrite Hsplit. right. now left.
    + apply sorted_reverse_sorted; [apply str_ltb_asym | apply str_ltb_neg_trans].
Qed.

Lemma neoforge_versions_match_derived_series_witness :
  get_neoforge_versions
    (fun _ _ => Ok {| status_code := 200; content := "index" |})
    (fun _ => Ok (Element "metadata" None
                      [Element "version" (Some "20.4.237") [];
                       Element "version" (Some "21.0.4-beta") []]))
    "1" = Ok []
  /\ exists versions,
       get_neoforge_versions
         (fun _ _ => Ok {| status_code := 200; content := "index" |})
         (fun _ => Ok (Element "metadata" None
                           [Element "version" (Some "20.4.237") [];
                            Element "version" (Some "21.0.4-beta") []]))
         "1.20.4" = Ok versions
       /\ Permutation (map NeoForgeVersion.full_version versions) ["20.4.237"].
Proof.
  split.
  - apply (proj1 (neoforge_versions_match_derived_series _ _ "1")).
    simpl. lia.
  - destruct (proj2 (neoforge_versions_match_derived_series
                (fun _ _ => Ok {| status_code := 200; content := "index" |})
                (fun _ => Ok (Element "metadata" None
                           [Element "version" (Some "20.4.237") [];
                            Element "version" (Some "21.0.4-beta") []]))
                "1.20.4")
              "1" "20" ["4"] {| status_code := 200; content := "index" |}
              (Element "metadata" None
                           [Element "version" (Some "20.4.237") [];
                            Element "version" (Some "21.0.4-beta") []])
              eq_refl eq_refl eq_refl eq_refl) as (versions & Hv & Hp & _).
    exists versions. split; [exact Hv | exact Hp].
Defined.

(** C4. Each of the four listing operations returns the empty list, and
    raises nothing, when its fetch fails in one of these ways: the transport
    raises a [RequestException], the server answers 404, or the parser
    declines the payload with its decode error ([JSONDecodeError] for JSON,
    [ParseError] for XML).  For Fabric a 404 is not even an error: the body
    of the [try] itself returns the empty list.  An error of another class
    that the parser raises on a payload is not absorbed: the operation
    raises it. *)
Theorem catalog_listing_failure_gives_empty
    (client_get : string -> Z -> result Response)
    (json_loads : string -> result json)
    (ET_fromstring : string -> result element)
    (filter_type mc_version : string) :
  (fetch_failure json_loads is_JSONDecodeError (client_get mojang_manifest_url 10) ->
   get_minecraft_versions client_get json_loads filter_type = Ok [])
  /\ (fetch_failure ET_fromstring is_ParseError (client_get forge_metadata_url 15) ->
      get_forge_versions client_get ET_fromstring mc_version = Ok [])
  /\ (fetch_failure json_loads is_JSONDecodeError
        (client_get (fabric_loader_url mc_version) 10) ->
      get_fabric_loader_versions client_get json_loads mc_version = Ok [])
  /\ (fetch_failure ET_fromstring is_ParseError (client_get neoforge_metadata_url 15) ->
      get_neoforge_versions client_get ET_fromstring mc_version = Ok [])
  /\ (forall response,
        client_get (fabric_loader_url mc_version) 10 = Ok response ->
        status_code response = 404 ->
        fabric_loader_versions_try client_get json_loads mc_version = Ok [])
  /\ (forall response e,
        raise_for_status response = Ok tt ->
        is_RequestException e = false ->
        (client_get mojang_manifest_url 10 = Ok response ->
         json_loads (content response) = Raise e ->
         is_JSONDecodeError e = false ->
         get_minecraft_versions client_get json_loads filter_type = Raise e)
        /\ (client_get forge_metadata_url 15 = Ok response ->
            ET_fromstring (content response) = Raise e ->
            is_ParseError e = false ->
            get_forge_versions client_get ET_fromstring mc_version = Raise e)
        /\ (client_get (fabric_loader_url mc_version) 10 = Ok response ->
            json_loads (content response) = Raise e ->
            is_JSONDecodeError e = false ->
            get_fabric_loader_versions client_get json_loads mc_version = Raise e)
        /\ (forall first series rest,
              split "." mc_version = first :: series :: rest ->
              client_get neoforge_metadata_url 15 = Ok response ->
              ET_fromstring (content response) = Raise e ->
              is_ParseError e = false ->
              get_neoforge_versions client_get ET_fromstring mc_version = Raise e)).
Proof.
  split; [|split; [|split; [|split; [|split]]]].
  - intros H. unfold get_minecraft_versions.
    inversion H as [e He Hr | response Hs Hr | response e Hp He Hr]; simpl.
    + now rewrite He.
    + unfold raise_for_status. now rewrite Hs.
    + unfold raise_for_status, response_json. rewrite Hp, He.
      now destruct ((400 <=? status_code response) && (status_code response <? 600)).
  - intros H. unfold get_forge_versions.
    inversion H as [e He Hr | response Hs Hr | response e Hp He Hr]; simpl.
    + now rewrite He.
    + unfold raise_for_status. now rewrite Hs.
    + unfold raise_for_status, fromstring. rewrite Hp.
      destruct ((400 <=? status_code response) && (status_code response <? 600));
        simpl; [reflexivity|]. now rewrite He, orb_true_r.
  - intros H. unfold get_fabric_loader_versions, fabric_loader_versions_try.
    inversion H as [e He Hr | response Hs Hr | response e Hp He Hr]; simpl.
    + now rewrite He.
    + now rewrite Hs.
    + unfold raise_for_status, response_json. rewrite Hp, He.
      destruct (status_code response =? 404); [reflexivity|].
      now destruct ((400 <=? status_code response) && (status_code response <? 600)).
  - intros H. unfold get_neoforge_versions.
    destruct (split "." mc_version) as [|a [|b l]]; try reflexivity.
    inversion H as [e He Hr | response Hs Hr | response e Hp He Hr]; simpl.
    + now rewrite He.
    + unfold raise_for_status. now rewrite Hs.
    + unfold raise_for_status, fromstring. rewrite Hp.
      destruct ((400 <=? status_code response) && (status_code response <? 600));
        simpl; [reflexivity|]. now rewrite He, orb_true_r.
  - intros response Hget Hs. unfold fabric_loader_versions_try.
    rewrite Hget. simpl. now rewrite Hs.
  - intros response e Hstatus Hreq. split; [|split; [|split]].
    + intros Hget Hp Hdec. unfold get_minecraft_versions, response_json.
      rewrite Hget. simpl. rewrite Hstatus. simpl. rewrite Hp, Hdec. simpl.
      now rewrite Hreq.
    + intros Hget Hp Hdec. unfold get_forge_versions, fromstring.
      rewrite Hget. simpl. rewrite Hstatus. simpl. rewrite Hp. simpl.
      now rewrite Hreq, Hdec.
    + intros Hget Hp Hdec.
      unfold get_fabric_loader_versions, fabric_loader_versions_try, response_json.
      rewrite Hget. simpl.
      assert (H404 : (status_code response =? 404) = false).
      { apply Z.eqb_neq. intros H404. unfold raise_for_status in Hstatus.
        rewrite H404 in Hstatus. discriminate. }
      rewrite H404, Hstatus. simpl. rewrite Hp, Hdec. simpl.
      now rewrite Hreq, Hdec.
    + intros first series rest Hsplit Hget Hp Hdec.
      unfold get_neoforge_versions, fromstring. rewrite Hsplit, Hget. simpl.
      rewrite Hstatus. simpl. rewrite Hp. simpl. now rewrite Hreq, Hdec.
Qed.

(** An unparseable payload is not always absorbed: on one that makes the
    parser raise something else than its decode error, here [RecursionError]
    from the JSON parser and [LookupError] from the XML parser, every
    listing operation raises instead of returning the empty list. *)
Lemma catalog_listing_raises_on_parser_error :
  get_minecraft_versions Samples.remote_ok Samples.overflow_json "release"
  = Raise RecursionError
  /\ get_forge_versions Samples.remote_ok Samples.unknown_encoding_xml "1.20.1"
     = Raise LookupError
  /\ get_fabric_loader_versions Samples.remote_ok Samples.overflow_json "1.20.1"
     = Raise RecursionError
  /\ get_neoforge_versions Samples.remote_ok Samples.unknown_encoding_xml "1.20.1"
     = Raise LookupError.
Proof. repeat split. Qed.

(** ** The insertion-ordered dict *)

Section DictFacts.
Import Py.
Context {V : Type}.
Implicit Types (d : list (string * V)) (k : string) (v : V).

Lemma dict_get_None k d : dict_get k d = None <-> k ∉ map fst d.
Proof.
  induction d as [|[k' v'] d IH]; simpl.
  - split; [intros _; apply not_elem_of_nil | reflexivity].
  - rewrite not_elem_of_cons. destruct (String.eqb_spec k k') as [->|Hne].
    + split; [discriminate | intros [? _]; congruence].
    + rewrite IH. tauto.
Qed.

Lemma dict_get_Some k v d : dict_get k d = Some v -> (k, v) ∈ d.
Proof.
  induction d as [|[k' v'] d IH]; simpl; [discriminate|].
  destruct (String.eqb_spec k k') as [->|Hne].
  - intros [= ->]. apply elem_of_cons. now left.
  - intros H. apply elem_of_cons. right. now apply IH.
Qed.

Lemma dict_set_key_in k k' v d :
  k' ∈ map fst (dict_set k v d) <-> k' = k \/ k' ∈ map fst d.
Proof.
  induction d as [|[k0 v0] d IH]; simpl.
  - rewrite list_elem_of_singleton, elem_of_nil. tauto.
  - destruct (String.eqb_spec k k0) as [->|Hne]; simpl; rewrite !elem_of_cons.
    + tauto.
    + rewrite IH. tauto.
Qed.

Lemma dict_set_NoDup k v d : NoDup (map fst d) -> NoDup (map fst (dict_set k v d)).
Proof.
  induction d as [|[k0 v0] d IH]; simpl; intros H.
  - apply NoDup_singleton.
  - destruct (String.eqb_spec k k0) as [->|Hne]; simpl; [exact H|].
    apply NoDup_cons in H as [Hk0 Hd]. apply NoDup_cons. split; [|now apply IH].
    rewrite dict_set_key_in. intros [?|?]; [congruence | contradiction].
Qed.

(** After [d[k] = v] the dict holds [v] under [k] and, under the other
    keys, what it held before. *)
Lemma dict_set_elem k v k' v' d :
  NoDup (map fst d) ->
  (k', v') ∈ dict_set k v d <-> (k' = k /\ v' = v) \/ ((k', v') ∈ d /\ k' <> k).
Proof.
  induction d as [|[k0 v0] d IH]; simpl; intros Hnd.
  - rewrite list_elem_of_singleton, elem_of_nil.
    split; [intros [= -> ->]; now left | intros [[-> ->]|[[] _]]; reflexivity].
  - apply NoDup_cons in Hnd as [Hk0 Hd].
    destruct (String.eqb_spec k k0) as [->|Hne]; rewrite !elem_of_cons.
    + split.
      * intros [[= -> ->]|H]; [now left|].
        right. split; [now right|]. intros ->. apply Hk0.
        apply (list_elem_of_fmap_2 fst) in H. exact H.
      * intros [[-> ->]|[[[= -> ->]|H] Hk]]; [now left | congruence | now right].
    + rewrite (IH Hd). split.
      * intros [[= -> ->]|[[-> ->]|[H Hk]]].
        -- right. split; [now left | congruence].
        -- now left.
        -- right. split; [now right | exact Hk].
      * intros [[-> ->]|[[[= -> ->]|H] Hk]].
        -- right. now left.
        -- now left.
        -- right. right. now split.
Qed.

Lemma dict_get_elem k v d :
  NoDup (map fst d) -> (k, v) ∈ d -> dict_get k d = Some v.
Proof.
  induction d as [|[k0 v0] d IH]; simpl; intros Hnd H.
  - now apply elem_of_nil in H.
  - apply NoDup_cons in Hnd as [Hk0 Hd]. apply elem_of_cons in H as [[= <- <-]|H].
    + now rewrite String.eqb_refl.
    + destruct (String.eqb_spec k k0) as [->|Hne]; [|now apply IH].
      exfalso. apply Hk0. apply (list_elem_of_fmap_2 fst) in H. exact H.
Qed.

End DictFacts.

(** ** Java discovery *)

Section FinderFacts.
Import Py JavaFinder.

Lemma shallowest_of_nil : shallowest_of [] [].
Proof.
  split; simpl.
  - apply NoDup_nil_2.
  - intros k v H. now apply elem_of_nil in H.
  - intros c H. now apply elem_of_nil in H.
Qed.

Lemma keep_shallowest_step (seen : list JavaInstallation)
    (found : list (string * JavaInstallation)) (d : JavaInstallation) :
  shallowest_of seen found ->
  shallowest_of (seen ++ [d]) (keep_shallowest found d).
Proof.
  intros [Hnd Hmin Hpres]. unfold keep_shallowest.
  assert (Hset :
            (forall c, c ∈ seen -> display_alias c = display_alias d ->
                       (path_depth d <= path_depth c)%nat) ->
            shallowest_of (seen ++ [d]) (dict_set (display_alias d) d found)).
  { intros Hd. split.
    - now apply dict_set_NoDup.
    - intros k v Hkv. apply dict_set_elem in Hkv as [[-> ->]|[Hkv Hk]]; [| |exact Hnd].
      + split; [reflexivity|]. split; [apply elem_of_app; right; now left|].
        intros c Hc Hal. apply elem_of_app in Hc as [Hc|Hc]; [now apply Hd|].
        apply list_elem_of_singleton in Hc as ->. lia.
      + destruct (Hmin k v Hkv) as (Hal & Hv & Hle).
        split; [exact Hal|]. split; [apply elem_of_app; now left|].
        intros c Hc Hc'. apply elem_of_app in Hc as [Hc|Hc]; [now apply Hle|].
        apply list_elem_of_singleton in Hc as ->. congruence.
    - intros c Hc. apply dict_set_key_in.
      apply elem_of_app in Hc as [Hc|Hc]; [right; now apply Hpres|].
      apply list_elem_of_singleton in Hc as ->. now left. }
  destruct (dict_get (display_alias d) found) as [current|] eqn:Hget.
  - pose proof (dict_get_Some _ _ _ Hget) as Hcur.
    destruct (Hmin _ _ Hcur) as (Hal & Hin & Hle).
    destruct (Nat.ltb_spec (path_depth d) (path_depth current)) as [Hlt|Hge].
    + apply Hset. intros c Hc Hc'. specialize (Hle c Hc Hc'). lia.
    + split.
      * exact Hnd.
      * intros k v Hkv. destruct (Hmin k v Hkv) as (Hal' & Hv & Hle').
        split; [exact Hal'|]. split; [apply elem_of_app; now left|].
        intros c Hc Hc'. apply elem_of_app in Hc as [Hc|Hc]; [now apply Hle'|].
        apply list_elem_of_singleton in Hc as ->. rewrite <- Hc' in Hkv.
        rewrite (dict_get_elem _ _ _ Hnd Hkv) in Hget. injection Hget as ->. lia.
      * intros c Hc. apply elem_of_app in Hc as [Hc|Hc]; [now apply Hpres|].
        apply list_elem_of_singleton in Hc as ->.
        apply (list_elem_of_fmap_2 fst) in Hcur. exact Hcur.
  - apply Hset. intros c Hc Hc'. exfalso.
    apply dict_get_None in Hget. apply Hget. rewrite <- Hc'. now apply Hpres.
Qed.

Lemma keep_shallowest_fold (kept seen : list JavaInstallation)
    (found : list (string * JavaInstallation)) :
  shallowest_of seen found ->
  shallowest_of (seen ++ kept) (fold_left keep_shallowest kept found).
Proof.
  revert seen found. induction kept as [|d kept IH]; intros seen found H; simpl.
  - now rewrite app_nil_r.
  - replace (seen ++ d :: kept) with ((seen ++ [d]) ++ kept)
      by now rewrite <- app_assoc.
    apply IH. now apply keep_shallowest_step.
Qed.

Lemma dedup_by_home_elem (seen : gset Path) (l : list JavaInstallation)
    (d : JavaInstallation) :
  d ∈ dedup_by_home seen l -> d ∈ l /\ java_home d ∉ seen.
Proof.
  revert seen. induction l as [|x l IH]; intros seen; simpl.
  - intros H. now apply elem_of_nil in H.
  - destruct (decide (java_home x ∈ seen)) as [Hin|Hout].
    + intros H. destruct (IH _ H) as [Hd Hs]. split; [now right | exact Hs].
    + intros H. apply elem_of_cons in H as [Heq|H].
      * subst d. split; [now left | exact Hout].
      * destruct (IH _ H) as [Hd Hs]. split; [now right|].
        intros Hx. apply Hs, elem_of_union. now right.
Qed.

Lemma dedup_by_home_NoDup (seen : gset Path) (l : list JavaInstallation) :
  NoDup (map java_home (dedup_by_home seen l)).
Proof.
  revert seen. induction l as [|x l IH]; intros seen; simpl; [constructor|].
  destruct (decide (java_home x ∈ seen)); [apply IH|].
  simpl. constructor; [|apply IH].
  intros Hin. apply list_elem_of_fmap in Hin as (d & Hd & Hin).
  apply dedup_by_home_elem in Hin as [_ Hout]. rewrite <- Hd in Hout. set_solver.
Qed.

(** Every install root met is the root of an installation kept, unless it
    was seen before. *)
Lemma dedup_by_home_covers (seen : gset Path) (l : list JavaInstallation)
    (d : JavaInstallation) :
  d ∈ l -> java_home d ∉ seen ->
  exists d', d' ∈ dedup_by_home seen l /\ java_home d' = java_home d.
Proof.
  revert seen. induction l as [|x l IH]; intros seen Hd Hout.
  - now apply elem_of_nil in Hd.
  - cbn [dedup_by_home].
    destruct (decide (java_home x ∈ seen)) as [Hin|Hx].
    + apply elem_of_cons in Hd as [->|Hd]; [contradiction|]. now apply IH.
    + apply elem_of_cons in Hd as [->|Hd].
      * exists x. split; [now left | reflexivity].
      * destruct (decide (java_home d = java_home x)) as [Heq|Hne].
        -- exists x. split; [now left | now symmetry].
        -- destruct (IH ({[ java_home x ]} ∪ seen) Hd) as (d' & Hd' & Hh).
           ++ set_solver.
           ++ exists d'. split; [now right | exact Hh].
Qed.

Context (wide_digit : string -> option (nat * Z)) (int_max_str_digits : nat)
        (run_java_version : Path -> run_outcome) (resolve : Path -> Path)
        (exists_ is_file access_X_OK : Path -> bool).

Local Abbreviation details_of :=
  (get_java_details wide_digit int_max_str_digits run_java_version resolve exists_).
Local Abbreviation probe_of :=
  (probe wide_digit int_max_str_digits run_java_version resolve exists_
         is_file access_X_OK).
Local Abbreviation step :=
  (process_candidate wide_digit int_max_str_digits run_java_version resolve
                     exists_ is_file access_X_OK).
Local Abbreviation loop :=
  (for_candidates wide_digit int_max_str_digits run_java_version resolve
                  exists_ is_file access_X_OK).

(** One iteration either passes the candidate over, stores what its probe
    yields, or leaves the loop with what [get_java_details] raised. *)
Lemma process_candidate_cases (st : finder_state) (c : Path) :
  match step st c with
  | Ok st' =>
      found_installations st'
      = fold_left keep_shallowest
          (dedup_by_home (processed_homes st) (omap probe_of [c]))
          (found_installations st)
      /\ processed_homes st'
         = match probe_of c with
           | Some d => {[ java_home d ]} ∪ processed_homes st
           | None => processed_homes st
           end
  | Raise e =>
      is_file c = true /\ access_X_OK c = true
      /\ details_of c = Raise e /\ is_IOError e = false
  end.
Proof.
  unfold process_candidate, probe. cbn [omap list_omap].
  destruct (is_file c), (access_X_OK c); cbn [negb orb]; try (split; reflexivity).
  destruct details_of as [[d|]|e]; cbn [mbind result_bind try_except].
  - cbn [dedup_by_home].
    destruct (decide (java_home d ∈ processed_homes st)) as [Hin|Hout];
      cbn [fold_left found_installations processed_homes].
    + split; [reflexivity|]. set_solver.
    + split; reflexivity.
  - split; reflexivity.
  - destruct (is_IOError e) eqn:He; [split; reflexivity|]. auto.
Qed.

(** The homes seen grow by the homes of what is stored. *)
Lemma dedup_by_home_seen (seen seen' : gset Path) (l : list JavaInstallation) :
  seen ≡ seen' -> dedup_by_home seen l = dedup_by_home seen' l.
Proof.
  revert seen seen'. induction l as [|d l IH]; intros seen seen' H; [reflexivity|].
  cbn [dedup_by_home].
  destruct (decide (java_home d ∈ seen)) as [Hin|Hout],
           (decide (java_home d ∈ seen')) as [Hin'|Hout'].
  - now apply IH.
  - exfalso. apply Hout'. now rewrite <- H.
  - exfalso. apply Hout. now rewrite H.
  - f_equal. apply IH. now rewrite H.
Qed.

(** When the loop ends normally it has stored, in the order of the
    candidates, the installations that survive the install-root check. *)
Lemma for_candidates_Ok (order : list Path) (st st' : finder_state) :
  loop st order = Ok st' ->
  found_installations st'
  = fold_left keep_shallowest
      (dedup_by_home (processed_homes st) (omap probe_of order))
      (found_installations st).
Proof.
  revert st. induction order as [|c order IH]; intros st; cbn [for_candidates].
  - now intros [= <-].
  - pose proof (process_candidate_cases st c) as Hc.
    destruct (step st c) as [st1|e]; cbn [mbind result_bind]; [|discriminate].
    destruct Hc as [Hfound Hhomes]. intros Hrest. rewrite (IH _ Hrest).
    rewrite Hfound, Hhomes. cbn [omap list_omap].
    destruct (probe_of c) as [d|]; [|reflexivity].
    cbn [dedup_by_home].
    destruct (decide (java_home d ∈ processed_homes st)) as [Hin|Hout];
      cbn [fold_left].
    + f_equal. apply dedup_by_home_seen. set_solver.
    + reflexivity.
Qed.

(** When the loop is left by an exception, [get_java_details] raised it for
    a candidate that is a file and executable, and it is not an [OSError]. *)
Lemma for_candidates_Raise (order : list Path) (st : finder_state) (e : exn) :
  loop st order = Raise e ->
  exists c, c ∈ order /\ is_file c = true /\ access_X_OK c = true
            /\ details_of c = Raise e /\ is_IOError e = false.
Proof.
  revert st. induction order as [|c order IH]; intros st; cbn [for_candidates];
    [discriminate|].
  pose proof (process_candidate_cases st c) as Hc.
  destruct (step st c) as [st1|e1]; cbn [mbind result_bind].
  - intros Hrest. destruct (IH _ Hrest) as (x & Hx & H). exists x.
    split; [now right | exact H].
  - intros [= ->]. exists c. split; [now left | exact Hc].
Qed.

(** The loop over a list of candidates that ends normally goes on with the
    candidates that follow. *)
Lemma for_candidates_app (before after : list Path) (st : finder_state) :
  loop st (before ++ after)
  = (st' ← loop st before; loop st' after).
Proof.
  revert st. induction before as [|c before IH]; intros st; [reflexivity|].
  cbn [app for_candidates].
  destruct (step st c) as [st1|e]; cbn [mbind result_bind]; [apply IH|reflexivity].
Qed.

Lemma probe_Some (c : Path) (d : JavaInstallation) :
  probe_of c = Some d ->
  is_file c = true /\ access_X_OK c = true /\ details_of c = Ok (Some d).
Proof.
  unfold probe.
  destruct (is_file c), (access_X_OK c); simpl; try discriminate.
  destruct details_of as [[x|]|e]; try discriminate.
  intros [= ->]. auto.
Qed.

(** What [get_java_details] returns lies at the resolved path of the
    executable it was given. *)
Lemma get_java_details_resolved (c : Path) (d : JavaInstallation) :
  details_of c = Ok (Some d) ->
  java_home d = parent (parent (resolve c))
  /\ path_depth d = length (resolve c)
  /\ major_version_of wide_digit int_max_str_digits (version d)
     = Ok (major_version d)
  /\ display_alias d = alias_of (vendor d) (major_version d).
Proof.
  unfold get_java_details.
  destruct (run_java_version c) as [output| | |message|]; try discriminate.
  destruct (match search_version output with
            | Some g => Some g
            | None => search_vendor_version output
            end) as [v|]; [|discriminate].
  destruct (major_version_of wide_digit int_max_str_digits v) as [n|e] eqn:Hn;
    cbn [mbind result_bind]; [|discriminate].
  intros [= <-]. cbn. auto.
Qed.

End FinderFacts.

Import JavaFinder.

(** C1. When [find_java_installations] returns, the discovered
    installations ([discovered]) are the candidates reduced to one per
    symlink-resolved install root: each is what [get_java_details] made of
    a candidate that is a file and executable, its install root is the
    directory two levels above the resolved path of that candidate and its
    depth is the number of parts of the resolved path; no two of them have
    the same root, and the root of every candidate that yields an
    installation is the root of one of them.  If two of them, [a] and [b],
    share an alias and [a] lies at the smaller depth, then [b] is not in the
    result; the result holds one installation per alias; the one it holds
    for the alias of [a] and [b] is a discovered installation of that alias
    at the smallest depth; and it is [a] itself when no third discovered
    installation has the alias.  This holds in whatever order the set of
    candidates is gone through. *)
Theorem find_java_installations_keeps_smaller_depth
    (wide_digit : string -> option (nat * Z)) (int_max_str_digits : nat)
    (run_java_version : Path -> run_outcome) (resolve : Path -> Path)
    (exists_ is_file access_X_OK : Path -> bool)
    (environ_JAVA_HOME which_java : option string)
    (Path_of : string -> Path) (expanduser : Path -> Path)
    (is_dir : Path -> bool) (rglob_bin_java : Path -> list Path)
    (iteration_order : gset Path -> list Path)
    (search_paths : list string) (result : list JavaInstallation) :
  let candidates :=
    iteration_order
      (candidate_exes access_X_OK environ_JAVA_HOME which_java Path_of
         expanduser is_dir rglob_bin_java search_paths) in
  let details_of :=
    get_java_details wide_digit int_max_str_digits run_java_version resolve
      exists_ in
  let kept :=
    discovered wide_digit int_max_str_digits run_java_version resolve exists_
      is_file access_X_OK environ_JAVA_HOME which_java Path_of expanduser
      is_dir rglob_bin_java iteration_order search_paths in
  find_java_installations wide_digit int_max_str_digits run_java_version
    resolve exists_ is_file access_X_OK environ_JAVA_HOME which_java Path_of
    expanduser is_dir rglob_bin_java iteration_order search_paths
  = Ok result ->
  (forall d, d ∈ kept ->
     exists c, c ∈ candidates /\ is_file c = true /\ access_X_OK c = true
               /\ details_of c = Ok (Some d)
               /\ java_home d = parent (parent (resolve c))
               /\ path_depth d = length (resolve c))
  /\ NoDup (map java_home kept)
  /\ (forall c d, c ∈ candidates -> is_file c = true -> access_X_OK c = true ->
                  details_of c = Ok (Some d) ->
                  exists d', d' ∈ kept
                             /\ java_home d' = parent (parent (resolve c)))
  /\ (forall a b, a ∈ kept -> b ∈ kept ->
        display_alias a = display_alias b ->
        (path_depth a < path_depth b)%nat ->
        (b ∉ result)
        /\ NoDup (map display_alias result)
        /\ (exists r, r ∈ result /\ r ∈ kept /\ display_alias r = display_alias a
                      /\ forall c, c ∈ kept -> display_alias c = display_alias a ->
                                   (path_depth r <= path_depth c)%nat)
        /\ ((forall c, c ∈ kept -> display_alias c = display_alias a ->
                       c = a \/ c = b) ->
            a ∈ result)).
Proof.
  intros candidates details_of kept Hresult.
  unfold discovered, discovered_in in kept. fold candidates in kept.
  unfold find_java_installations, process_candidates in Hresult.
  fold candidates in Hresult.
  destruct (for_candidates _ _ _ _ _ _ _ _ candidates) as [st|e] eqn:Hloop;
    [|discriminate].
  cbn [mbind result_bind] in Hresult. injection Hresult as Hresult.
  set (found := found_installations st) in *.
  assert (Hinv : shallowest_of kept found).
  { unfold found. rewrite (for_candidates_Ok _ _ _ _ _ _ _ _ _ _ Hloop).
    apply (keep_shallowest_fold _ [] []), shallowest_of_nil. }
  destruct Hinv as [Hnd Hmin Hpres].
  assert (Hperm : Permutation result (map snd found))
    by (rewrite <- Hresult; apply sorted_reverse_perm).
  assert (Hres : forall r, r ∈ result <-> exists k, (k, r) ∈ found).
  { intros r. rewrite Hperm, list_elem_of_fmap. split.
    - intros [[k v] [-> H]]. now exists k.
    - intros [k H]. now exists (k, r). }
  split; [|split; [|split]].
  - intros d Hd. apply dedup_by_home_elem in Hd as [Hd _].
    apply list_elem_of_omap in Hd as (c & Hc & Hp).
    apply probe_Some in Hp as (Hf & Hx & Hdet).
    destruct (get_java_details_resolved _ _ _ _ _ _ _ Hdet) as (Hhome & Hdepth & _).
    exists c. auto 7.
  - apply dedup_by_home_NoDup.
  - intros c d Hc Hf Hx Hdet.
    assert (Hp : probe wide_digit int_max_str_digits run_java_version resolve
                   exists_ is_file access_X_OK c = Some d).
    { unfold probe. rewrite Hf, Hx. cbn [negb orb]. fold details_of.
      now rewrite Hdet. }
    destruct (get_java_details_resolved _ _ _ _ _ _ _ Hdet) as (Hhome & _).
    rewrite <- Hhome.
    apply (dedup_by_home_covers ∅ _ d); [|set_solver].
    apply list_elem_of_omap. now exists c.
  - intros a b Ha Hb Hal Hlt.
    assert (Hbest : exists r, r ∈ result /\ r ∈ kept
              /\ display_alias r = display_alias a
              /\ forall c, c ∈ kept -> display_alias c = display_alias a ->
                           (path_depth r <= path_depth c)%nat).
    { specialize (Hpres a Ha).
      apply list_elem_of_fmap in Hpres as [[k r] [Hk Hkr]].
      simpl in Hk. subst k. destruct (Hmin _ _ Hkr) as (Hr & Hin & Hle).
      exists r. split; [apply Hres; eauto|]. auto. }
    split; [|split; [|split]].
    + intros Hin. apply Hres in Hin as [k Hk].
      destruct (Hmin _ _ Hk) as (Hkb & _ & Hle).
      specialize (Hle a Ha). rewrite <- Hkb in Hle. specialize (Hle Hal). lia.
    + rewrite Hperm.
      replace (map display_alias (map snd found)) with (map fst found);
        [exact Hnd|].
      clear -Hmin. induction found as [|[k v] found IH]; [reflexivity|]. simpl.
      f_equal.
      * symmetry. apply (Hmin k v). now left.
      * apply IH. intros k' v' H. apply Hmin. now right.
    + exact Hbest.
    + intros Honly. destruct Hbest as (r & Hr & Hk & Hra & Hle).
      destruct (Honly r Hk Hra) as [->| ->]; [exact Hr|].
      specialize (Hle a Ha eq_refl). lia.
Qed.

Lemma find_java_installations_keeps_smaller_depth_witness :
  let result :=
    [Samples.installation_at Samples.opt_java;
     {| java_home := ["/"; "usr"; "lib"; "jvm"; "java-8"];
        java_type := "JDK"; version := "1.8.0_291";
        vendor := "Unknown"; major_version := 8;
        display_alias := "unknown8"; path_depth := 7 |}] in
  find_java_installations Samples.no_wide_digit 0 Samples.linked_run
    Samples.linked_resolve Samples.host_true Samples.host_true Samples.host_true
    (Some "/opt/jdk-17") (Some "/usr/bin/java") Samples.sample_Path_of
    Samples.host_resolve Samples.host_true Samples.host_rglob
    Samples.linked_order ["/usr/lib/jvm"] = Ok result
  /\ (exists c, java_home (Samples.installation_at Samples.jvm_java)
                = parent (parent (Samples.linked_resolve c))
                /\ path_depth (Samples.installation_at Samples.jvm_java)
                   = length (Samples.linked_resolve c))
  /\ (Samples.installation_at Samples.jvm_java ∉ result)
  /\ Samples.installation_at Samples.opt_java ∈ result.
Proof.
  intros result.
  assert (Hrun : find_java_installations Samples.no_wide_digit 0
                   Samples.linked_run Samples.linked_resolve Samples.host_true
                   Samples.host_true Samples.host_true
                   (Some "/opt/jdk-17") (Some "/usr/bin/java")
                   Samples.sample_Path_of Samples.host_resolve
                   Samples.host_true Samples.host_rglob
                   Samples.linked_order ["/usr/lib/jvm"] = Ok result)
    by (vm_compute; reflexivity).
  pose proof (find_java_installations_keeps_smaller_depth
                Samples.no_wide_digit 0 Samples.linked_run
                Samples.linked_resolve
                Samples.host_true Samples.host_true Samples.host_true
                (Some "/opt/jdk-17") (Some "/usr/bin/java")
                Samples.sample_Path_of
                Samples.host_resolve Samples.host_true Samples.host_rglob
                Samples.linked_order ["/usr/lib/jvm"] result Hrun) as H.
  cbv zeta in H.
  assert (Hkept : discovered Samples.no_wide_digit 0 Samples.linked_run
                    Samples.linked_resolve
                    Samples.host_true Samples.host_true Samples.host_true
                    (Some "/opt/jdk-17") (Some "/usr/bin/java")
                    Samples.sample_Path_of
                    Samples.host_resolve Samples.host_true Samples.host_rglob
                    Samples.linked_order ["/usr/lib/jvm"]
                  = [Samples.installation_at Samples.jvm_java;
                     {| java_home := ["/"; "usr"; "lib"; "jvm"; "java-8"];
                        java_type := "JDK"; version := "1.8.0_291";
                        vendor := "Unknown"; major_version := 8;
                        display_alias := "unknown8"; path_depth := 7 |};
                     Samples.installation_at Samples.opt_java])
    by (vm_compute; reflexivity).
  rewrite Hkept in H.
  destruct H as (Hpin & _ & _ & Hab).
  destruct (Hpin (Samples.installation_at Samples.jvm_java))
    as (c & Hc & _ & _ & Hdet & Hhome & Hdepth);
    [apply elem_of_cons; now left|].
  destruct (Hab (Samples.installation_at Samples.opt_java)
                (Samples.installation_at Samples.jvm_java))
    as (Hb & _ & _ & Ha).
  - apply elem_of_cons. right. apply elem_of_cons. right. apply elem_of_cons. now left.
  - apply elem_of_cons. now left.
  - reflexivity.
  - simpl. lia.
  - split; [exact Hrun|]. split; [exists c; auto|]. split; [exact Hb|]. apply Ha.
    intros x Hx Hal. rewrite !elem_of_cons in Hx.
    destruct Hx as [->|[->|[->|Hx]]]; [now right | discriminate | now left |].
    now apply elem_of_nil in Hx.
Defined.

(** ** Version components *)

Section DigitFacts.

Lemma digit_one (c : ascii) : is_digit c = true -> digit_value c = 1 -> c = "1"%char.
Proof.
  destruct c as [[] [] [] [] [] [] [] []]; vm_compute; intros; congruence.
Qed.

Lemma digit_positive (c : ascii) :
  is_digit c = true -> c <> "0"%char -> 1 <= digit_value c <= 9.
Proof.
  destruct c as [[] [] [] [] [] [] [] []]; vm_compute; intros; try congruence;
    split; congruence.
Qed.

Lemma digit_range (c : ascii) : is_digit c = true -> 0 <= digit_value c <= 9.
Proof.
  destruct c as [[] [] [] [] [] [] [] []]; vm_compute; intros; try congruence;
    split; congruence.
Qed.

(** The number written by digits after a first part [acc] that is not zero. *)
Lemma number_from_lower (digits : list Z) (acc : Z) :
  Forall (fun value => 0 <= value <= 9) digits -> 1 <= acc ->
  acc <= fold_left (fun acc value => 10 * acc + value) digits acc
  /\ (digits <> [] ->
      10 <= fold_left (fun acc value => 10 * acc + value) digits acc).
Proof.
  intros H. revert acc. induction H as [|value digits Hv _ IH]; intros acc Hacc;
    cbn [fold_left].
  - split; [lia | congruence].
  - destruct (IH (10 * acc + value)) as [Hle _]; [lia|].
    split; [lia | intros _; lia].
Qed.

(** The digits of a run of ASCII digits are the values of its characters. *)
Lemma digits_of_ascii (wide_digit : string -> option (nat * Z)) (p : string) :
  all_digits p = true ->
  digits_of wide_digit O p = map digit_value (list_ascii_of_string p)
  /\ Forall (fun value => 0 <= value <= 9) (digits_of wide_digit O p).
Proof.
  induction p as [|c p IH]; cbn [all_digits digits_of digit_at list_ascii_of_string map].
  - intros _. split; [reflexivity | constructor].
  - intros H. apply andb_true_iff in H as [Hc Hp]. rewrite Hc.
    destruct (IH Hp) as [Heq Hall]. split; [now rewrite Heq|].
    constructor; [now apply digit_range | exact Hall].
Qed.

(** A run of ASCII digits that does not start with a zero is the number one
    exactly when it is the text [1]. *)
Lemma int_one_canonical (wide_digit : string -> option (nat * Z))
    (int_max_str_digits : nat) (p : string) :
  all_digits p = true -> startswith p "0" = false ->
  int wide_digit int_max_str_digits p = Ok 1 <-> p = "1".
Proof.
  intros Hd H0. split; [|now intros ->].
  unfold int.
  destruct (_ && _ && _); [discriminate|]. intros [= H].
  destruct p as [|c p]; [discriminate|].
  destruct (digits_of_ascii wide_digit _ Hd) as [_ Hall].
  cbn [all_digits] in Hd. apply andb_true_iff in Hd as [Hc Hp].
  assert (Hc0 : c <> "0"%char).
  { intros ->. simpl in H0. discriminate. }
  pose proof (digit_positive c Hc Hc0) as Hpos.
  cbn [digits_of digit_at] in H, Hall. rewrite Hc in H, Hall.
  apply Forall_cons in Hall as [_ Hall].
  unfold number_of in H. cbn [fold_left] in H.
  rewrite Z.mul_0_r, Z.add_0_l in H.
  destruct (number_from_lower _ (digit_value c) Hall) as [Hle Hten]; [lia|].
  destruct (digits_of wide_digit 0 p) as [|d ds] eqn:Hds.
  - cbn [fold_left] in H. rewrite (digit_one c Hc H).
    destruct p as [|c' p]; [reflexivity|]. exfalso.
    cbn [all_digits] in Hp. apply andb_true_iff in Hp as [Hc' _].
    cbn [digits_of digit_at] in Hds. rewrite Hc' in Hds. discriminate.
  - specialize (Hten ltac:(discriminate)). lia.
Qed.

End DigitFacts.

(** C3. The major version is derived from the numeric components of the
    version string (its maximal runs of decimal digits).  When the first
    component is the text [1], the legacy scheme, it is the second
    component, or 8 when there is no second one; otherwise it is the first
    component.  A first component of ASCII digits without a leading zero is
    the text [1] exactly when its value is one.  So [1.8.0_291] gives 8,
    [17.0.2] gives 17 and [11] gives 11, whatever the interpreter takes for
    a digit and whatever its limit on the length of numbers; and this is
    the major version of every installation [get_java_details] returns. *)
Theorem major_version_legacy_scheme :
  (forall (wide_digit : string -> option (nat * Z)) (int_max_str_digits : nat)
          (version_str first : string) (rest : list string),
      findall_digits wide_digit version_str = first :: rest ->
      (first = "1" ->
       major_version_of wide_digit int_max_str_digits version_str
       = match rest with
         | second :: _ => int wide_digit int_max_str_digits second
         | [] => Ok 8
         end)
      /\ (first <> "1" ->
          major_version_of wide_digit int_max_str_digits version_str
          = int wide_digit int_max_str_digits first)
      /\ (all_digits first = true -> startswith first "0" = false ->
          (int wide_digit int_max_str_digits first = Ok 1 <-> first = "1")))
  /\ (forall (wide_digit : string -> option (nat * Z)) (int_max_str_digits : nat),
        major_version_of wide_digit int_max_str_digits "1.8.0_291" = Ok 8
        /\ major_version_of wide_digit int_max_str_digits "17.0.2" = Ok 17
        /\ major_version_of wide_digit int_max_str_digits "11" = Ok 11)
  /\ (forall (wide_digit : string -> option (nat * Z)) (int_max_str_digits : nat)
             (run_java_version : Path -> run_outcome) (resolve : Path -> Path)
             (exists_ : Path -> bool) (java_exe : Path) (details : JavaInstallation),
        get_java_details wide_digit int_max_str_digits run_java_version resolve
          exists_ java_exe = Ok (Some details) ->
        major_version_of wide_digit int_max_str_digits (version details)
        = Ok (major_version details)).
Proof.
  split; [|split].
  - intros wide_digit int_max_str_digits version_str first rest Hparts.
    unfold major_version_of. rewrite Hparts. split; [|split].
    + intros ->. reflexivity.
    + intros Hne. destruct (String.eqb_spec first "1"); [contradiction|reflexivity].
    + apply int_one_canonical.
  - intros wide_digit int_max_str_digits. repeat split.
  - intros wide_digit int_max_str_digits run_java_version resolve exists_
           java_exe details Hdet.
    now destruct (get_java_details_resolved _ _ _ _ _ _ _ Hdet) as (_ & _ & H & _).
Qed.

Lemma major_version_legacy_scheme_witness :
  major_version_of Samples.no_wide_digit 0 "1.8.0_291"
  = int Samples.no_wide_digit 0 "8"
  /\ major_version_of Samples.no_wide_digit 0 "17.0.2"
     = int Samples.no_wide_digit 0 "17"
  /\ major_version_of Samples.no_wide_digit 0 "1" = Ok 8
  /\ (int Samples.no_wide_digit 0 "17" = Ok 1 <-> "17" = "1")
  /\ major_version_of Samples.no_wide_digit 0
       (version (Samples.installation_at Samples.opt_java))
     = Ok (major_version (Samples.installation_at Samples.opt_java)).
Proof.
  destruct major_version_legacy_scheme as (Hscheme & _ & Hdetails).
  destruct (Hscheme Samples.no_wide_digit O "1.8.0_291" "1" ["8"; "0"; "291"]
                    eq_refl) as (H8 & _ & _).
  destruct (Hscheme Samples.no_wide_digit O "17.0.2" "17" ["0"; "2"] eq_refl)
    as (_ & H17 & Hcanon).
  destruct (Hscheme Samples.no_wide_digit O "1" "1" [] eq_refl) as (H1 & _ & _).
  split; [exact (H8 eq_refl)|].
  split; [apply H17; discriminate|].
  split; [exact (H1 eq_refl)|].
  split; [exact (Hcanon eq_refl eq_refl)|].
  apply (Hdetails Samples.no_wide_digit O Samples.host_run Samples.host_resolve
                  Samples.host_true Samples.opt_java).
  reflexivity.
Defined.

(** A first component whose value is one is not always the text [1]: written
    with a leading zero, or with a digit outside ASCII, it is taken for the
    major version itself, and the second component is not looked at. *)
Lemma major_version_one_not_legacy :
  findall_digits Samples.no_wide_digit "01.8.0_291" = ["01"; "8"; "0"; "291"]
  /\ int Samples.no_wide_digit 0 "01" = Ok 1
  /\ major_version_of Samples.no_wide_digit 0 "01.8.0_291" = Ok 1
  /\ let one := String "239" (String "188" (String "145" EmptyString)) in
     findall_digits Samples.fullwidth_digit (one +:+ ".8.0_291")
     = [one; "8"; "0"; "291"]
     /\ int Samples.fullwidth_digit 0 one = Ok 1
     /\ major_version_of Samples.fullwidth_digit 0 (one +:+ ".8.0_291") = Ok 1.
Proof.
  repeat split.
Qed.

Lemma catalog_listing_failure_gives_empty_witness :
  get_minecraft_versions Samples.remote_404 Samples.reject_json "release" = Ok []
  /\ get_forge_versions Samples.remote_404 Samples.reject_xml "1.20.1" = Ok []
  /\ get_fabric_loader_versions Samples.remote_ok Samples.reject_json "1.20.1" = Ok []
  /\ get_neoforge_versions Samples.remote_ok Samples.reject_xml "1.20.1" = Ok []
  /\ get_minecraft_versions (fun _ _ => Raise Timeout) Samples.reject_json "release"
     = Ok []
  /\ get_minecraft_versions Samples.remote_ok Samples.overflow_json "release"
     = Raise RecursionError.
Proof.
  destruct (catalog_listing_failure_gives_empty
              Samples.remote_404 Samples.reject_json Samples.reject_xml
              "release" "1.20.1") as (Hmc & Hforge & _).
  destruct (catalog_listing_failure_gives_empty
              Samples.remote_ok Samples.reject_json Samples.reject_xml
              "release" "1.20.1") as (_ & _ & Hfabric & Hneo & _).
  destruct (catalog_listing_failure_gives_empty
              (fun _ _ => Raise Timeout) Samples.reject_json Samples.reject_xml
              "release" "1.20.1") as (Htimeout & _).
  destruct (catalog_listing_failure_gives_empty
              Samples.remote_ok Samples.overflow_json Samples.reject_xml
              "release" "1.20.1") as (_ & _ & _ & _ & _ & Hother).
  split; [apply Hmc; now apply http_not_found|].
  split; [apply Hforge; now apply http_not_found|].
  split; [apply Hfabric; now apply (malformed_payload _ _ _ JSONDecodeError)|].
  split; [apply Hneo; now apply (malformed_payload _ _ _ ParseError)|].
  split; [apply Htimeout; now apply transport_error|].
  now apply (Hother {| status_code := 200; content := mojang_manifest_url |}
               RecursionError).
Defined.

(** ** The saved Java *)

Section SelectJavaFacts.
Import Utils.

Lemma prompt_yes_no_loop_true (strip : string -> string) (full_prompt : string)
    (keys : list key) (log : list (string * answer)) (c : console) :
  prompt_yes_no_loop strip full_prompt keys log = (Ok (Some true), c) ->
  exists line, last (transcript c) = Some (full_prompt, Typed line)
               /\ lower (strip line) = "y".
Proof.
  revert log. induction keys as [|[s|] keys IH]; intros log; simpl;
    try discriminate.
  destruct (String.eqb_spec (lower (strip s)) "y") as [Hy|_].
  - intros [= <-]. exists s. simpl. now rewrite last_snoc.
  - destruct (String.eqb (lower (strip s)) "n"); [discriminate|].
    destruct (String.eqb (lower (strip s)) "q" || String.eqb (lower (strip s)) "quit");
      [discriminate|].
    apply IH.
Qed.

End SelectJavaFacts.

Import Utils.

(** C9. If [java-path.json] exists in the server directory, parses, and its
    [javaPath] names a directory whose [bin/java] is an executable file,
    the method returns that [bin/java] and leaves the world as it was: no
    prompt is shown, no key is read, nothing is written.  And whenever the
    file system after the call differs from the one before, the operator
    has answered the save question with [y]: on every other path through
    the method the file system, and with it the file, is untouched. *)
Theorem select_java_reads_before_prompting_writes_on_confirmation
    {FS : Type}
    (exists_ : FS -> Path -> bool) (read_text : FS -> Path -> result string)
    (is_file access_X_OK : FS -> Path -> bool)
    (mkdir_parents : Path -> FS -> result unit * FS)
    (write_text : Path -> string -> FS -> result unit * FS)
    (json_loads : string -> result json) (json_dumps : json -> string)
    (Path_of : string -> Path) (str_of_path : Path -> string)
    (strip : string -> string) (parse_int : string -> option Z)
    (mc_version : string) (server_dir : Path)
    (java_future : result (list JavaInstallation)) (w : world) :
  let java_config_file := joinpath server_dir "java-path.json" in
  let outcome :=
    _select_java_for_version exists_ read_text is_file access_X_OK
      mkdir_parents write_text json_loads json_dumps Path_of str_of_path
      strip parse_int mc_version server_dir java_future w in
  (forall content config p,
      exists_ (fs w) java_config_file = true ->
      read_text (fs w) java_config_file = Ok content ->
      json_loads content = Ok config ->
      get_default config "javaPath" (JStr EmptyString) = Ok (JStr p) ->
      let java_exec := joinpath (joinpath (Path_of p) "bin") "java" in
      is_file (fs w) java_exec = true ->
      access_X_OK (fs w) java_exec = true ->
      outcome = (Ok (Some (str_of_path java_exec)), w))
  /\ (fs (snd outcome) = fs w \/ confirmed_saving strip (terminal (snd outcome))).
Proof.
  intros java_config_file outcome. split.
  - intros content config p He Hr Hj Hg java_exec Hf Ha.
    unfold outcome, _select_java_for_version, saved_java.
    fold java_config_file. rewrite He, Hr. simpl. rewrite Hj. simpl.
    rewrite Hg. simpl. fold java_exec. now rewrite Hf, Ha.
  - unfold outcome, _select_java_for_version.
    destruct (saved_java _ _ _ _ _ _ _ _ _) as [[java_exec|]|e];
      [now left| |now left].
    destruct java_future as [[|inst insts]|e]; [now left| |now left].
    destruct (show_menu _ _ _ _ _ _) as [[choice|e] c1]; [|now left].
    destruct (choice =? -1); [now left|].
    destruct (_ !! _) as [selected_java|]; [|now left].
    destruct (prompt_yes_no _ _ _) as [[[[|]|]|e] c2] eqn:Hask;
      try (now left).
    right. unfold prompt_yes_no in Hask.
    destruct (prompt_yes_no_loop_true _ _ _ _ _ Hask) as (line & Hlast & Hy).
    assert (Hc2 : confirmed_saving strip c2) by (exists selected_java, line; auto).
    destruct (mkdir_parents _ _) as [[[]|e] fs1]; [|exact Hc2].
    destruct (write_text _ _ _) as [[[]|e] fs2]; exact Hc2.
Qed.

Lemma select_java_reads_before_prompting_writes_on_confirmation_witness :
  let w := {| fs := {[ Samples.config_file := "saved" ]} : gmap Path string;
              terminal := {| stdin := [Line "1"; Line "y"]; transcript := [] |} |} in
  _select_java_for_version Samples.disk_exists Samples.disk_read_text
    Samples.disk_is_java Samples.disk_is_java Samples.disk_mkdir
    Samples.disk_write_text Samples.sample_json_loads Samples.sample_json_dumps
    Samples.sample_Path_of Samples.sample_str_of_path Samples.sample_strip
    Samples.sample_parse_int "1.20.1" Samples.server_dir
    (Ok [Samples.installation_at Samples.opt_java]) w
  = (Ok (Some "/opt/jdk-17/bin/java"), w).
Proof.
  intros w.
  apply (proj1 (select_java_reads_before_prompting_writes_on_confirmation
                  Samples.disk_exists Samples.disk_read_text
                  Samples.disk_is_java Samples.disk_is_java Samples.disk_mkdir
                  Samples.disk_write_text Samples.sample_json_loads
                  Samples.sample_json_dumps Samples.sample_Path_of
                  Samples.sample_str_of_path Samples.sample_strip
                  Samples.sample_parse_int "1.20.1" Samples.server_dir
                  (Ok [Samples.installation_at Samples.opt_java]) w)
         "saved" (JObj [("javaPath", JStr "/opt/jdk-17")]) "/opt/jdk-17");
    reflexivity.
Defined.

(** A saved [javaPath] that is itself an existing executable [java] is not
    taken: the file tested is [bin/java] under it.  The method goes on to
    the menu and the save question, and returns what the operator chose. *)
Lemma saved_java_binary_is_not_taken :
  let w := {| fs := {[ Samples.config_file := "binary" ]} : gmap Path string;
              terminal := {| stdin := [Line "1"; Line "n"]; transcript := [] |} |} in
  let outcome :=
    _select_java_for_version Samples.disk_exists Samples.disk_read_text
      Samples.disk_is_java Samples.disk_is_java Samples.disk_mkdir
      Samples.disk_write_text Samples.sample_json_loads Samples.sample_json_dumps
      Samples.sample_Path_of Samples.sample_str_of_path Samples.sample_strip
      Samples.sample_parse_int "1.20.1" Samples.server_dir
      (Ok [Samples.installation_at Samples.opt_java]) w in
  Samples.disk_read_text (fs w) Samples.config_file = Ok "binary"
  /\ Samples.sample_json_loads "binary"
     = Ok (JObj [("javaPath", JStr "/opt/jdk-17/bin/java")])
  /\ Samples.disk_is_java (fs w) (Samples.sample_Path_of "/opt/jdk-17/bin/java")
     = true
  /\ saved_java Samples.disk_exists Samples.disk_read_text Samples.disk_is_java
       Samples.disk_is_java Samples.sample_json_loads Samples.sample_Path_of
       Samples.sample_str_of_path (fs w) Samples.config_file = Ok None
  /\ fst outcome = Ok (Some "/opt/jdk-17/bin/java")
  /\ stdin (terminal (snd outcome)) = []
  /\ length (transcript (terminal (snd outcome))) = 2%nat.
Proof.
  vm_compute. repeat split.
Qed.

(** ** The supervisor *)

Section SupervisorFacts.
Context {Proc : Type}.
Variable poll : Proc -> poll_outcome * Proc.
Variable stdin_write : string -> Proc -> write_outcome * Proc.
Variable wait : Z -> Proc -> wait_outcome * Proc.
Variable kill : Proc -> Proc.
Variable strip : string -> string.

Local Abbreviation replayed := (replay poll stdin_write wait kill).

(** Taking the first event off a trace that is split at a [Read]. *)
Ltac peel H before :=
  destruct before as [|? before]; simpl in H;
  [ injection H as H; try discriminate
  | injection H as <- H ].

Lemma replay_app (l1 l2 : list event) (p : Proc) :
  replayed (l1 ++ l2) p = replayed l2 (replayed l1 p).
Proof.
  revert p. induction l1 as [|[] l1 IH]; intros p; cbn [app replay];
    [reflexivity | apply IH ..].
Qed.

(** The handler of the loop, run on the process [p1]. *)
Lemma send_stop_spec (p1 : Proc) :
  send_stop stdin_write p1
  = (match fst (stdin_write ("stop" +:+ newline) p1) with
     | WriteInterrupted => LoopInterrupted
     | _ => StopSent
     end,
     [Wrote ("stop" +:+ newline) (fst (stdin_write ("stop" +:+ newline) p1))],
     snd (stdin_write ("stop" +:+ newline) p1)).
Proof.
  unfold send_stop. now destruct (stdin_write _ p1).
Qed.

(** The loop leaves the process as its trace says. *)
Lemma input_loop_replay (keys : list key) (p : Proc) :
  forall exit evs p',
    input_loop poll stdin_write strip keys p = (exit, evs, p') ->
    p' = replayed evs p.
Proof.
  revert p. induction keys as [|k keys IH]; intros p exit evs p';
    cbn [input_loop]; destruct (poll p) as [[[c|]|] p1] eqn:Hpoll;
    try (intros [= <- <- <-]; cbn [replay]; now rewrite Hpoll).
  - rewrite send_stop_spec. intros [= <- <- <-]. cbn [replay]. now rewrite Hpoll.
  - destruct k as [user_input|].
    + destruct (truthy (strip user_input)).
      * destruct (stdin_write _ p1) as [[|message|] p2] eqn:Hw.
        -- destruct (input_loop _ _ _ keys p2) as [[exit' evs'] p3] eqn:Hrec.
           intros [= <- <- <-]. cbn [replay]. rewrite Hpoll. cbn [snd].
           rewrite Hw. cbn [snd]. now apply (IH _ _ _ _ Hrec).
        -- intros [= <- <- <-]. cbn [replay]. rewrite Hpoll. cbn [snd].
           now rewrite Hw.
        -- rewrite send_stop_spec. intros [= <- <- <-]. cbn [replay].
           rewrite Hpoll. cbn [snd]. now rewrite Hw.
      * destruct (input_loop _ _ _ keys p1) as [[exit' evs'] p3] eqn:Hrec.
        intros [= <- <- <-]. cbn [replay]. rewrite Hpoll. cbn [snd].
        now apply (IH _ _ _ _ Hrec).
    + rewrite send_stop_spec. intros [= <- <- <-]. cbn [replay]. now rewrite Hpoll.
Qed.

(** In the trace of the loop a signal is read at most once, and what follows
    it is the write of the stop command, to the process as it is then, and
    nothing else. *)
Lemma input_loop_signal (keys : list key) (p : Proc) :
  forall exit evs p' before a after,
    input_loop poll stdin_write strip keys p = (exit, evs, p') ->
    evs = before ++ Read a :: after -> signal a ->
    let written := fst (stdin_write ("stop" +:+ newline) (replayed before p)) in
    after = [Wrote ("stop" +:+ newline) written]
    /\ exit = match written with
              | WriteInterrupted => LoopInterrupted
              | _ => StopSent
              end.
Proof.
  assert (Hstop : forall p0 p1 exit evs p' before a after,
             poll p0 = (Status None, p1) ->
             (let '(exit0, evs0, p2) := send_stop stdin_write p1 in
              (exit0, Polled None :: Read a :: evs0, p2)) = (exit, evs, p') ->
             forall a', evs = before ++ Read a' :: after ->
             let written :=
               fst (stdin_write ("stop" +:+ newline) (replayed before p0)) in
             after = [Wrote ("stop" +:+ newline) written]
             /\ exit = match written with
                       | WriteInterrupted => LoopInterrupted
                       | _ => StopSent
                       end).
  { intros p0 p1 exit evs p' before a after Hpoll. rewrite send_stop_spec.
    intros [= <- <- <-] a' H.
    peel H before. peel H before.
    - subst after. cbn [replay]. rewrite Hpoll. now split.
    - peel H before. now destruct before. }
  revert p. induction keys as [|k keys IH]; intros p exit evs p' before a after;
    cbn [input_loop]; destruct (poll p) as [[[c|]|] p1] eqn:Hpoll.
  - intros [= <- <- <-] H. peel H before. now destruct before.
  - intros Hrun H _. eapply Hstop; eauto.
  - intros [= <- <- <-] H. peel H before. now destruct before.
  - intros [= <- <- <-] H. peel H before. now destruct before.
  - destruct k as [user_input|]; [|intros Hrun H _; eapply Hstop; eauto].
    destruct (truthy (strip user_input)).
    + destruct (stdin_write _ p1) as [[|message|] p2] eqn:Hw.
      * destruct (input_loop _ _ _ keys p2) as [[exit' evs'] p3] eqn:Hrec.
        intros [= <- <- <-] H Ha.
        peel H before. peel H before.
        { destruct Ha; subst; discriminate. }
        peel H before.
        cbn [replay]. rewrite Hpoll. cbn [snd]. rewrite Hw. cbn [snd].
        eapply IH; eauto.
      * intros [= <- <- <-] H Ha.
        peel H before. peel H before.
        { destruct Ha; subst; discriminate. }
        peel H before. now destruct before.
      * rewrite send_stop_spec. intros [= <- <- <-] H Ha.
        peel H before. peel H before.
        { destruct Ha; subst; discriminate. }
        peel H before. peel H before. now destruct before.
    + destruct (input_loop _ _ _ keys p1) as [[exit' evs'] p3] eqn:Hrec.
      intros [= <- <- <-] H Ha.
      peel H before. peel H before.
      { destruct Ha; subst; discriminate. }
      cbn [replay]. rewrite Hpoll. cbn [snd].
      eapply IH; eauto.
  - intros [= <- <- <-] H. peel H before. now destruct before.
Qed.

(** Where a trace [l1 ++ l2] is split at an event that does not occur in
    [l2], the event lies in [l1]. *)
Lemma split_in_front {A} (l1 l2 before after : list A) (x : A) :
  l1 ++ l2 = before ++ x :: after -> x ∉ l2 ->
  exists after1, l1 = before ++ x :: after1 /\ after = after1 ++ l2.
Proof.
  revert l1. induction before as [|b before IH]; intros [|y l1] H Hx; simpl in *.
  - exfalso. apply Hx. rewrite H. now left.
  - injection H as -> <-. now exists l1.
  - exfalso. apply Hx. rewrite H. right. apply elem_of_app. right. now left.
  - injection H as -> H. destruct (IH _ H Hx) as (after1 & -> & ->).
    now exists after1.
Qed.

(** The body of an outer [except] clause: what it leaves on the trace, how
    it ends, and the state of the process after it. *)
Lemma kill_if_running_spec (p : Proc) :
  forall r tail p',
    kill_if_running poll kill p = (r, tail, p') ->
    match poll p with
    | (Status None, p1) => tail = [Polled None; Killed] /\ r = Ok tt /\ p' = kill p1
    | (Status (Some c), p1) => tail = [Polled (Some c)] /\ r = Ok tt /\ p' = p1
    | (PollInterrupted, p1) =>
        tail = [InterruptedPoll] /\ r = Raise KeyboardInterrupt /\ p' = p1
    end.
Proof.
  intros r tail p'. unfold kill_if_running.
  destruct (poll p) as [[[c|]|] p1]; intros [= <- <- <-]; auto.
Qed.

Lemma wait_for_exit_spec (p : Proc) :
  forall r evs p',
    wait_for_exit poll wait kill p = (r, evs, p') ->
    exists tail,
      evs = Waited 60 (fst (wait 60 p)) :: tail
      /\ match fst (wait 60 p) with
         | Exited _ => tail = [] /\ r = Ok tt /\ p' = snd (wait 60 p)
         | _ => kill_if_running poll kill (snd (wait 60 p)) = (r, tail, p')
         end.
Proof.
  intros r evs p'. unfold wait_for_exit.
  destruct (wait 60 p) as [[c| |] p1]; cbn [fst snd].
  - intros [= <- <- <-]. now exists [].
  - destruct (kill_if_running poll kill p1) as [[r1 tail] p2].
    intros [= <- <- <-]. now exists tail.
  - destruct (kill_if_running poll kill p1) as [[r1 tail] p2].
    intros [= <- <- <-]. now exists tail.
Qed.

Lemma kill_if_running_no_read (p : Proc) (a : answer) :
  Read a ∉ snd (fst (kill_if_running poll kill p)).
Proof.
  unfold kill_if_running. destruct (poll p) as [[[c|]|] p1]; cbn [fst snd];
    rewrite ?not_elem_of_cons; repeat split; try discriminate;
    apply not_elem_of_nil.
Qed.

Lemma wait_for_exit_no_read (p : Proc) (a : answer) :
  Read a ∉ snd (fst (wait_for_exit poll wait kill p)).
Proof.
  unfold wait_for_exit. destruct (wait 60 p) as [[c| |] p1].
  - cbn [fst snd]. rewrite not_elem_of_cons. split; [discriminate|].
    apply not_elem_of_nil.
  - pose proof (kill_if_running_no_read p1 a) as H.
    destruct (kill_if_running poll kill p1) as [[r1 tail] p2]. cbn [fst snd] in *.
    rewrite not_elem_of_cons. split; [discriminate | exact H].
  - pose proof (kill_if_running_no_read p1 a) as H.
    destruct (kill_if_running poll kill p1) as [[r1 tail] p2]. cbn [fst snd] in *.
    rewrite not_elem_of_cons. split; [discriminate | exact H].
Qed.

(** The method leaves the process as its trace says. *)
Lemma kill_if_running_replay (p : Proc) :
  snd (kill_if_running poll kill p)
  = replayed (snd (fst (kill_if_running poll kill p))) p.
Proof.
  unfold kill_if_running. destruct (poll p) as [[[c|]|] p1] eqn:Hpoll;
    cbn [fst snd replay]; now rewrite Hpoll.
Qed.

Lemma wait_for_exit_replay (p : Proc) :
  snd (wait_for_exit poll wait kill p)
  = replayed (snd (fst (wait_for_exit poll wait kill p))) p.
Proof.
  unfold wait_for_exit. destruct (wait 60 p) as [[c| |] p1] eqn:Hw.
  - cbn [fst snd replay]. now rewrite Hw.
  - pose proof (kill_if_running_replay p1) as H.
    destruct (kill_if_running poll kill p1) as [[r1 tail] p2].
    cbn [fst snd replay] in *. now rewrite Hw.
  - pose proof (kill_if_running_replay p1) as H.
    destruct (kill_if_running poll kill p1) as [[r1 tail] p2].
    cbn [fst snd replay] in *. now rewrite Hw.
Qed.

Lemma start_server_replay (server_process : Proc) (keys : list key) :
  forall r trace p_final,
    _start_server poll stdin_write wait kill strip server_process keys
    = (r, trace, p_final) ->
    p_final = replayed trace server_process.
Proof.
  intros r trace p_final. unfold _start_server.
  destruct (input_loop poll stdin_write strip keys server_process)
    as [[exit evs] p1] eqn:Hloop.
  pose proof (input_loop_replay _ _ _ _ _ Hloop) as ->.
  destruct exit.
  - pose proof (wait_for_exit_replay (replayed evs server_process)) as H.
    destruct (wait_for_exit _ _ _ _) as [[r1 evs'] p2]. cbn [fst snd] in H.
    intros [= <- <- <-]. now rewrite replay_app.
  - pose proof (wait_for_exit_replay (replayed evs server_process)) as H.
    destruct (wait_for_exit _ _ _ _) as [[r1 evs'] p2]. cbn [fst snd] in H.
    intros [= <- <- <-]. now rewrite replay_app.
  - now intros [= <- <- <-].
  - pose proof (kill_if_running_replay (replayed evs server_process)) as H.
    destruct (kill_if_running _ _ _) as [[r1 evs'] p2]. cbn [fst snd] in H.
    intros [= <- <- <-]. now rewrite replay_app.
Qed.

Section Terminates.
(** The status of a process, [None] while it runs: a return code reported
    by [poll] or [wait] is the status, and a killed process has one. *)
Variable returncode : Proc -> option Z.
Hypothesis poll_exited :
  forall p c p', poll p = (Status (Some c), p') -> returncode p' = Some c.
Hypothesis wait_exited :
  forall t p c p', wait t p = (Exited c, p') -> returncode p' = Some c.
Hypothesis kill_terminates : forall p, returncode (kill p) <> None.

Lemma kill_if_running_terminated (p : Proc) :
  forall tail p',
    kill_if_running poll kill p = (Ok tt, tail, p') -> returncode p' <> None.
Proof.
  intros tail p'. unfold kill_if_running.
  destruct (poll p) as [[[c|]|] p1] eqn:Hp; intros [= <- <-].
  - rewrite (poll_exited _ _ _ Hp). discriminate.
  - apply kill_terminates.
Qed.

Lemma wait_for_exit_terminated (p : Proc) :
  forall evs p',
    wait_for_exit poll wait kill p = (Ok tt, evs, p') -> returncode p' <> None.
Proof.
  intros evs p' H. destruct (wait_for_exit_spec _ _ _ _ H) as (tail & _ & Ht).
  destruct (wait 60 p) as [[c| |] p1] eqn:Hw; cbn [fst snd] in Ht.
  - destruct Ht as (_ & _ & ->). rewrite (wait_exited _ _ _ _ Hw). discriminate.
  - now apply (kill_if_running_terminated _ _ _ Ht).
  - now apply (kill_if_running_terminated _ _ _ Ht).
Qed.

End Terminates.

End SupervisorFacts.




(** ** The output thread *)

Section OutputThreadFacts.

(** What every schedule keeps true: the lines forwarded and the lines still
    in the pipe are, in order, the lines the process has written; and once
    the thread has returned the pipe is empty and closed. *)
Lemma take_turn_invariant (s : stream) (t : turn) :
  forwarded s ++ pipe s = emitted s ->
  (reader_finished s = true -> pipe s = [] /\ write_end_open s = false) ->
  forwarded (take_turn s t) ++ pipe (take_turn s t) = emitted (take_turn s t)
  /\ (reader_finished (take_turn s t) = true ->
      pipe (take_turn s t) = [] /\ write_end_open (take_turn s t) = false).
Proof.
  destruct s as [pp wo em fw rf ie]. simpl. intros Hcat Hfin.
  destruct t as [line| | |]; simpl.
  - destruct wo; simpl; [|now split].
    split; [now rewrite app_assoc, Hcat|].
    intros Hf. destruct (Hfin Hf). discriminate.
  - split; [exact Hcat|]. intros Hf. now destruct (Hfin Hf).
  - unfold read_output_turn. simpl.
    destruct rf; simpl; [now split|]. destruct ie; simpl; [now split|].
    destruct pp as [|line rest]; simpl.
    + destruct wo; simpl; [now split|]. now split.
    + split; [now rewrite <- app_assoc|]. discriminate.
  - now split.
Qed.

Lemma run_schedule_invariant (schedule : list turn) (s : stream) :
  forwarded s ++ pipe s = emitted s ->
  (reader_finished s = true -> pipe s = [] /\ write_end_open s = false) ->
  forwarded (run_schedule schedule s) ++ pipe (run_schedule schedule s)
    = emitted (run_schedule schedule s)
  /\ (reader_finished (run_schedule schedule s) = true ->
      pipe (run_schedule schedule s) = []
      /\ write_end_open (run_schedule schedule s) = false).
Proof.
  revert s. induction schedule as [|t schedule IH]; intros s Hcat Hfin; simpl.
  - now split.
  - destruct (take_turn_invariant s t Hcat Hfin) as [Hcat' Hfin'].
    now apply IH.
Qed.

(** While the interpreter runs, as many turns as there are lines in the pipe
    empty the pipe onto standard output. *)
Lemma reader_drains (pp fw em : list string) (wo : bool) :
  run_schedule (repeat ReaderTurn (length pp))
    {| pipe := pp; write_end_open := wo; emitted := em; forwarded := fw;
       reader_finished := false; interpreter_exited := false |}
  = {| pipe := []; write_end_open := wo; emitted := em; forwarded := fw ++ pp;
       reader_finished := false; interpreter_exited := false |}.
Proof.
  revert fw. induction pp as [|line rest IH]; intros fw; simpl.
  - now rewrite app_nil_r.
  - unfold read_output_turn. simpl. unfold run_schedule in IH.
    rewrite IH. now rewrite <- app_assoc.
Qed.

(** After the interpreter has exited the daemon thread does nothing more. *)
Lemma exited_reader_stays (more : list turn) (s : stream) :
  interpreter_exited s = true ->
  forwarded (run_schedule more s) = forwarded s
  /\ reader_finished (run_schedule more s) = reader_finished s.
Proof.
  revert s. induction more as [|t more IH]; intros s He; simpl; [now split|].
  assert (Hstep : interpreter_exited (take_turn s t) = true
                  /\ forwarded (take_turn s t) = forwarded s
                  /\ reader_finished (take_turn s t) = reader_finished s).
  { destruct s as [pp wo em fw rf ie]. simpl in He. subst ie.
    destruct t; simpl; auto.
    - destruct wo; simpl; auto.
    - unfold read_output_turn. simpl. rewrite orb_true_r. simpl. auto. }
  destruct Hstep as (He' & Hf & Hr).
  destruct (IH _ He') as [IHf IHr]. split; congruence.
Qed.

End OutputThreadFacts.




(** * Further properties of the code *)

(** ** The console dialogue *)

Section DialogueFacts.
Variable strip : string -> string.
Variable parse_int : string -> option Z.

Lemma show_menu_loop_spec (full_prompt : string) (n_items : nat)
    (keys : list key) (log : list (string * answer))
    (r : result Z) (c' : console) :
  show_menu_loop strip parse_int full_prompt n_items keys log = (r, c') ->
  (forall choice, r = Ok choice ->
     choice = -1 \/ 1 <= choice <= Z.of_nat n_items)
  /\ exists consumed,
       keys = consumed ++ stdin c'
       /\ (length (transcript c') <= length log + length consumed + 1)%nat
       /\ (length log <= length (transcript c'))%nat.
Proof.
  revert log. induction keys as [|[s|] keys IH]; intros log; simpl.
  - intros [= <- <-]. split; [discriminate|]. exists []. simpl.
    rewrite length_app. simpl. split; [reflexivity|lia].
  - destruct (String.eqb (lower (strip s)) "q" || String.eqb (lower (strip s)) "quit").
    + intros [= <- <-]. split; [intros choice [= <-]; now left|].
      exists [Line s]. simpl. rewrite length_app. simpl. split; [reflexivity|lia].
    + destruct (parse_int (lower (strip s))) as [choice|].
      * destruct ((1 <=? choice) && (choice <=? Z.of_nat n_items)) eqn:Hrange.
        -- intros [= <- <-]. split.
           ++ intros ? [= <-]. right. apply andb_true_iff in Hrange. lia.
           ++ exists [Line s]. simpl. rewrite length_app. simpl.
              split; [reflexivity|lia].
        -- intros H. destruct (IH _ H) as [Hr (consumed & -> & Hlen & Hlog)].
           split; [exact Hr|]. exists (Line s :: consumed).
           rewrite length_app in Hlen, Hlog. simpl in *.
           split; [reflexivity|lia].
      * intros H. destruct (IH _ H) as [Hr (consumed & -> & Hlen & Hlog)].
        split; [exact Hr|]. exists (Line s :: consumed).
        rewrite length_app in Hlen, Hlog. simpl in *.
        split; [reflexivity|lia].
  - intros [= <- <-]. split; [discriminate|]. exists [CtrlC]. simpl.
    rewrite length_app. simpl. split; [reflexivity|lia].
Qed.

Lemma prompt_yes_no_loop_spec (full_prompt : string)
    (keys : list key) (log : list (string * answer))
    (reply : option bool) (c' : console) :
  prompt_yes_no_loop strip full_prompt keys log = (Ok reply, c') ->
  exists skipped line,
    keys = map Line skipped ++ Line line :: stdin c'
    /\ Forall (fun s => yes_no_meaning (lower (strip s)) = None) skipped
    /\ yes_no_meaning (lower (strip line)) = Some reply
    /\ transcript c'
       = log ++ map (fun s => (full_prompt, Typed s)) (skipped ++ [line]).
Proof.
  revert log. induction keys as [|[s|] keys IH]; intros log; simpl;
    try discriminate.
  unfold yes_no_meaning in *.
  destruct (String.eqb (lower (strip s)) "y") eqn:Hy.
  { intros [= <- <-]. exists [], s. simpl. rewrite Hy. auto. }
  destruct (String.eqb (lower (strip s)) "n") eqn:Hn.
  { intros [= <- <-]. exists [], s. simpl. rewrite Hy, Hn. auto. }
  destruct (String.eqb (lower (strip s)) "q" || String.eqb (lower (strip s)) "quit")
    eqn:Hq.
  { intros [= <- <-]. exists [], s. simpl. rewrite Hy, Hn, Hq. auto. }
  intros H. destruct (IH _ H) as (skipped & line & -> & Hsk & Hline & Htr).
  exists (s :: skipped), line. split; [reflexivity|]. split.
  - constructor; [now rewrite Hy, Hn, Hq | exact Hsk].
  - split; [exact Hline|]. rewrite Htr, <- app_assoc. reflexivity.
Qed.

Lemma show_menu_loop_raises (full_prompt : string) (n_items : nat)
    (keys : list key) (log : list (string * answer)) (e : exn) (c' : console) :
  show_menu_loop strip parse_int full_prompt n_items keys log = (Raise e, c') ->
  (e = EOFError /\ stdin c' = []) \/ e = KeyboardInterrupt.
Proof.
  revert log. induction keys as [|[s|] keys IH]; intros log; simpl.
  - intros [= <- <-]. now left.
  - destruct (String.eqb (lower (strip s)) "q" || String.eqb (lower (strip s)) "quit");
      [discriminate|].
    destruct (parse_int (lower (strip s))) as [choice|]; [|apply IH].
    destruct ((1 <=? choice) && (choice <=? Z.of_nat n_items));
      [discriminate | apply IH].
  - intros [= <- <-]. now right.
Qed.

End DialogueFacts.

(** X1. [show_menu] gives back -1 or a number from 1 to the number of
    items, never anything else; with no items it gives -1 at once, reading
    nothing.  It reads keys from the front of the input and leaves the rest;
    and it raises only when the input ends ([EOFError]) or the operator hits
    CTRL+C. *)
Theorem show_menu_choice_in_range
    (strip : string -> string) (parse_int : string -> option Z)
    (title prompt : string) (items : list string)
    (c c' : console) (r : result Z) :
  show_menu strip parse_int title prompt items c = (r, c') ->
  (items = [] -> r = Ok (-1) /\ c' = c)
  /\ (forall choice, r = Ok choice ->
        choice = -1 \/ 1 <= choice <= Z.of_nat (length items))
  /\ (forall e, r = Raise e -> e = EOFError \/ e = KeyboardInterrupt)
  /\ exists consumed, stdin c = consumed ++ stdin c'.
Proof.
  unfold show_menu. destruct items as [|item items].
  - intros [= <- <-]. split; [auto|]. split; [intros ? [= <-]; now left|].
    split; [discriminate|]. now exists [].
  - intros H. split; [discriminate|].
    destruct (show_menu_loop_spec _ _ _ _ _ _ _ _ H) as [Hr (consumed & Hc & _)].
    split; [exact Hr|]. split; [|now exists consumed].
    intros e ->. destruct (show_menu_loop_raises _ _ _ _ _ _ _ _ H) as [[-> _]| ->];
      auto.
Qed.

Lemma show_menu_choice_in_range_witness :
  let c := {| stdin := [Line "7"; Line "two"; Line "2"; Line "1"]; transcript := [] |} in
  exists consumed,
    stdin c
    = consumed
      ++ stdin (snd (show_menu Samples.sample_strip Samples.sample_parse_int2
                       "t" "p" ["a"; "b"] c)).
Proof.
  intros c.
  destruct (show_menu_choice_in_range Samples.sample_strip
              Samples.sample_parse_int2 "t" "p" ["a"; "b"] c
              (snd (show_menu Samples.sample_strip Samples.sample_parse_int2
                      "t" "p" ["a"; "b"] c))
              (fst (show_menu Samples.sample_strip Samples.sample_parse_int2
                      "t" "p" ["a"; "b"] c)))
    as (_ & _ & _ & H); [reflexivity | exact H].
Defined.

(** X2. [prompt_yes_no] passes over every line that, stripped and lowered,
    is none of [y], [n], [q], [quit], and answers by the first line that is
    one: [True] for [y], [False] for [n], [None] for [q] and [quit].  It
    reads exactly those lines, and shows the same prompt for each. *)
Theorem prompt_yes_no_first_valid_answer
    (strip : string -> string) (question : string)
    (c c' : console) (reply : option bool) :
  prompt_yes_no strip question c = (Ok reply, c') ->
  exists skipped line,
    stdin c = map Line skipped ++ Line line :: stdin c'
    /\ Forall (fun s => yes_no_meaning (lower (strip s)) = None) skipped
    /\ yes_no_meaning (lower (strip line)) = Some reply
    /\ transcript c'
       = transcript c
         ++ map (fun s => (colorize question GREEN +:+ " (y/n/q): ", Typed s))
                (skipped ++ [line]).
Proof. unfold prompt_yes_no. apply prompt_yes_no_loop_spec. Qed.

Lemma prompt_yes_no_first_valid_answer_witness :
  exists skipped line,
    [Line "maybe"; Line "N"; Line "y"] = map Line skipped ++ [Line line; Line "y"]
    /\ yes_no_meaning (lower line) = Some (Some false).
Proof.
  destruct (prompt_yes_no_first_valid_answer Samples.sample_strip "Overwrite?"
              {| stdin := [Line "maybe"; Line "N"; Line "y"]; transcript := [] |}
              {| stdin := [Line "y"];
                 transcript :=
                   map (fun s => (colorize "Overwrite?" GREEN +:+ " (y/n/q): ", Typed s))
                       ["maybe"; "N"] |}
              (Some false) eq_refl)
    as (skipped & line & H1 & _ & H3 & _).
  exists skipped, line. split; [exact H1 | exact H3].
Defined.

(** ** Choosing the Java for a server *)

Section SelectJavaMore.

Lemma prompt_yes_no_loop_raises (strip : string -> string) (full_prompt : string)
    (keys : list key) (log : list (string * answer)) (e : exn) (c' : console) :
  prompt_yes_no_loop strip full_prompt keys log = (Raise e, c') ->
  e = EOFError \/ e = KeyboardInterrupt.
Proof.
  revert log. induction keys as [|[s|] keys IH]; intros log; simpl.
  - intros [= <- <-]. now left.
  - destruct (String.eqb (lower (strip s)) "y"); [discriminate|].
    destruct (String.eqb (lower (strip s)) "n"); [discriminate|].
    destruct (String.eqb (lower (strip s)) "q" || String.eqb (lower (strip s)) "quit");
      [discriminate | apply IH].
  - intros [= <- <-]. now right.
Qed.

End SelectJavaMore.



(** ** Forwarding the operator's input to the server *)

Section ForwardingFacts.
Context {Proc : Type}.
Variable poll : Proc -> poll_outcome * Proc.
Variable stdin_write : string -> Proc -> write_outcome * Proc.
Variable wait : Z -> Proc -> wait_outcome * Proc.
Variable kill : Proc -> Proc.
Variable strip : string -> string.

Lemma wrote_lines_app (l1 l2 : list event) :
  wrote_lines (l1 ++ l2) = wrote_lines l1 ++ wrote_lines l2.
Proof.
  induction l1 as [|[] l1 IH]; simpl; try exact IH; [reflexivity|].
  now rewrite IH.
Qed.

Lemma typed_lines_app (l1 l2 : list event) :
  typed_lines (l1 ++ l2) = typed_lines l1 ++ typed_lines l2.
Proof.
  induction l1 as [|[| | [] | | |] l1 IH]; simpl; try exact IH; [reflexivity|].
  now rewrite IH.
Qed.

Lemma signalled_app (l1 l2 : list event) :
  signalled (l1 ++ l2) = signalled l1 || signalled l2.
Proof.
  induction l1 as [|[| | [] | ? [] | |] l1 IH]; simpl; try exact IH; reflexivity.
Qed.

Lemma waited_or_killed_app (l1 l2 : list event) :
  waited_or_killed (l1 ++ l2) = waited_or_killed l1 || waited_or_killed l2.
Proof.
  induction l1 as [|[] l1 IH]; simpl; try exact IH; reflexivity.
Qed.

Lemma kill_if_running_quiet (p : Proc) :
  wrote_lines (snd (fst (kill_if_running poll kill p))) = []
  /\ typed_lines (snd (fst (kill_if_running poll kill p))) = []
  /\ signalled (snd (fst (kill_if_running poll kill p))) = false.
Proof.
  unfold kill_if_running. now destruct (poll p) as [[[c|]|] p1].
Qed.

Lemma wait_for_exit_quiet (p : Proc) :
  wrote_lines (snd (fst (wait_for_exit poll wait kill p))) = []
  /\ typed_lines (snd (fst (wait_for_exit poll wait kill p))) = []
  /\ signalled (snd (fst (wait_for_exit poll wait kill p))) = false.
Proof.
  unfold wait_for_exit. destruct (wait 60 p) as [[c| |] p1]; [now simpl| |];
    pose proof (kill_if_running_quiet p1) as H;
    destruct (kill_if_running poll kill p1) as [[r1 tail] p2]; exact H.
Qed.

Lemma input_loop_forwards (keys : list key) (p : Proc) :
  forall exit evs p',
    input_loop poll stdin_write strip keys p = (exit, evs, p') ->
    wrote_lines evs
    = map (fun s => s +:+ newline)
          (List.filter (fun s => truthy (strip s)) (typed_lines evs))
      ++ (if signalled evs then ["stop" +:+ newline] else []).
Proof.
  revert p. induction keys as [|[user_input|] keys IH]; intros p exit evs p';
    cbn [input_loop]; destruct (poll p) as [[[c|]|] p1];
    try (intros [= <- <- <-]; reflexivity).
  - unfold send_stop. destruct (stdin_write _ p1) as [o p2].
    intros [= <- <- <-]. reflexivity.
  - destruct (truthy (strip user_input)) eqn:Ht.
    + destruct (stdin_write _ p1) as [[|message|] p2].
      * destruct (input_loop _ _ _ keys p2) as [[exit' evs'] p3] eqn:Hrec.
        intros [= <- <- <-]. simpl. rewrite Ht. simpl.
        now rewrite (IH _ _ _ _ Hrec).
      * intros [= <- <- <-]. simpl. now rewrite Ht.
      * unfold send_stop. destruct (stdin_write _ p2) as [o p3].
        intros [= <- <- <-]. simpl. now rewrite Ht.
    + destruct (input_loop _ _ _ keys p1) as [[exit' evs'] p3] eqn:Hrec.
      intros [= <- <- <-]. simpl. rewrite Ht. simpl.
      now rewrite (IH _ _ _ _ Hrec).
  - unfold send_stop. destruct (stdin_write _ p1) as [o p2].
    intros [= <- <- <-]. reflexivity.
Qed.

(** A failed write in the trace of the loop, right after the line the
    operator typed: the loop ends there. *)
Lemma input_loop_failed_write (keys : list key) (p : Proc) :
  forall exit evs p' before l line message after,
    input_loop poll stdin_write strip keys p = (exit, evs, p') ->
    evs = before ++ Read (Typed l) :: Wrote line (WriteFailed message) :: after ->
    exit = ForwardFailed message /\ after = [] /\ line = l +:+ newline
    /\ truthy (strip l) = true
    /\ signalled evs = false /\ waited_or_killed evs = false.
Proof.
  assert (Hstop : forall p1 exit evs p' (a : answer) before l line message after,
             a <> Typed l ->
             (let '(exit0, evs0, p2) := send_stop stdin_write p1 in
              (exit0, Polled None :: Read a :: evs0, p2)) = (exit, evs, p') ->
             evs = before ++ Read (Typed l) :: Wrote line (WriteFailed message)
                     :: after -> False).
  { intros p1 exit evs p' a before l line message after Ha. unfold send_stop.
    destruct (stdin_write _ p1) as [o p2]. intros [= <- <- <-] H.
    destruct before as [|? before]; [discriminate|]. injection H as _ H.
    destruct before as [|? before]; [injection H as H; congruence|].
    injection H as _ H.
    destruct before as [|? before]; [discriminate|]. injection H as _ H.
    now destruct before. }
  revert p. induction keys as [|k keys IH];
    intros p exit evs p' before l line message after;
    cbn [input_loop]; destruct (poll p) as [[[c|]|] p1].
  - intros [= <- <- <-] H. destruct before as [|? [|? ?]]; discriminate.
  - intros Hrun H. exfalso. eapply (Hstop _ _ _ _ AtEnd); eauto; discriminate.
  - intros [= <- <- <-] H. destruct before as [|? [|? ?]]; discriminate.
  - intros [= <- <- <-] H. destruct before as [|? [|? ?]]; discriminate.
  - destruct k as [user_input|];
      [|intros Hrun H; exfalso; eapply (Hstop _ _ _ _ Interrupted); eauto;
        discriminate].
    destruct (truthy (strip user_input)) eqn:Ht.
    + destruct (stdin_write _ p1) as [[|message'|] p2].
      * destruct (input_loop _ _ _ keys p2) as [[exit' evs'] p3] eqn:Hrec.
        intros [= <- <- <-] H.
        destruct before as [|? before]; [discriminate|]. injection H as _ H.
        destruct before as [|? before]; [discriminate|]. injection H as _ H.
        destruct before as [|? before]; [discriminate|]. injection H as _ H.
        destruct (IH _ _ _ _ _ _ _ _ _ Hrec H) as (He & Ha & Hl & Hs & Hsig & Hw).
        repeat split; auto.
      * intros [= <- <- <-] H.
        destruct before as [|? before]; [discriminate|]. injection H as _ H.
        destruct before as [|? before].
        -- injection H as <- <- <- <-. repeat split; auto.
        -- injection H as _ H.
           destruct before as [|? [|? ?]]; discriminate.
      * unfold send_stop. destruct (stdin_write _ p2) as [o p3].
        intros [= <- <- <-] H.
        destruct before as [|? before]; [discriminate|]. injection H as _ H.
        destruct before as [|? before]; [discriminate|]. injection H as _ H.
        destruct before as [|? before]; [discriminate|]. injection H as _ H.
        destruct before as [|? [|? ?]]; discriminate.
    + destruct (input_loop _ _ _ keys p1) as [[exit' evs'] p3] eqn:Hrec.
      intros [= <- <- <-] H.
      destruct before as [|? before]; [discriminate|]. injection H as _ H.
      destruct before as [|? before].
      { injection H as <- H.
        pose proof (f_equal (fun t => match t with
                                      | Polled _ :: _ | InterruptedPoll :: _ => true
                                      | _ => false
                                      end) H) as Hhead.
        clear -Hrec Hhead. exfalso.
        destruct keys as [|k keys]; cbn [input_loop] in Hrec;
          destruct (poll p1) as [[[c|]|] p2];
          repeat match type of Hrec with
                 | context [send_stop ?w ?q] =>
                     unfold send_stop in Hrec; destruct (w _ q)
                 | context [match ?k with Line _ => _ | CtrlC => _ end] => destruct k
                 | context [if ?b then _ else _] => destruct b
                 | context [input_loop ?a ?b ?c ?d ?e] =>
                     destruct (input_loop a b c d e) as [[? ?] ?]
                 | context [stdin_write ?x ?y] => destruct (stdin_write x y) as [[] ?]
                 end;
          injection Hrec as _ <- _; discriminate. }
      injection H as _ H.
      destruct (IH _ _ _ _ _ _ _ _ _ Hrec H) as (He & Ha & Hl & Hs & Hsig & Hw).
      repeat split; auto.
  - intros [= <- <- <-] H. destruct before as [|? [|? ?]]; discriminate.
Qed.

(** When forwarding a line fails the loop ends there: nothing was signalled,
    the failed write of the typed line is the last event, nobody waited or
    killed. *)
Lemma input_loop_forward_failed (keys : list key) (p : Proc) :
  forall message evs p',
    input_loop poll stdin_write strip keys p = (ForwardFailed message, evs, p') ->
    exists before l,
      evs = before ++ [Read (Typed l); Wrote (l +:+ newline) (WriteFailed message)].
Proof.
  revert p. induction keys as [|[user_input|] keys IH]; intros p message evs p';
    cbn [input_loop]; destruct (poll p) as [[[c|]|] p1]; try discriminate.
  - unfold send_stop. destruct (stdin_write _ p1) as [[] p2]; discriminate.
  - destruct (truthy (strip user_input)).
    + destruct (stdin_write _ p1) as [[|message'|] p2].
      * destruct (input_loop _ _ _ keys p2) as [[exit' evs'] p3] eqn:Hrec.
        intros [= -> <- <-].
        destruct (IH _ _ _ _ Hrec) as (before & l & ->).
        now exists (Polled None :: Read (Typed user_input)
                      :: Wrote (user_input +:+ newline) Written :: before), l.
      * intros [= <- <- <-]. now exists [Polled None], user_input.
      * unfold send_stop. destruct (stdin_write _ p2) as [[] p3]; discriminate.
    + destruct (input_loop _ _ _ keys p1) as [[exit' evs'] p3] eqn:Hrec.
      intros [= -> <- <-].
      destruct (IH _ _ _ _ Hrec) as (before & l & ->).
      now exists (Polled None :: Read (Typed user_input) :: before), l.
  - unfold send_stop. destruct (stdin_write _ p1) as [[] p2]; discriminate.
Qed.

Lemma kill_if_running_no_write (p : Proc) (line : string) (o : write_outcome) :
  Wrote line o ∉ snd (fst (kill_if_running poll kill p)).
Proof.
  unfold kill_if_running. destruct (poll p) as [[[c|]|] p1]; cbn [fst snd];
    rewrite ?not_elem_of_cons; repeat split; try discriminate;
    apply not_elem_of_nil.
Qed.

Lemma wait_for_exit_no_write (p : Proc) (line : string) (o : write_outcome) :
  Wrote line o ∉ snd (fst (wait_for_exit poll wait kill p)).
Proof.
  unfold wait_for_exit. destruct (wait 60 p) as [[c| |] p1].
  - cbn [fst snd]. rewrite not_elem_of_cons. split; [discriminate|].
    apply not_elem_of_nil.
  - pose proof (kill_if_running_no_write p1 line o) as H.
    destruct (kill_if_running poll kill p1) as [[r1 tail] p2]. cbn [fst snd] in *.
    rewrite not_elem_of_cons. split; [discriminate | exact H].
  - pose proof (kill_if_running_no_write p1 line o) as H.
    destruct (kill_if_running poll kill p1) as [[r1 tail] p2]. cbn [fst snd] in *.
    rewrite not_elem_of_cons. split; [discriminate | exact H].
Qed.

(** The outer handlers end normally or with [KeyboardInterrupt]. *)
Lemma kill_if_running_result (p : Proc) :
  fst (fst (kill_if_running poll kill p)) = Ok tt
  \/ fst (fst (kill_if_running poll kill p)) = Raise KeyboardInterrupt.
Proof.
  unfold kill_if_running. destruct (poll p) as [[[c|]|] p1]; auto.
Qed.

Lemma wait_for_exit_result (p : Proc) :
  fst (fst (wait_for_exit poll wait kill p)) = Ok tt
  \/ fst (fst (wait_for_exit poll wait kill p)) = Raise KeyboardInterrupt.
Proof.
  unfold wait_for_exit. destruct (wait 60 p) as [[c| |] p1]; [now left| |];
    pose proof (kill_if_running_result p1) as H;
    destruct (kill_if_running poll kill p1) as [[r1 tail] p2]; exact H.
Qed.

End ForwardingFacts.




(** ** The catalog adapters on well-formed and ill-formed documents *)

Section ManifestFacts.

Lemma getitem_field (key : string) (v : json) :
  has_keys [key] v -> getitem v key = Ok (field key v).
Proof.
  destruct v; simpl; try contradiction.
  intros H. apply Forall_cons in H as [H _].
  destruct (assoc key fields); [reflexivity | congruence].
Qed.

Lemma get_field (key : string) (fields : list (string * json)) :
  get (JObj fields) key = Ok (field key (JObj fields)).
Proof. reflexivity. Qed.

Lemma has_keys_one (key : string) (keys : list string) (v : json) :
  has_keys keys v -> In key keys -> has_keys [key] v.
Proof.
  destruct v; simpl; try contradiction.
  intros H Hin. constructor; [|constructor].
  rewrite Forall_forall in H. apply H. now apply list_elem_of_In.
Qed.

(** The loop of [get_minecraft_versions] over entries that have the three
    keys. *)
Lemma manifest_loop (filter_type : string) (entries : list json) :
  Forall (has_keys ["id"; "type"; "url"]) entries ->
  for_each (fun v_data =>
       keep ← (if negb (truthy filter_type) then Ok true
               else t ← get v_data "type"; Ok (eq_str t filter_type));
       if keep : bool then
         id ← getitem v_data "id";
         ty ← getitem v_data "type";
         url ← getitem v_data "url";
         Ok [ {| MinecraftVersion.id := id; MinecraftVersion.type := ty;
                 MinecraftVersion.url := url |} ]
       else Ok []) entries
  = Ok (map version_of_entry (List.filter (passes_filter filter_type) entries)).
Proof.
  induction 1 as [|e entries He _ IH]; [reflexivity|].
  cbn [for_each List.filter]. rewrite IH. clear IH.
  pose proof (getitem_field "id" e (has_keys_one "id" _ _ He ltac:(simpl; auto))) as Hid.
  pose proof (getitem_field "type" e (has_keys_one "type" _ _ He ltac:(simpl; auto))) as Hty.
  pose proof (getitem_field "url" e (has_keys_one "url" _ _ He ltac:(simpl; auto))) as Hurl.
  rewrite Hid, Hty, Hurl. unfold passes_filter.
  destruct e as [| | | | | |fields]; try contradiction.
  rewrite get_field.
  destruct (negb (truthy filter_type)); simpl.
  - reflexivity.
  - destruct (eq_str _ filter_type); reflexivity.
Qed.

End ManifestFacts.

(** X6. On a manifest whose entries all have the keys [id], [type] and [url],
    [get_minecraft_versions] returns the entries whose type is the filter, in
    the order of the manifest, each with its three values; with the empty
    filter it returns them all. *)
Theorem get_minecraft_versions_filters_in_manifest_order
    (client_get : string -> Z -> result Response)
    (json_loads : string -> result json)
    (filter_type : string) (response : Response)
    (top : list (string * json)) (entries : list json) :
  client_get mojang_manifest_url 10 = Ok response ->
  raise_for_status response = Ok tt ->
  json_loads (content response) = Ok (JObj top) ->
  assoc "versions" top = Some (JArr entries) ->
  Forall (has_keys ["id"; "type"; "url"]) entries ->
  get_minecraft_versions client_get json_loads filter_type
  = Ok (map version_of_entry (List.filter (passes_filter filter_type) entries))
  /\ (filter_type = EmptyString ->
      get_minecraft_versions client_get json_loads filter_type
      = Ok (map version_of_entry entries)).
Proof.
  intros Hget Hstatus Hjson Hversions Hentries.
  assert (Hrun : get_minecraft_versions client_get json_loads filter_type
            = Ok (map version_of_entry
                    (List.filter (passes_filter filter_type) entries))).
  { unfold get_minecraft_versions, response_json. rewrite Hget. simpl.
    rewrite Hstatus. simpl. rewrite Hjson. simpl. rewrite Hversions. simpl.
    now rewrite manifest_loop. }
  split; [exact Hrun|]. intros ->. rewrite Hrun. f_equal. f_equal.
  clear. induction entries as [|e entries IH]; [reflexivity|].
  simpl. now rewrite IH.
Qed.

Lemma get_minecraft_versions_filters_in_manifest_order_witness :
  get_minecraft_versions Samples.remote_ok Samples.documents "release"
  = Ok [ {| MinecraftVersion.id := JStr "1.21";
            MinecraftVersion.type := JStr "release";
            MinecraftVersion.url := JStr "https://meta/1.21.json" |};
         {| MinecraftVersion.id := JStr "1.20.4";
            MinecraftVersion.type := JStr "release";
            MinecraftVersion.url := JStr "https://meta/1.20.4.json" |} ].
Proof.
  refine (proj1 (get_minecraft_versions_filters_in_manifest_order
            Samples.remote_ok Samples.documents "release"
            {| status_code := 200; content := mojang_manifest_url |}
            _ _ eq_refl eq_refl eq_refl eq_refl _)).
  repeat constructor; discriminate.
Defined.

(** X7. A manifest that parses but has the wrong shape is not absorbed:
    [get_minecraft_versions] raises [AttributeError] when the document is not
    an object, and [KeyError] when an entry that passes the filter has no
    [id].  A document that is an object without [versions] gives the empty
    list. *)
Theorem get_minecraft_versions_wrong_shape
    (client_get : string -> Z -> result Response)
    (json_loads : string -> result json)
    (filter_type : string) (response : Response) (data : json) :
  client_get mojang_manifest_url 10 = Ok response ->
  raise_for_status response = Ok tt ->
  json_loads (content response) = Ok data ->
  ((forall fields, data <> JObj fields) ->
   get_minecraft_versions client_get json_loads filter_type = Raise AttributeError)
  /\ (forall top, data = JObj top -> assoc "versions" top = None ->
      get_minecraft_versions client_get json_loads filter_type = Ok [])
  /\ (forall top fields rest,
        data = JObj top ->
        assoc "versions" top = Some (JArr (JObj fields :: rest)) ->
        passes_filter filter_type (JObj fields) = true ->
        assoc "id" fields = None ->
        get_minecraft_versions client_get json_loads filter_type
        = Raise (KeyError "id")).
Proof.
  intros Hget Hstatus Hjson.
  unfold get_minecraft_versions, response_json. rewrite Hget. simpl.
  rewrite Hstatus. simpl. rewrite Hjson. simpl.
  split; [|split].
  - intros Hno. destruct data; try reflexivity. now destruct (Hno fields).
  - intros top -> Hv. simpl. now rewrite Hv.
  - intros top fields rest -> Hv Hpass Hid. simpl. rewrite Hv. simpl.
    unfold passes_filter in Hpass. simpl in Hpass.
    destruct (negb (truthy filter_type)); simpl in *.
    + now rewrite Hid.
    + rewrite Hpass. simpl. now rewrite Hid.
Qed.

Lemma get_minecraft_versions_wrong_shape_witness :
  get_minecraft_versions Samples.remote_ok
    (fun _ => Ok (JArr [Samples.manifest_entry "1.21" "release" "u"])) "release"
  = Raise AttributeError.
Proof.
  refine (proj1 (get_minecraft_versions_wrong_shape
            Samples.remote_ok
            (fun _ => Ok (JArr [Samples.manifest_entry "1.21" "release" "u"]))
            "release" {| status_code := 200; content := mojang_manifest_url |}
            _ eq_refl eq_refl eq_refl) _).
  discriminate.
Defined.

(** X8. [get_minecraft_download_url] looks the version up in the whole
    manifest and takes the first entry with that id.  It returns [None] when
    no entry has the id, when the fetch of the entry's detail document fails
    (the transport raises, the server answers 404, or the payload is not
    JSON), and when the detail document is an object in which [downloads],
    or [server] under it, is missing; otherwise it returns what is under
    [downloads], [server], [url].  An error of another class that the parser
    raises on the detail document is not absorbed. *)
Theorem get_minecraft_download_url_lookup
    (client_get : string -> Z -> result Response)
    (json_loads : string -> result json)
    (non_string_get : json -> Z -> result Response)
    (version_id : string) (all_versions : list MinecraftVersion.t) :
  get_minecraft_versions client_get json_loads EmptyString = Ok all_versions ->
  (List.find (fun v => eq_str (MinecraftVersion.id v) version_id) all_versions = None ->
   get_minecraft_download_url client_get json_loads non_string_get version_id
   = Ok JNull)
  /\ (forall v u,
        List.find (fun v => eq_str (MinecraftVersion.id v) version_id) all_versions
          = Some v ->
        MinecraftVersion.url v = JStr u -> u <> EmptyString ->
        (fetch_failure json_loads is_JSONDecodeError (client_get u 10) ->
         get_minecraft_download_url client_get json_loads non_string_get version_id
         = Ok JNull)
        /\ (forall response e,
              client_get u 10 = Ok response ->
              raise_for_status response = Ok tt ->
              json_loads (content response) = Raise e ->
              is_JSONDecodeError e = false -> is_RequestException e = false ->
              get_minecraft_download_url client_get json_loads non_string_get
                version_id = Raise e)
        /\ (forall response detail,
              client_get u 10 = Ok response ->
              raise_for_status response = Ok tt ->
              json_loads (content response) = Ok (JObj detail) ->
              (assoc "downloads" detail = None ->
               get_minecraft_download_url client_get json_loads non_string_get
                 version_id = Ok JNull)
              /\ (forall downloads,
                    assoc "downloads" detail = Some (JObj downloads) ->
                    (assoc "server" downloads = None ->
                     get_minecraft_download_url client_get json_loads
                       non_string_get version_id = Ok JNull)
                    /\ (forall server,
                          assoc "server" downloads = Some (JObj server) ->
                          get_minecraft_download_url client_get json_loads
                            non_string_get version_id
                          = Ok (field "url" (JObj server)))))).
Proof.
  intros Hall. unfold get_minecraft_download_url. rewrite Hall. simpl.
  split.
  - intros ->. reflexivity.
  - intros v u -> Hu Hne. rewrite Hu.
    assert (Ht : truth (JStr u) = true) by (destruct u; [congruence | reflexivity]).
    rewrite Ht. simpl. split; [|split].
    + intros Hfail.
      inversion Hfail as [e He Hr | response Hs Hr | response e Hp He Hr]; simpl.
      * now rewrite He.
      * unfold raise_for_status. now rewrite Hs.
      * unfold raise_for_status, response_json. rewrite Hp, He.
        now destruct ((400 <=? status_code response) && (status_code response <? 600)).
    + intros response e Hget Hstatus Hp Hdec Hreq. rewrite Hget. simpl.
      rewrite Hstatus. simpl. unfold response_json. rewrite Hp, Hdec. simpl.
      now rewrite Hreq, Hdec.
    + intros response detail Hget Hstatus Hjson. rewrite Hget. simpl.
      rewrite Hstatus. simpl. unfold response_json. rewrite Hjson. simpl.
      split.
      * intros ->. reflexivity.
      * intros downloads ->. simpl. split.
        -- intros ->. reflexivity.
        -- intros server ->. reflexivity.
Qed.

Lemma get_minecraft_download_url_lookup_witness :
  get_minecraft_download_url Samples.remote_ok Samples.documents
    Samples.no_other_url "1.21" = Ok (JStr "https://dl/server.jar")
  /\ get_minecraft_download_url Samples.remote_ok Samples.documents
       Samples.no_other_url "1.19" = Ok JNull
  /\ get_minecraft_download_url Samples.remote_ok Samples.documents
       Samples.no_other_url "1.20.4" = Ok JNull.
Proof.
  destruct (get_minecraft_download_url_lookup Samples.remote_ok Samples.documents
              Samples.no_other_url "1.21" _ eq_refl) as [_ Hfound].
  destruct (get_minecraft_download_url_lookup Samples.remote_ok Samples.documents
              Samples.no_other_url "1.19" _ eq_refl) as [Hnone _].
  destruct (get_minecraft_download_url_lookup Samples.remote_ok Samples.documents
              Samples.no_other_url "1.20.4" _ eq_refl) as [_ Hfail].
  split; [|split].
  - destruct (Hfound _ "https://meta/1.21.json" eq_refl eq_refl ltac:(discriminate))
      as (_ & _ & Hdetail).
    destruct (Hdetail {| status_code := 200; content := "https://meta/1.21.json" |}
                _ eq_refl eq_refl eq_refl) as [_ Hdl].
    destruct (Hdl _ eq_refl) as [_ Hserver].
    exact (Hserver _ eq_refl).
  - exact (Hnone eq_refl).
  - destruct (Hfail _ "https://meta/1.20.4.json" eq_refl eq_refl ltac:(discriminate))
      as [Hf _].
    apply Hf. now apply (malformed_payload _ _ _ JSONDecodeError).
Defined.

(** X9. [get_fabric_installer_url] returns what the first element of the
    installer index has under [url], whatever follows it; [None] when the
    index is empty or is not an array, and when the fetch fails (the
    transport raises, the server answers 404, or the payload is not JSON).
    A first element that is not an object makes it raise [AttributeError],
    and an error of another class that the parser raises on the index is
    not absorbed either. *)
Theorem get_fabric_installer_url_first_entry
    (client_get : string -> Z -> result Response)
    (json_loads : string -> result json) :
  (fetch_failure json_loads is_JSONDecodeError
     (client_get fabric_installer_index_url 10) ->
   get_fabric_installer_url client_get json_loads = Ok JNull)
  /\ (forall response e,
        client_get fabric_installer_index_url 10 = Ok response ->
        raise_for_status response = Ok tt ->
        json_loads (content response) = Raise e ->
        is_JSONDecodeError e = false -> is_RequestException e = false ->
        get_fabric_installer_url client_get json_loads = Raise e)
  /\ (forall response data,
        client_get fabric_installer_index_url 10 = Ok response ->
        raise_for_status response = Ok tt ->
        json_loads (content response) = Ok data ->
        ((data = JArr [] \/ forall items, data <> JArr items) ->
         get_fabric_installer_url client_get json_loads = Ok JNull)
        /\ (forall fields rest, data = JArr (JObj fields :: rest) ->
            get_fabric_installer_url client_get json_loads
            = Ok (field "url" (JObj fields)))
        /\ (forall first rest, data = JArr (first :: rest) ->
            (forall fields, first <> JObj fields) ->
            get_fabric_installer_url client_get json_loads = Raise AttributeError)).
Proof.
  unfold get_fabric_installer_url. split; [|split].
  - intros Hfail.
    inversion Hfail as [e He Hr | response Hs Hr | response e Hp He Hr]; simpl.
    + now rewrite He.
    + unfold raise_for_status. now rewrite Hs.
    + unfold raise_for_status, response_json. rewrite Hp, He.
      now destruct ((400 <=? status_code response) && (status_code response <? 600)).
  - intros response e Hget Hstatus Hp Hdec Hreq. rewrite Hget. simpl.
    rewrite Hstatus. simpl. unfold response_json. rewrite Hp, Hdec. simpl.
    now rewrite Hreq, Hdec.
  - intros response data Hget Hstatus Hjson. rewrite Hget. simpl.
    rewrite Hstatus. simpl. unfold response_json. rewrite Hjson. simpl.
    split; [|split].
    + intros [->|Hno]; [reflexivity|].
      destruct data; try reflexivity. now destruct (Hno items).
    + intros fields rest ->. reflexivity.
    + intros first rest -> Hno.
      destruct first; try reflexivity. now destruct (Hno fields).
Qed.

Lemma get_fabric_installer_url_first_entry_witness :
  get_fabric_installer_url Samples.remote_ok Samples.documents
  = Ok (JStr "https://maven/fabric-installer-1.0.1.jar")
  /\ get_fabric_installer_url Samples.remote_404 Samples.documents = Ok JNull.
Proof.
  destruct (get_fabric_installer_url_first_entry Samples.remote_ok Samples.documents)
    as (_ & _ & Hok).
  destruct (get_fabric_installer_url_first_entry Samples.remote_404 Samples.documents)
    as [Hfail _].
  split.
  - destruct (Hok {| status_code := 200; content := fabric_installer_index_url |}
                _ eq_refl eq_refl eq_refl) as (_ & Hfirst & _).
    exact (Hfirst _ _ eq_refl).
  - apply Hfail. now apply http_not_found.
Defined.

Section LoaderFacts.

(** The loop of [get_fabric_loader_versions] over well-formed items. *)
Lemma loader_loop (items : list json) :
  Forall loader_item_ok items ->
  for_each (fun item =>
      loader_data ← get item "loader";
      if truth loader_data then
        v ← getitem loader_data "version";
        st ← getitem loader_data "stable";
        Ok [ {| FabricLoaderVersion.version := v; FabricLoaderVersion.stable := st |} ]
      else Ok []) items
  = Ok (map loader_of_item (List.filter has_loader items)).
Proof.
  induction 1 as [|item items [[fields ->] Hkeys] _ IH]; [reflexivity|].
  cbn [for_each List.filter]. rewrite IH. clear IH.
  rewrite get_field. unfold has_loader in *. cbn [mbind result_bind].
  destruct (truth (field "loader" (JObj fields))) eqn:Ht.
  - specialize (Hkeys eq_refl).
    rewrite (getitem_field "version" _ (has_keys_one "version" _ _ Hkeys ltac:(simpl; auto))).
    rewrite (getitem_field "stable" _ (has_keys_one "stable" _ _ Hkeys ltac:(simpl; auto))).
    reflexivity.
  - reflexivity.
Qed.

End LoaderFacts.

(** X10. When the Fabric loader index of a version is an array of objects
    whose loaders each have a version and a stability mark,
    [get_fabric_loader_versions] returns the loaders in the order of the
    index, leaving out the items that have no loader.  An item that is not an
    object is not absorbed: the call raises [AttributeError]. *)
Theorem get_fabric_loader_versions_in_index_order
    (client_get : string -> Z -> result Response)
    (json_loads : string -> result json)
    (mc_version : string) (response : Response) (items : list json) :
  client_get (fabric_loader_url mc_version) 10 = Ok response ->
  status_code response <> 404 ->
  raise_for_status response = Ok tt ->
  json_loads (content response) = Ok (JArr items) ->
  (Forall loader_item_ok items ->
   get_fabric_loader_versions client_get json_loads mc_version
   = Ok (map loader_of_item (List.filter has_loader items)))
  /\ (forall good bad rest,
        items = good ++ bad :: rest ->
        Forall loader_item_ok good ->
        (forall fields, bad <> JObj fields) ->
        get_fabric_loader_versions client_get json_loads mc_version
        = Raise AttributeError).
Proof.
  intros Hget H404 Hstatus Hjson.
  assert (Hrun : get_fabric_loader_versions client_get json_loads mc_version
            = try_except
                (for_each (fun item =>
                   loader_data ← get item "loader";
                   if truth loader_data then
                     v ← getitem loader_data "version";
                     st ← getitem loader_data "stable";
                     Ok [ {| FabricLoaderVersion.version := v;
                             FabricLoaderVersion.stable := st |} ]
                   else Ok []) items)
                (fun e => is_RequestException e || is_JSONDecodeError e)
                (Ok [])).
  { unfold get_fabric_loader_versions, fabric_loader_versions_try, response_json.
    rewrite Hget. simpl. apply Z.eqb_neq in H404. rewrite H404.
    rewrite Hstatus. simpl. rewrite Hjson. reflexivity. }
  rewrite Hrun. clear Hrun. split.
  - intros Hok. now rewrite loader_loop.
  - intros good bad rest -> Hgood Hbad. clear Hjson.
    induction Hgood as [|item good [[fields ->] Hkeys] Hgood IH].
    + cbn [app for_each]. destruct bad; try reflexivity. now destruct (Hbad fields).
    + cbn [app for_each]. rewrite get_field. unfold has_loader in Hkeys.
      cbn [mbind result_bind].
      destruct (truth (field "loader" (JObj fields))) eqn:Ht.
      * specialize (Hkeys eq_refl).
        rewrite (getitem_field "version" _
                   (has_keys_one "version" _ _ Hkeys ltac:(simpl; auto))).
        rewrite (getitem_field "stable" _
                   (has_keys_one "stable" _ _ Hkeys ltac:(simpl; auto))).
        cbn [mbind result_bind].
        destruct (for_each _ (good ++ bad :: rest)) eqn:Hloop;
          simpl in IH |- *; congruence.
      * cbn [mbind result_bind].
        destruct (for_each _ (good ++ bad :: rest)) eqn:Hloop;
          simpl in IH |- *; congruence.
Qed.

Lemma get_fabric_loader_versions_in_index_order_witness :
  get_fabric_loader_versions Samples.remote_ok Samples.documents "1.21"
  = Ok [ {| FabricLoaderVersion.version := JStr "0.15.11";
            FabricLoaderVersion.stable := JBool true |};
         {| FabricLoaderVersion.version := JStr "0.15.10";
            FabricLoaderVersion.stable := JBool false |} ].
Proof.
  refine (proj1 (get_fabric_loader_versions_in_index_order
            Samples.remote_ok Samples.documents "1.21"
            {| status_code := 200; content := fabric_loader_url "1.21" |}
            _ eq_refl _ eq_refl eq_refl) _).
  - discriminate.
  - repeat constructor; eauto; try discriminate.
Defined.

Section ForgeFieldFacts.
Import PyStr.

Lemma partition_first_app (c : ascii) (a t : string) :
  has_char c a = false -> partition_first c (a +:+ String c t) = Some (a, t).
Proof.
  induction a as [|x a IH]; simpl.
  - intros _. now rewrite Ascii.eqb_refl.
  - intros H. apply orb_false_iff in H as [Hx Ha].
    rewrite Hx, (IH Ha). reflexivity.
Qed.

(** What the Forge loop records of the index entries, for a base version
    that has no dash. *)
Lemma forge_entries_of_query (mc_version : string) (nodes : list element) :
  has_char "-" mc_version = false ->
  Forall (fun v =>
            ForgeVersion.mc_version v = mc_version
            /\ ForgeVersion.full_version v
               = mc_version +:+ "-" +:+ ForgeVersion.forge_version v)
         (flat_map (forge_entry mc_version) nodes).
Proof.
  intros Hm.
  induction nodes as [|[tg [t|] ch] nodes IH]; simpl; [constructor| |exact IH].
  apply Forall_app. split; [|exact IH].
  destruct (startswith t (mc_version +:+ "-")) eqn:E.
  - destruct (forge_entry_match mc_version t tg ch E) as (a & b & Hab & ->).
    destruct (startswith_app _ _ E) as [rest ->].
    rewrite append_assoc in Hab. simpl in Hab.
    rewrite (partition_first_app "-" mc_version rest Hm) in Hab.
    injection Hab as <- <-.
    repeat constructor. simpl. now rewrite append_assoc.
  - unfold forge_entry. simpl. rewrite E, andb_false_r. constructor.
Qed.

End ForgeFieldFacts.

(** X11. For a base version without a dash, every version that
    [get_forge_versions] returns carries that base version, its full version
    is the base version, a dash and the Forge version, and its installer URL
    is the one of that full version under the Forge Maven root. *)
Theorem forge_versions_belong_to_queried_version
    (client_get : string -> Z -> result Response)
    (ET_fromstring : string -> result element)
    (mc_version : string) (versions : list ForgeVersion.t) :
  has_char "-" mc_version = false ->
  get_forge_versions client_get ET_fromstring mc_version = Ok versions ->
  Forall (fun v =>
            ForgeVersion.mc_version v = mc_version
            /\ ForgeVersion.full_version v
               = mc_version +:+ "-" +:+ ForgeVersion.forge_version v
            /\ forge_installer_url v
               = "https://maven.minecraftforge.net/net/minecraftforge/forge/"
                 +:+ mc_version +:+ "-" +:+ ForgeVersion.forge_version v
                 +:+ "/forge-"
                 +:+ mc_version +:+ "-" +:+ ForgeVersion.forge_version v
                 +:+ "-installer.jar")
         versions.
Proof.
  intros Hm. unfold get_forge_versions, fromstring.
  destruct (client_get forge_metadata_url 15) as [response|e]; simpl.
  2:{ destruct (is_RequestException e || is_ParseError e); [|discriminate].
      intros [= <-]. constructor. }
  destruct (raise_for_status response) as [[]|e]; simpl.
  2:{ destruct (is_RequestException e || is_ParseError e); [|discriminate].
      intros [= <-]. constructor. }
  destruct (ET_fromstring (content response)) as [root|e]; simpl.
  2:{ destruct (is_RequestException e || is_ParseError e); [|discriminate].
      intros [= <-]. constructor. }
  intros [= <-].
  eapply Permutation_Forall; [symmetry; apply sorted_reverse_perm|].
  eapply List.Forall_impl; [|apply (forge_entries_of_query mc_version _ Hm)].
  intros v [Hmc Hfull]. split; [exact Hmc|]. split; [exact Hfull|].
  unfold forge_installer_url. rewrite Hfull.
  rewrite !append_assoc. reflexivity.
Qed.

Lemma forge_versions_belong_to_queried_version_witness :
  Forall (fun v => ForgeVersion.mc_version v = "1.20.1"
                   /\ ForgeVersion.full_version v
                      = "1.20.1" +:+ "-" +:+ ForgeVersion.forge_version v)
    [ {| ForgeVersion.full_version := "1.20.1-47.3.0";
         ForgeVersion.mc_version := "1.20.1";
         ForgeVersion.forge_version := "47.3.0" |} ].
Proof.
  eapply List.Forall_impl;
    [|apply (forge_versions_belong_to_queried_version
               (fun _ _ => Ok {| status_code := 200; content := "index" |})
               (fun _ => Ok (Element "metadata" None
                        [Element "version" (Some "1.20.1-47.3.0") [];
                         Element "version" (Some "1.20-46.0.14") []]))
               "1.20.1" _ eq_refl eq_refl)].
  intros v (Hmc & Hfull & _). split; assumption.
Defined.

(** ** The result of the Java search *)

Section FinderMore.
Import Py JavaFinder.

Lemma NoDup_fmap_inj_on {A B} (f : A -> B) (l : list A) (x y : A) :
  NoDup (map f l) -> x ∈ l -> y ∈ l -> f x = f y -> x = y.
Proof.
  induction l as [|a l IH]; simpl; intros Hnd Hx Hy Hf.
  - now apply elem_of_nil in Hx.
  - apply NoDup_cons in Hnd as [Ha Hnd].
    apply elem_of_cons in Hx as [->|Hx]; apply elem_of_cons in Hy as [->|Hy].
    + reflexivity.
    + exfalso. apply Ha. rewrite Hf. now apply (list_elem_of_fmap_2 f).
    + exfalso. apply Ha. rewrite <- Hf. now apply (list_elem_of_fmap_2 f).
    + now apply IH.
Qed.

End FinderMore.


(** X13. A candidate that is not a file, is not executable, cannot be run
    (also when running it raises an [OSError]), times out or prints no
    version changes nothing: the scan ends as the scan of the other
    candidates does.  A candidate that is a file and executable and whose
    output cannot be decoded ends the scan with [UnicodeDecodeError], when
    the candidates before it did not end it.  When no candidate yields an
    installation the result is empty, unless the probe of one of them raises
    an exception that is not an [OSError]. *)
Theorem unusable_candidate_is_skipped
    (wide_digit : string -> option (nat * Z)) (int_max_str_digits : nat)
    (run_java_version : Path -> run_outcome) (resolve : Path -> Path)
    (exists_ is_file access_X_OK : Path -> bool)
    (before after : list Path) (c : Path) :
  let scan :=
    process_candidates wide_digit int_max_str_digits run_java_version resolve
      exists_ is_file access_X_OK in
  let details_of :=
    get_java_details wide_digit int_max_str_digits run_java_version resolve
      exists_ in
  ((is_file c = false \/ access_X_OK c = false
    \/ (exists message, run_java_version c = OtherOSError message)
    \/ run_java_version c = TimeoutExpired
    \/ run_java_version c = FileNotFoundError
    \/ (exists output, run_java_version c = Completed output
                       /\ search_version output = None
                       /\ search_vendor_version output = None)) ->
   scan (before ++ c :: after) = scan (before ++ after))
  /\ (is_file c = true -> access_X_OK c = true ->
      run_java_version c = UndecodableOutput ->
      forall kept, scan before = Ok kept ->
      scan (before ++ c :: after) = Raise UnicodeDecodeError)
  /\ ((forall x, x ∈ before ++ c :: after ->
         probe wide_digit int_max_str_digits run_java_version resolve exists_
               is_file access_X_OK x = None) ->
      scan (before ++ c :: after) = Ok []
      \/ exists x e, x ∈ before ++ c :: after
                     /\ is_file x = true /\ access_X_OK x = true
                     /\ details_of x = Raise e /\ is_IOError e = false
                     /\ scan (before ++ c :: after) = Raise e).
Proof.
  intros scan details_of. unfold scan, process_candidates.
  split; [|split].
  - intros Hc. rewrite !for_candidates_app. cbn [for_candidates].
    destruct (for_candidates _ _ _ _ _ _ _ _ before) as [st|e];
      cbn [mbind result_bind]; [|reflexivity].
    replace (process_candidate wide_digit int_max_str_digits run_java_version
               resolve exists_ is_file access_X_OK st c) with (Ok st);
      [reflexivity|].
    unfold process_candidate, get_java_details.
    destruct Hc as [H|[H|[[m H]|[H|[H|(o & H & H1 & H2)]]]]]; rewrite H;
      try rewrite H1, H2; try reflexivity.
    + now rewrite orb_true_r.
    + now destruct (negb (is_file c) || negb (access_X_OK c)).
    + now destruct (negb (is_file c) || negb (access_X_OK c)).
    + now destruct (negb (is_file c) || negb (access_X_OK c)).
    + now destruct (negb (is_file c) || negb (access_X_OK c)).
  - intros Hf Hx Hrun kept. rewrite for_candidates_app. cbn [for_candidates].
    destruct (for_candidates _ _ _ _ _ _ _ _ before) as [st|e];
      cbn [mbind result_bind]; [|discriminate].
    intros _. unfold process_candidate, get_java_details.
    now rewrite Hf, Hx, Hrun.
  - intros Hall.
    destruct (for_candidates _ _ _ _ _ _ _ _ (before ++ c :: after))
      as [st|e] eqn:Hloop; cbn [mbind result_bind].
    + left. rewrite (for_candidates_Ok _ _ _ _ _ _ _ _ _ _ Hloop).
      replace (omap _ (before ++ c :: after)) with (@nil JavaInstallation);
        [reflexivity|].
      symmetry. clear Hloop. induction (before ++ c :: after) as [|x l IH];
        [reflexivity|].
      cbn [omap list_omap]. rewrite (Hall x) by now left.
      apply IH. intros y Hy. apply Hall. now right.
    + right. destruct (for_candidates_Raise _ _ _ _ _ _ _ _ _ _ Hloop)
        as (x & Hx & Hf & Hacc & Hdet & He).
      exists x, e. auto 7.
Qed.

Lemma unusable_candidate_is_skipped_witness :
  process_candidates Samples.no_wide_digit 0 Samples.host_run Samples.host_resolve
    Samples.host_true Samples.host_true Samples.host_true
    [Samples.jvm_java; ["/"; "usr"; "bin"; "java"]; Samples.opt_java]
  = process_candidates Samples.no_wide_digit 0 Samples.host_run Samples.host_resolve
      Samples.host_true Samples.host_true Samples.host_true
      [Samples.jvm_java; Samples.opt_java]
  /\ process_candidates Samples.no_wide_digit 0 Samples.garbled_run
       Samples.host_resolve Samples.host_true Samples.host_true Samples.host_true
       [Samples.opt_java; Samples.jvm_java; Samples.jvm_java8]
     = Raise UnicodeDecodeError
  /\ process_candidates Samples.no_wide_digit 0 Samples.host_run
       Samples.host_resolve Samples.host_true Samples.host_true Samples.host_true
       [["/"; "usr"; "bin"; "java"]] = Ok [].
Proof.
  split; [|split].
  - refine (proj1 (unusable_candidate_is_skipped
              Samples.no_wide_digit 0 Samples.host_run Samples.host_resolve
              Samples.host_true Samples.host_true Samples.host_true
              [Samples.jvm_java] [Samples.opt_java] ["/"; "usr"; "bin"; "java"]) _).
    right. right. right. right. left. reflexivity.
  - refine (proj1 (proj2 (unusable_candidate_is_skipped
              Samples.no_wide_digit 0 Samples.garbled_run Samples.host_resolve
              Samples.host_true Samples.host_true Samples.host_true
              [Samples.opt_java] [Samples.jvm_java8] Samples.jvm_java))
              eq_refl eq_refl eq_refl _ eq_refl).
  - destruct (proj2 (proj2 (unusable_candidate_is_skipped
              Samples.no_wide_digit 0 Samples.host_run Samples.host_resolve
              Samples.host_true Samples.host_true Samples.host_true
              [] [] ["/"; "usr"; "bin"; "java"]))) as [H|(x & e & Hx & _ & _ & Hdet & _)].
    + intros x Hx. apply list_elem_of_singleton in Hx as ->. reflexivity.
    + exact H.
    + apply list_elem_of_singleton in Hx as ->. discriminate.
Defined.

(** ** Installed servers and the licence file *)

Section EulaFacts.
Import PyStr Py JavaFinder MinecraftManager.

Context {FS : Type}.
Variable exists_ : FS -> Path -> bool.
Variable read_text : FS -> Path -> result string.
Variable mkdir : Path -> FS -> result unit * FS.
Variable write_text : Path -> string -> FS -> result unit * FS.

Lemma eula_accepted_read (files : FS) (eula_file : Path) (content : string) :
  exists_ files eula_file = true ->
  read_text files eula_file = Ok content ->
  eula_accepted exists_ read_text files eula_file
  = Ok (contains "eula=true" content).
Proof. intros He Hr. unfold eula_accepted. now rewrite He, Hr. Qed.

End EulaFacts.

(** X14. On a file system where a file that has been written is there and
    reads back as written: when [_accept_eula] returns, the licence file can
    be read and holds [eula=true], and a second call changes nothing.  A
    file that already held [eula=true] is left as it is; any other file, or
    none, is replaced by the one line [eula=true]. *)
Theorem accept_eula_leaves_accepted_file {FS : Type}
    (exists_ : FS -> Path -> bool) (read_text : FS -> Path -> result string)
    (mkdir : Path -> FS -> result unit * FS)
    (write_text : Path -> string -> FS -> result unit * FS)
    (eula_file : Path) (files files' : FS) :
  (forall p s f f', write_text p s f = (Ok tt, f') ->
     exists_ f' p = true /\ read_text f' p = Ok s) ->
  _accept_eula exists_ read_text mkdir write_text eula_file files = (Ok tt, files') ->
  eula_accepted exists_ read_text files' eula_file = Ok true
  /\ _accept_eula exists_ read_text mkdir write_text eula_file files'
     = (Ok tt, files')
  /\ (eula_accepted exists_ read_text files eula_file = Ok true -> files' = files)
  /\ (eula_accepted exists_ read_text files eula_file = Ok false ->
      read_text files' eula_file = Ok ("eula=true" +:+ newline)).
Proof.
  intros Hwrite Hrun.
  assert (Hacc : eula_accepted exists_ read_text files' eula_file = Ok true
                 /\ (eula_accepted exists_ read_text files eula_file = Ok true ->
                     files' = files)
                 /\ (eula_accepted exists_ read_text files eula_file = Ok false ->
                     read_text files' eula_file = Ok ("eula=true" +:+ newline))).
  { unfold _accept_eula in Hrun.
    destruct (eula_accepted exists_ read_text files eula_file) as [[|]|e] eqn:Hhead.
    - injection Hrun as <-. split; [exact Hhead|]. split; [reflexivity|discriminate].
    - destruct (mkdir (parent eula_file) files) as [[[]|e] fs1]; [|discriminate].
      destruct (Hwrite _ _ _ _ Hrun) as [He Hr].
      split; [|split; [discriminate | auto]].
      now rewrite (eula_accepted_read _ _ _ _ _ He Hr).
    - discriminate. }
  destruct Hacc as (Hacc & Hsame & Hnew).
  split; [exact Hacc|]. split; [|auto].
  unfold _accept_eula. now rewrite Hacc.
Qed.

Lemma accept_eula_leaves_accepted_file_witness :
  let eula := ["minecraft_server"; "1.21-fabric-0.15.11"; "eula.txt"] in
  let files' := <[eula := "eula=true" +:+ newline]> Samples.sample_servers in
  _accept_eula Samples.disk_exists Samples.disk_read_text Samples.disk_mkdir
    Samples.disk_write_text eula files' = (Ok tt, files').
Proof.
  intros eula files'.
  refine (proj1 (proj2 (accept_eula_leaves_accepted_file
            Samples.disk_exists Samples.disk_read_text Samples.disk_mkdir
            Samples.disk_write_text eula Samples.sample_servers files' _ _))).
  - intros p s f f' [= <-]. unfold Samples.disk_exists, Samples.disk_read_text.
    rewrite lookup_insert_eq. split; [|reflexivity].
    apply bool_decide_eq_true. eauto.
  - vm_compute. reflexivity.
Defined.

Section InstalledFacts.
Import PyStr Py JavaFinder MinecraftManager.

Lemma dict_set_fresh {V} (k : string) (v : V) (d : list (string * V)) :
  k ∉ map fst d -> dict_set k v d = d ++ [(k, v)].
Proof.
  induction d as [|[k0 v0] d IH]; simpl; intros Hk; [reflexivity|].
  destruct (String.eqb_spec k k0) as [->|Hne].
  - exfalso. apply Hk. now left.
  - rewrite IH; [reflexivity|]. intros Hin. apply Hk. now right.
Qed.

Lemma dict_of_items_fold {V} (items acc : list (string * V)) :
  NoDup (map fst (acc ++ items)) ->
  fold_left (fun d kv => dict_set (fst kv) (snd kv) d) items acc = acc ++ items.
Proof.
  revert acc. induction items as [|[k v] items IH]; intros acc Hnd; simpl.
  - now rewrite app_nil_r.
  - assert (Hk : k ∉ map fst acc).
    { rewrite map_app in Hnd. apply NoDup_app in Hnd as (_ & Hdisj & _).
      intros Hin. apply (Hdisj k Hin). now left. }
    rewrite (dict_set_fresh _ _ _ Hk), IH.
    + now rewrite <- app_assoc.
    + now rewrite <- app_assoc.
Qed.

(** A list of pairs with distinct keys is its own dict. *)
Lemma dict_of_items_id {V} (items : list (string * V)) :
  NoDup (map fst items) -> dict_of_items items = items.
Proof. intros H. unfold dict_of_items. now rewrite dict_of_items_fold. Qed.

Context {FS : Type}.
Variable exists_ : FS -> Path -> bool.
Variable is_dir : FS -> Path -> bool.

(** What holds of the dict built by the loop of [_get_installed_versions]
    once it has gone through [seen]. *)
Lemma installed_loop (files : FS) (children : list Path) :
  let installed :=
    fold_left (fun installed version_dir =>
                 if is_server_dir exists_ is_dir files version_dir
                 then dict_set (path_name version_dir) version_dir installed
                 else installed)
              children [] in
  NoDup (map fst installed)
  /\ (forall k p, (k, p) ∈ installed ->
        p ∈ children /\ path_name p = k
        /\ is_server_dir exists_ is_dir files p = true)
  /\ (forall p, p ∈ children -> is_server_dir exists_ is_dir files p = true ->
        path_name p ∈ map fst installed).
Proof.
  assert (Hgen : forall seen d,
    (NoDup (map fst d)
     /\ (forall k p, (k, p) ∈ d ->
           p ∈ seen /\ path_name p = k
           /\ is_server_dir exists_ is_dir files p = true)
     /\ (forall p, p ∈ seen -> is_server_dir exists_ is_dir files p = true ->
           path_name p ∈ map fst d)) ->
    let d' :=
      fold_left (fun installed version_dir =>
                   if is_server_dir exists_ is_dir files version_dir
                   then dict_set (path_name version_dir) version_dir installed
                   else installed)
                children d in
    NoDup (map fst d')
    /\ (forall k p, (k, p) ∈ d' ->
          p ∈ seen ++ children /\ path_name p = k
          /\ is_server_dir exists_ is_dir files p = true)
    /\ (forall p, p ∈ seen ++ children ->
          is_server_dir exists_ is_dir files p = true ->
          path_name p ∈ map fst d')).
  { induction children as [|x children IH]; intros seen d (Hnd & Hin & Hall).
    - simpl. rewrite app_nil_r. auto.
    - cbn [fold_left].
      replace (seen ++ x :: children) with ((seen ++ [x]) ++ children)
        by now rewrite <- app_assoc.
      apply IH. destruct (is_server_dir exists_ is_dir files x) eqn:Hx.
      + split; [now apply dict_set_NoDup|]. split.
        * intros k p Hkp. apply dict_set_elem in Hkp as [[-> ->]|[Hkp _]];
            [| |exact Hnd].
          -- split; [apply elem_of_app; right; now left | auto].
          -- destruct (Hin _ _ Hkp) as (Hp & Hk & Hs).
             split; [apply elem_of_app; now left | auto].
        * intros p Hp Hs. apply dict_set_key_in.
          apply elem_of_app in Hp as [Hp|Hp]; [right; now apply Hall|].
          apply list_elem_of_singleton in Hp as ->. now left.
      + split; [exact Hnd|]. split.
        * intros k p Hkp. destruct (Hin _ _ Hkp) as (Hp & Hk & Hs).
          split; [apply elem_of_app; now left | auto].
        * intros p Hp Hs. apply elem_of_app in Hp as [Hp|Hp]; [now apply Hall|].
          apply list_elem_of_singleton in Hp as ->. congruence. }
  apply (Hgen [] []). split; [constructor|]. split.
  - intros k p H. now apply elem_of_nil in H.
  - intros p H. now apply elem_of_nil in H.
Qed.

End InstalledFacts.



Section ChoiceFacts.
Import Py Utils MinecraftManager.

(** A menu choice picks the item shown under that number. *)
Lemma list_getitem_choice {A} (l : list A) (choice : Z) :
  1 <= choice <= Z.of_nat (length l) ->
  exists x, l !! Z.to_nat (choice - 1) = Some x
            /\ list_getitem l (choice - 1) = Ok x.
Proof.
  intros Hrange. unfold list_getitem.
  destruct (Z.ltb_spec (choice - 1) 0) as [Hneg|_]; [lia|].
  destruct (Z.leb_spec 0 (choice - 1)) as [_|Hneg]; [|lia].
  destruct (Z.ltb_spec (choice - 1) (Z.of_nat (length l))) as [_|Hbig]; [|lia].
  simpl. destruct (l !! Z.to_nat (choice - 1)) as [x|] eqn:Hx; [eauto|].
  apply lookup_ge_None in Hx. lia.
Qed.

(** How a menu ends. *)
Lemma show_menu_outcome (strip : string -> string) (parse_int : string -> option Z)
    (title prompt : string) (items : list string)
    (c c' : console) (r : result Z) :
  show_menu strip parse_int title prompt items c = (r, c') ->
  (items = [] -> r = Ok (-1) /\ c' = c)
  /\ (forall choice, r = Ok choice ->
        choice = -1 \/ 1 <= choice <= Z.of_nat (length items))
  /\ (forall e, r = Raise e -> e = EOFError \/ e = KeyboardInterrupt).
Proof.
  unfold show_menu. destruct items as [|item items].
  - intros [= <- <-]. split; [auto|]. split; [intros ? [= <-]; now left|].
    discriminate.
  - intros H. split; [discriminate|].
    destruct (show_menu_loop_spec _ _ _ _ _ _ _ _ H) as [Hr _].
    split; [exact Hr|].
    intros e ->. destruct (show_menu_loop_raises _ _ _ _ _ _ _ _ H) as [[-> _]| ->];
      auto.
Qed.

End ChoiceFacts.

(** X16. [_select_existing_server] returns [None] when the operator quits
    the menu, and otherwise the directory listed under the number chosen;
    it raises only when the input ends or the operator hits CTRL+C, so no
    choice leads outside the list.  With nothing installed it returns [None]
    without reading anything. *)
Theorem select_existing_server_returns_listed_directory
    (strip : string -> string) (parse_int : string -> option Z)
    (installed_versions : list (string * Path))
    (c c' : console) (r : result (option Path)) :
  NoDup (map fst installed_versions) ->
  _select_existing_server strip parse_int installed_versions c = (r, c') ->
  (installed_versions = [] -> r = Ok None /\ c' = c)
  /\ (forall e, r = Raise e -> e = EOFError \/ e = KeyboardInterrupt)
  /\ (forall version_dir, r = Ok (Some version_dir) ->
        exists choice version_id,
          show_menu strip parse_int "选择要启动的 Minecraft 服务器"
            "请选择已安装的服务器：" (map fst installed_versions) c
          = (Ok choice, c')
          /\ 1 <= choice <= Z.of_nat (length installed_versions)
          /\ installed_versions !! Z.to_nat (choice - 1)
             = Some (version_id, version_dir)).
Proof.
  intros Hnd. unfold _select_existing_server.
  destruct (show_menu strip parse_int _ _ (map fst installed_versions) c)
    as [choice c1] eqn:Hmenu.
  destruct (show_menu_outcome _ _ _ _ _ _ _ _ Hmenu) as (Hempty & Hrange & Hraise).
  destruct choice as [choice|e].
  - destruct (Z.eqb_spec choice (-1)) as [->|Hne].
    + intros [= <- <-]. split; [|split; discriminate].
      intros ->. now destruct (Hempty eq_refl) as [_ ->].
    + destruct (Hrange _ eq_refl) as [?|Hin]; [contradiction|].
      rewrite length_map in Hin.
      destruct (list_getitem_choice (map fst installed_versions) choice)
        as (version_id & Hlookup & ->); [now rewrite length_map|].
      rewrite list_lookup_fmap in Hlookup.
      destruct (installed_versions !! Z.to_nat (choice - 1)) as [[k p]|] eqn:Hkp;
        [|discriminate].
      injection Hlookup as <-.
      rewrite (dict_get_elem k p installed_versions Hnd
                 (list_elem_of_lookup_2 _ _ _ Hkp)).
      intros [= <- <-]. split.
      * intros ->. simpl in Hin. lia.
      * split; [discriminate|]. intros ? [= <-]. exists choice, k. auto.
  - intros [= <- <-]. split.
    + intros ->. now destruct (Hempty eq_refl).
    + split; [|discriminate]. intros ? [= <-]. exact (Hraise _ eq_refl).
Qed.

Lemma select_existing_server_returns_listed_directory_witness :
  fst (_select_existing_server Samples.sample_strip Samples.sample_parse_int2
         [ ("1.21-fabric-0.15.11", ["minecraft_server"; "1.21-fabric-0.15.11"]);
           ("1.20.1", ["minecraft_server"; "1.20.1"]) ]
         {| stdin := [Line "0"; Line "2"]; transcript := [] |})
  <> Raise IndexError.
Proof.
  intros Hr.
  destruct (select_existing_server_returns_listed_directory
              Samples.sample_strip Samples.sample_parse_int2
              [ ("1.21-fabric-0.15.11", ["minecraft_server"; "1.21-fabric-0.15.11"]);
                ("1.20.1", ["minecraft_server"; "1.20.1"]) ]
              {| stdin := [Line "0"; Line "2"]; transcript := [] |} _ _
              ltac:(repeat constructor; set_solver)
              (surjective_pairing _)) as (_ & Hraise & _).
  destruct (Hraise _ Hr); discriminate.
Defined.

(** ** The prompts of an installation *)

Section PromptFacts.
Import Py ApiClients Utils MinecraftManager.

Variable strip : string -> string.
Variable parse_int : string -> option Z.

(** [select_from_list] over as many values as items shown. *)
Lemma select_from_list_spec {A} (name : string) (display_versions : list string)
    (return_values : list A) (c c' : console) (r : result (option A)) :
  length display_versions = length return_values ->
  select_from_list strip parse_int name display_versions return_values c = (r, c') ->
  let menu :=
    show_menu strip parse_int ("选择 " +:+ name +:+ " 具体版本")
      ("请选择 " +:+ name +:+ " 服务端版本：") display_versions c in
  (display_versions = [] -> r = Ok None /\ c' = c)
  /\ (forall e, r = Raise e -> e = EOFError \/ e = KeyboardInterrupt)
  /\ (r = Ok None -> display_versions = [] \/ menu = (Ok (-1), c'))
  /\ (forall value, r = Ok (Some value) ->
        exists choice,
          menu = (Ok choice, c')
          /\ 1 <= choice <= Z.of_nat (length return_values)
          /\ return_values !! Z.to_nat (choice - 1) = Some value).
Proof.
  intros Hlen H menu. unfold select_from_list in H. unfold menu. clear menu.
  destruct display_versions as [|item items].
  { injection H as <- <-. split; [auto|]. split; [discriminate|].
    split; [auto | discriminate]. }
  destruct (show_menu strip parse_int _ _ (item :: items) c)
    as [choice c1] eqn:Hmenu.
  destruct (show_menu_outcome _ _ _ _ _ _ _ _ Hmenu) as (_ & Hrange & Hraise).
  split; [discriminate|].
  destruct choice as [choice|e].
  - destruct (Z.eqb_spec choice (-1)) as [->|Hne]; simpl in H.
    + injection H as <- <-. split; [discriminate|]. split; [auto | discriminate].
    + destruct (Hrange _ eq_refl) as [?|Hin]; [contradiction|].
      rewrite Hlen in Hin.
      destruct (list_getitem_choice return_values choice Hin)
        as (value & Hlookup & Hget).
      rewrite Hget in H. injection H as <- <-.
      split; [discriminate|]. split; [discriminate|]. intros ? [= <-]. eauto.
  - injection H as <- <-. split; [|split; discriminate].
    intros ? [= <-]. exact (Hraise _ eq_refl).
Qed.

(** A menu with items always asks at least once. *)
Lemma show_menu_asks (title prompt : string) (items : list string)
    (c c' : console) (r : result Z) :
  items <> [] ->
  show_menu strip parse_int title prompt items c = (r, c') ->
  (length (transcript c) < length (transcript c'))%nat.
Proof.
  intros Hne. unfold show_menu. destruct items as [|item items]; [contradiction|].
  generalize (colorize prompt GREEN +:+ " (输入 'q' 退出): ") as full_prompt.
  generalize (length (item :: items)) as n_items.
  intros n_items full_prompt.
  generalize (transcript c) as log. generalize (stdin c) as keys.
  induction keys as [|[s|] keys IH]; intros log; simpl.
  - intros [= <- <-]. simpl. rewrite length_app. simpl. lia.
  - destruct (String.eqb (lower (strip s)) "q" || String.eqb (lower (strip s)) "quit").
    + intros [= <- <-]. simpl. rewrite length_app. simpl. lia.
    + assert (Hrec : show_menu_loop strip parse_int full_prompt n_items keys
                       (log ++ [(full_prompt, Typed s)]) = (r, c') ->
                     (length log < length (transcript c'))%nat).
      { intros H. apply IH in H. rewrite length_app in H. simpl in H. lia. }
      destruct (parse_int (lower (strip s))) as [choice|]; [|exact Hrec].
      destruct ((1 <=? choice) && (choice <=? Z.of_nat n_items)); [|exact Hrec].
      intros [= <- <-]. simpl. rewrite length_app. simpl. lia.
  - intros [= <- <-]. simpl. rewrite length_app. simpl. lia.
Qed.

End PromptFacts.

(** X17. [_prompt_for_server_type] offers Vanilla and every loader for which
    the fetched list is not empty, and returns only one of these.  When all
    three lists are empty it returns Vanilla without asking; otherwise it
    asks, and raises only when the input ends or the operator hits CTRL+C. *)
Theorem prompt_for_server_type_offers_available_types
    (strip : string -> string) (parse_int : string -> option Z)
    (mc_version : string)
    (forge : list ForgeVersion.t) (fabric : list FabricLoaderVersion.t)
    (neoforge : list NeoForgeVersion.t)
    (c c' : console) (r : result (option ServerType)) :
  _prompt_for_server_type strip parse_int mc_version
    (Ok forge) (Ok fabric) (Ok neoforge) c = (r, c') ->
  (forge = [] -> fabric = [] -> neoforge = [] ->
   r = Ok (Some VANILLA) /\ c' = c)
  /\ (forall stype, r = Ok (Some stype) ->
        match stype with
        | VANILLA => True
        | FORGE => forge <> []
        | FABRIC => fabric <> []
        | NEOFORGE => neoforge <> []
        end)
  /\ (forall e, r = Raise e -> e = EOFError \/ e = KeyboardInterrupt)
  /\ (forge <> [] \/ fabric <> [] \/ neoforge <> [] ->
      (length (transcript c) < length (transcript c'))%nat).
Proof.
  unfold _prompt_for_server_type. cbn [mbind result_bind].
  set (available_types :=
         map fst (List.filter snd (availability forge fabric neoforge))).
  assert (Havail : forall stype, stype ∈ available_types ->
            match stype with
            | VANILLA => True
            | FORGE => forge <> []
            | FABRIC => fabric <> []
            | NEOFORGE => neoforge <> []
            end).
  { intros stype Hin. unfold available_types, availability in Hin.
    destruct forge, fabric, neoforge; simpl in Hin;
      repeat (apply elem_of_cons in Hin as [->|Hin]; [now auto|]);
      now apply elem_of_nil in Hin. }
  assert (Hshape : (forge = [] /\ fabric = [] /\ neoforge = []
                    /\ available_types = [VANILLA])
                   \/ ((forge <> [] \/ fabric <> [] \/ neoforge <> [])
                       /\ exists t1 t2 rest, available_types = t1 :: t2 :: rest)).
  { unfold available_types, availability.
    destruct forge, fabric, neoforge; simpl;
      solve [ left; auto
            | right; split; [solve [ left; discriminate
                                   | right; left; discriminate
                                   | right; right; discriminate ]
                            | eauto ] ]. }
  destruct Hshape as [(-> & -> & -> & Hv)|[Hsome (t1 & t2 & rest & Hv)]].
  - rewrite Hv. intros [= <- <-]. split; [auto|]. split; [|split].
    + intros ? [= <-]. exact I.
    + discriminate.
    + intros [H|[H|H]]; contradiction.
  - rewrite Hv in *.
    destruct (show_menu strip parse_int _ _ (map name (t1 :: t2 :: rest)) c)
      as [choice c1] eqn:Hmenu.
    destruct (show_menu_outcome _ _ _ _ _ _ _ _ Hmenu) as (_ & Hrange & Hraise).
    assert (Hasks : (length (transcript c) < length (transcript c1))%nat)
      by (eapply show_menu_asks; [|exact Hmenu]; discriminate).
    intros H. split.
    { intros -> -> ->. destruct Hsome as [?|[?|?]]; contradiction. }
    destruct choice as [choice|e].
    + destruct (Z.eqb_spec choice (-1)) as [->|Hne]; simpl in H.
      * injection H as <- <-. split; [discriminate|]. split; [discriminate|auto].
      * destruct (Hrange _ eq_refl) as [?|Hin]; [contradiction|].
        rewrite length_map in Hin.
        destruct (list_getitem_choice (t1 :: t2 :: rest) choice Hin)
          as (stype & Hlookup & Hget).
        rewrite Hget in H. injection H as <- <-.
        split; [|split; [discriminate|auto]].
        intros ? [= <-]. apply Havail.
        now apply list_elem_of_lookup_2 in Hlookup.
    + injection H as <- <-. split; [discriminate|]. split; [|auto].
      intros ? [= <-]. exact (Hraise _ eq_refl).
Qed.

Lemma prompt_for_server_type_offers_available_types_witness :
  _prompt_for_server_type Samples.sample_strip Samples.sample_parse_int2 "1.21"
    (Ok []) (Ok []) (Ok []) {| stdin := [Line "2"]; transcript := [] |}
  = (Ok (Some VANILLA), {| stdin := [Line "2"]; transcript := [] |}).
Proof.
  destruct (prompt_for_server_type_offers_available_types
              Samples.sample_strip Samples.sample_parse_int2 "1.21" [] [] []
              {| stdin := [Line "2"]; transcript := [] |} _ _
              (surjective_pairing _)) as (Hauto & _).
  destruct (Hauto eq_refl eq_refl eq_refl) as [Hr Hc].
  rewrite (surjective_pairing (_prompt_for_server_type _ _ _ _ _ _ _)).
  now rewrite Hr, Hc.
Defined.

(** X18. [_prompt_for_mod_loader_version] shows, in one menu, the short
    version of every entry of the list that belongs to the server type, and
    returns the full version of the entry under the number the menu gave:
    for Forge the text with the base version in front, for NeoForge and
    Fabric the version itself.  It returns [None] when the operator quits
    the menu, and for Vanilla and for an empty list without asking.  It
    raises only when the input ends or the operator hits CTRL+C. *)
Theorem prompt_for_mod_loader_version_returns_chosen_entry
    (strip : string -> string) (parse_int : string -> option Z)
    (format_value : json -> string) (server_type : ServerType)
    (forge_versions : list ForgeVersion.t)
    (fabric_versions : list FabricLoaderVersion.t)
    (neoforge_versions : list NeoForgeVersion.t)
    (c c' : console) (r : result (option json)) :
  _prompt_for_mod_loader_version strip parse_int format_value server_type
    forge_versions fabric_versions neoforge_versions c = (r, c') ->
  let menu (name : string) (display_versions : list string) :=
    show_menu strip parse_int ("选择 " +:+ name +:+ " 具体版本")
      ("请选择 " +:+ name +:+ " 服务端版本：") display_versions c in
  let shown : result Z * console :=
    match server_type with
    | VANILLA => (Ok (-1), c)
    | FORGE => menu "Forge" (map ForgeVersion.forge_version forge_versions)
    | FABRIC =>
        menu "Fabric"
          (map (fun v => format_value (FabricLoaderVersion.version v) +:+ " "
                         +:+ (if truth (FabricLoaderVersion.stable v)
                              then "(stable)" else EmptyString))
               fabric_versions)
    | NEOFORGE =>
        menu "NeoForge" (map NeoForgeVersion.neoforge_version neoforge_versions)
    end in
  let nothing_listed :=
    match server_type with
    | VANILLA => True
    | FORGE => forge_versions = []
    | FABRIC => fabric_versions = []
    | NEOFORGE => neoforge_versions = []
    end in
  (nothing_listed -> r = Ok None /\ c' = c)
  /\ (forall e, r = Raise e -> e = EOFError \/ e = KeyboardInterrupt)
  /\ (r = Ok None -> nothing_listed \/ shown = (Ok (-1), c'))
  /\ (forall value, r = Ok (Some value) ->
        exists choice,
          shown = (Ok choice, c') /\ 1 <= choice /\
          match server_type with
          | VANILLA => False
          | FORGE =>
              exists v, forge_versions !! Z.to_nat (choice - 1) = Some v
                        /\ value = JStr (ForgeVersion.full_version v)
          | FABRIC =>
              exists v, fabric_versions !! Z.to_nat (choice - 1) = Some v
                        /\ value = FabricLoaderVersion.version v
          | NEOFORGE =>
              exists v, neoforge_versions !! Z.to_nat (choice - 1) = Some v
                        /\ value = JStr (NeoForgeVersion.full_version v)
          end).
Proof.
  intros H menu shown nothing_listed.
  unfold _prompt_for_mod_loader_version in H.
  unfold shown, nothing_listed, menu. clear menu shown nothing_listed.
  destruct server_type.
  - injection H as <- <-. split; [auto|]. split; [discriminate|].
    split; [auto | discriminate].
  - apply select_from_list_spec in H as (Hempty & Hraise & Hnone & Hvalue);
      [|now rewrite !length_map].
    split; [intros ->; now apply Hempty|]. split; [exact Hraise|].
    split.
    { intros Hr. destruct (Hnone Hr) as [Hnil|Hquit]; [left|now right].
      now destruct forge_versions. }
    intros value Hr. destruct (Hvalue _ Hr) as (choice & Hmenu & Hin & Hlookup).
    exists choice. split; [exact Hmenu|]. split; [lia|].
    rewrite list_lookup_fmap in Hlookup.
    destruct (forge_versions !! Z.to_nat (choice - 1)) as [v|]; [|discriminate].
    injection Hlookup as <-. eauto.
  - apply select_from_list_spec in H as (Hempty & Hraise & Hnone & Hvalue);
      [|now rewrite !length_map].
    split; [intros ->; now apply Hempty|]. split; [exact Hraise|].
    split.
    { intros Hr. destruct (Hnone Hr) as [Hnil|Hquit]; [left|now right].
      now destruct fabric_versions. }
    intros value Hr. destruct (Hvalue _ Hr) as (choice & Hmenu & Hin & Hlookup).
    exists choice. split; [exact Hmenu|]. split; [lia|].
    rewrite list_lookup_fmap in Hlookup.
    destruct (fabric_versions !! Z.to_nat (choice - 1)) as [v|]; [|discriminate].
    injection Hlookup as <-. eauto.
  - apply select_from_list_spec in H as (Hempty & Hraise & Hnone & Hvalue);
      [|now rewrite !length_map].
    split; [intros ->; now apply Hempty|]. split; [exact Hraise|].
    split.
    { intros Hr. destruct (Hnone Hr) as [Hnil|Hquit]; [left|now right].
      now destruct neoforge_versions. }
    intros value Hr. destruct (Hvalue _ Hr) as (choice & Hmenu & Hin & Hlookup).
    exists choice. split; [exact Hmenu|]. split; [lia|].
    rewrite list_lookup_fmap in Hlookup.
    destruct (neoforge_versions !! Z.to_nat (choice - 1)) as [v|]; [|discriminate].
    injection Hlookup as <-. eauto.
Qed.

Lemma prompt_for_mod_loader_version_returns_chosen_entry_witness :
  let listed :=
    [ {| ForgeVersion.full_version := "1.20.1-47.3.0";
         ForgeVersion.mc_version := "1.20.1";
         ForgeVersion.forge_version := "47.3.0" |};
      {| ForgeVersion.full_version := "1.20.1-47.2.0";
         ForgeVersion.mc_version := "1.20.1";
         ForgeVersion.forge_version := "47.2.0" |} ] in
  fst (_prompt_for_mod_loader_version Samples.sample_strip
         Samples.sample_parse_int2 (fun _ => "?") FORGE listed [] []
         {| stdin := [Line "7"; Line "2"]; transcript := [] |})
  = Ok (Some (JStr "1.20.1-47.2.0"))
  /\ exists v,
       listed !! Z.to_nat (2 - 1) = Some v
       /\ JStr "1.20.1-47.2.0" = JStr (ForgeVersion.full_version v).
Proof.
  intros listed. split; [reflexivity|].
  destruct (prompt_for_mod_loader_version_returns_chosen_entry
              Samples.sample_strip Samples.sample_parse_int2 (fun _ => "?") FORGE
              listed [] [] {| stdin := [Line "7"; Line "2"]; transcript := [] |}
              _ _ (surjective_pairing _)) as (_ & _ & _ & Hvalue).
  destruct (Hvalue (JStr "1.20.1-47.2.0") eq_refl)
    as (choice & Hmenu & Hc & v & Hv & Hfull).
  assert (Hchoice : choice = 2).
  { vm_compute in Hmenu. now injection Hmenu as <-. }
  subst choice. exists v. auto.
Defined.

(** ** Directory names *)

Section DirNameFacts.
Import PyStr.

Lemma split_app (sep : ascii) (a s : string) :
  split sep (a +:+ String sep s) = split sep a ++ split sep s.
Proof.
  induction a as [|c a IH]; simpl.
  - now rewrite Ascii.eqb_refl.
  - rewrite IH. destruct (Ascii.eqb c sep); [reflexivity|].
    destruct (split sep a) as [|x xs] eqn:E; [now apply split_nonempty in E|].
    reflexivity.
Qed.

Lemma split_last_app (sep : ascii) (a s : string) :
  has_char sep s = false ->
  List.last (split sep (a +:+ String sep s)) EmptyString = s.
Proof.
  intros Hs. rewrite split_app, (split_no_sep _ _ Hs).
  now rewrite List.last_last.
Qed.

End DirNameFacts.

(** X19. Of a loader version with dashes, [_get_server_dir_name] keeps only
    the text after the last dash: the name is the base version, the lower-case
    name of the server type and that text, joined by dashes.  So two loader
    versions that end alike after their last dash get the same directory. *)
Theorem server_dir_name_keeps_last_dash_segment
    (stype : ServerType) (mc_version front tail : string) :
  stype <> VANILLA ->
  has_char "-" tail = false ->
  _get_server_dir_name stype mc_version (Some (front +:+ "-" +:+ tail))
  = mc_version +:+ "-" +:+ lower (name stype) +:+ "-" +:+ tail
  /\ forall other,
       _get_server_dir_name stype mc_version (Some (other +:+ "-" +:+ tail))
       = _get_server_dir_name stype mc_version (Some (front +:+ "-" +:+ tail)).
Proof.
  intros Hs Ht.
  assert (Hname : forall a,
            _get_server_dir_name stype mc_version (Some (a +:+ "-" +:+ tail))
            = mc_version +:+ "-" +:+ lower (name stype) +:+ "-" +:+ tail).
  { intros a. unfold _get_server_dir_name, mod_version_sanitized.
    assert (Htruthy : truthy (a +:+ "-" +:+ tail) = true) by now destruct a.
    assert (Hdash : contains "-" (a +:+ "-" +:+ tail) = true).
    { rewrite contains_char, has_char_app. simpl. apply orb_true_r. }
    rewrite Htruthy, Hdash. cbn [andb format_optional].
    change (a +:+ "-" +:+ tail) with (a +:+ String "-" tail).
    rewrite (split_last_app "-" a tail Ht).
    destruct stype; [contradiction|reflexivity..]. }
  split; [apply Hname|]. intros other. now rewrite !Hname.
Qed.

Lemma server_dir_name_keeps_last_dash_segment_witness :
  _get_server_dir_name NEOFORGE "1.21" (Some "21.0.5-beta")
  = _get_server_dir_name NEOFORGE "1.21" (Some "21.0.4-beta").
Proof.
  exact (proj2 (server_dir_name_keeps_last_dash_segment NEOFORGE "1.21"
                  "21.0.4" "beta" ltac:(discriminate) eq_refl) "21.0.5").
Defined.

(** ** Installing and launching *)

Section InstallFacts.
Import Py ApiClients JavaFinder MinecraftManager.

Context {FS : Type}.
Variable http_download : json -> Path -> FS -> result unit * FS.
Variable describe : exn -> string.
Variable popen_run : list string -> Path -> FS -> spawn_outcome * FS.
Variable unlink : Path -> FS -> result unit * FS.

(** A download is one step; what follows it runs only when it succeeded. *)
Lemma download_then {A} (url : json) (target : Path)
    (k : unit -> installing (FS := FS) A) (files files' : FS)
    (r : result A) (trace : list install_step) :
  and_then (download http_download describe url target) k files
    = (r, trace, files') ->
  (trace = [Download url target] /\ exists e, r = Raise e)
  \/ (exists rest fs1, trace = Download url target :: rest
                       /\ k tt fs1 = (r, rest, files')).
Proof.
  unfold and_then, download, logged, _download_file.
  destruct (http_download url target files) as [[[]|e] fs1].
  - destruct (k tt fs1) as [[r2 t2] fs2] eqn:Hk.
    intros [= <- <- <-]. right. eauto.
  - destruct (is_RequestException e); intros [= <- <- <-]; left; eauto.
Qed.

(** The installer is one step; its jar is removed only when it returned 0. *)
Lemma run_then_unlink (command : list string) (work_dir jar : Path)
    (files files' : FS) (r : result unit) (trace : list install_step) :
  and_then (run_installer popen_run command work_dir)
    (fun _ => logged (Unlink jar) (unlink jar)) files = (r, trace, files') ->
  (exists o, trace = [RunInstaller command work_dir o]
             /\ o <> Returned 0 /\ exists e, r = Raise e)
  \/ trace = [RunInstaller command work_dir (Returned 0); Unlink jar].
Proof.
  unfold and_then, run_installer, logged, _run_process.
  destruct (popen_run command work_dir files) as [[code|message|e] fs1].
  - destruct (Z.eqb_spec code 0) as [->|Hne]; simpl.
    + destruct (unlink jar fs1) as [r2 fs2]. intros [= <- <- <-]. now right.
    + intros [= <- <- <-]. left. eexists. split; [reflexivity|].
      split; [congruence | eauto].
  - intros [= <- <- <-]. left. eexists. split; [reflexivity|].
    split; [discriminate | eauto].
  - intros [= <- <- <-]. left. eexists. split; [reflexivity|].
    split; [discriminate | eauto].
Qed.

(** What a loader installation does once it has the URL of its installer. *)
Lemma loader_steps (url : json) (command : option (list string))
    (work_dir jar : Path) (files files' : FS)
    (r : result unit) (trace : list install_step) :
  and_then (download http_download describe url jar) (fun _ =>
  and_then (match command with
            | Some command => run_installer popen_run command work_dir
            | None => quietly (Raise TypeError)
            end) (fun _ =>
  logged (Unlink jar) (unlink jar))) files = (r, trace, files') ->
  (Forall (fun s => is_unlink s = false) trace /\ exists e, r = Raise e)
  \/ (exists command', command = Some command'
       /\ trace = [Download url jar;
                   RunInstaller command' work_dir (Returned 0);
                   Unlink jar]).
Proof.
  intros H. apply download_then in H as [[-> He]|(rest & fs1 & -> & H)].
  - left. split; [repeat constructor | exact He].
  - destruct command as [command|].
    + apply run_then_unlink in H as [(o & -> & _ & He)| ->].
      * left. split; [repeat constructor | exact He].
      * right. eauto.
    + unfold and_then, quietly in H. injection H as <- <- <-.
      left. split; [repeat constructor | eauto].
Qed.

End InstallFacts.

(** X20. Whatever the remote, the file system and the installer do,
    [_install_server_core] first makes the server directory; it removes an
    installer jar only after the installer has returned 0, so a failed
    installer leaves its jar behind; for Vanilla it runs nothing and removes
    nothing, and what it downloads goes to the jar named after the base
    version; and when it returns for a loader, it has made the directory,
    downloaded the installer into it, run it there from that jar, and
    removed the jar. *)
Theorem install_server_core_steps {FS : Type}
    (client_get : string -> Z -> result Response)
    (json_loads : string -> result json)
    (non_string_get : json -> Z -> result Response)
    (mkdir_parents : Path -> FS -> result unit * FS)
    (http_download : json -> Path -> FS -> result unit * FS)
    (describe : exn -> string)
    (popen_run : list string -> Path -> FS -> spawn_outcome * FS)
    (unlink : Path -> FS -> result unit * FS)
    (stype : ServerType) (mc_version : string) (mod_version : option string)
    (server_dir : Path) (java_path : string) (files files' : FS)
    (r : result unit) (trace : list install_step) :
  _install_server_core client_get json_loads non_string_get mkdir_parents
    http_download describe popen_run unlink
    stype mc_version mod_version server_dir java_path files = (r, trace, files') ->
  (exists rest, trace = MakeDirs server_dir :: rest)
  /\ (forall p, Unlink p ∈ trace ->
        exists command, RunInstaller command server_dir (Returned 0) ∈ trace)
  /\ (stype = VANILLA ->
      forall s, s ∈ trace ->
        s = MakeDirs server_dir
        \/ exists url, s = Download url (joinpath server_dir (mc_version +:+ ".jar")))
  /\ (stype <> VANILLA -> r = Ok tt ->
      exists url jar options,
        trace = [MakeDirs server_dir;
                 Download url (joinpath server_dir jar);
                 RunInstaller (java_path :: "-jar" :: path_name (joinpath server_dir jar)
                                 :: options)
                   server_dir (Returned 0);
                 Unlink (joinpath server_dir jar)]).
Proof.
  intros H. unfold _install_server_core in H. unfold and_then at 1 in H.
  unfold logged at 1 in H.
  destruct (mkdir_parents server_dir files) as [[[]|e] fs1].
  2:{ injection H as <- <- <-. split; [eauto|]. split; [|split].
      - intros p Hp. apply list_elem_of_singleton in Hp. discriminate.
      - intros _ s Hs. apply list_elem_of_singleton in Hs. auto.
      - discriminate. }
  assert (Hshape : exists r2 t2,
            r = r2 /\ trace = MakeDirs server_dir :: t2
            /\ ((stype <> VANILLA
                 /\ Forall (fun s => is_unlink s = false) t2
                 /\ exists e, r2 = Raise e)
                \/ (stype <> VANILLA
                    /\ exists url jar options,
                         t2 = [Download url (joinpath server_dir jar);
                               RunInstaller (java_path :: "-jar"
                                               :: path_name (joinpath server_dir jar)
                                               :: options)
                                 server_dir (Returned 0);
                               Unlink (joinpath server_dir jar)])
                \/ (stype = VANILLA
                    /\ (t2 = [] \/ exists url,
                          t2 = [Download url
                                  (joinpath server_dir (mc_version +:+ ".jar"))])))).
  { destruct stype.
    - destruct (and_then _ _ fs1) as [[r2 t2] fs2] eqn:Hrest.
      injection H as <- <- <-. exists r2, t2. split; [reflexivity|].
      split; [reflexivity|]. right. right. split; [reflexivity|].
      unfold and_then, quietly in Hrest.
      destruct (get_minecraft_download_url _ _ _ mc_version) as [url|e].
      + destruct (truth url); simpl in Hrest.
        * unfold download, logged in Hrest.
          destruct (_download_file _ _ _ _ fs1) as [r3 fs3].
          injection Hrest as <- <- <-. right. eauto.
        * injection Hrest as <- <- <-. now left.
      + injection Hrest as <- <- <-. now left.
    - destruct (and_then _ _ fs1) as [[r2 t2] fs2] eqn:Hrest.
      injection H as <- <- <-. exists r2, t2. split; [reflexivity|].
      split; [reflexivity|].
      apply (loader_steps _ _ _ _ (JStr _)
               (Some [java_path; "-jar"; _; "--installServer"])) in Hrest
        as [Hfail|(command & [= <-] & ->)].
      + left. split; [discriminate | exact Hfail].
      + right. left. split; [discriminate | eauto].
    - destruct (and_then _ _ fs1) as [[r2 t2] fs2] eqn:Hrest.
      injection H as <- <- <-. exists r2, t2. split; [reflexivity|].
      split; [reflexivity|].
      unfold and_then at 1, quietly at 1 in Hrest.
      destruct (get_fabric_installer_url _ _) as [url|e].
      + destruct (truth url); cbn [negb] in Hrest.
        * destruct (and_then _ _ fs1) as [[r3 t3] fs3] eqn:Hsteps.
          injection Hrest as <- <- <-. simpl.
          destruct mod_version as [loader|].
          -- apply (loader_steps _ _ _ _ url
                      (Some [java_path; "-jar"; _; "server"; "-mcversion";
                             mc_version; "-loader"; loader; "-downloadMinecraft"])
                      server_dir) in Hsteps
               as [Hfail|(command & [= <-] & ->)].
             ++ left. split; [discriminate | exact Hfail].
             ++ right. left. split; [discriminate | eauto].
          -- apply (loader_steps _ _ popen_run _ url None server_dir) in Hsteps
               as [Hfail|(command & [=] & _)].
             left. split; [discriminate | exact Hfail].
        * injection Hrest as <- <- <-. left.
          split; [discriminate|]. split; [constructor | eauto].
      + injection Hrest as <- <- <-. left.
        split; [discriminate|]. split; [constructor | eauto].
    - destruct (and_then _ _ fs1) as [[r2 t2] fs2] eqn:Hrest.
      injection H as <- <- <-. exists r2, t2. split; [reflexivity|].
      split; [reflexivity|].
      apply (loader_steps _ _ _ _ (JStr _)
               (Some [java_path; "-jar"; _; "--installServer"])) in Hrest
        as [Hfail|(command & [= <-] & ->)].
      + left. split; [discriminate | exact Hfail].
      + right. left. split; [discriminate | eauto]. }
  destruct Hshape as (r2 & t2 & -> & -> & Hshape).
  split; [eauto|]. split; [|split].
  - intros p Hp. apply elem_of_cons in Hp as [Hp|Hp]; [discriminate|].
    destruct Hshape
      as [(_ & Hno & _)|[(_ & url & jar & options & ->)|[_ [->|[url ->]]]]].
    + rewrite List.Forall_forall in Hno.
      apply list_elem_of_In, Hno in Hp. discriminate.
    + eexists. right. right. left.
    + now apply elem_of_nil in Hp.
    + apply list_elem_of_singleton in Hp. discriminate.
  - intros -> s Hs. apply elem_of_cons in Hs as [->|Hs]; [now left|].
    destruct Hshape as [(Hne & _)|[(Hne & _)|[_ [->|[url ->]]]]];
      [contradiction | contradiction | |].
    + now apply elem_of_nil in Hs.
    + apply list_elem_of_singleton in Hs. eauto.
  - intros Hs ->.
    destruct Hshape as [(_ & _ & e & He)|[(_ & url & jar & options & ->)|[-> _]]];
      [discriminate | eauto | contradiction].
Qed.

Lemma install_server_core_steps_witness :
  exists url jar options,
    snd (fst (_install_server_core Samples.remote_ok Samples.documents
                Samples.no_other_url Samples.disk_mkdir Samples.disk_download
                Samples.sample_describe (Samples.installer_returning 0)
                Samples.disk_unlink
                FORGE "1.20.1" (Some "1.20.1-47.3.0") Samples.server_dir
                "/opt/jdk-17/bin/java" ∅))
    = [MakeDirs Samples.server_dir;
       Download url (joinpath Samples.server_dir jar);
       RunInstaller ("/opt/jdk-17/bin/java" :: "-jar"
                       :: path_name (joinpath Samples.server_dir jar) :: options)
         Samples.server_dir (Returned 0);
       Unlink (joinpath Samples.server_dir jar)].
Proof.
  destruct (_install_server_core Samples.remote_ok Samples.documents
              Samples.no_other_url Samples.disk_mkdir Samples.disk_download
              Samples.sample_describe (Samples.installer_returning 0)
              Samples.disk_unlink
              FORGE "1.20.1" (Some "1.20.1-47.3.0") Samples.server_dir
              "/opt/jdk-17/bin/java" ∅) as [[r trace] files'] eqn:Hrun.
  destruct (install_server_core_steps _ _ _ _ _ _ _ _ _ _ _ _ _ _ _ _ _ Hrun)
    as (_ & _ & _ & Hdone).
  apply Hdone; [discriminate|].
  unfold _install_server_core, and_then, logged, download, run_installer,
    _download_file, _run_process in Hrun.
  simpl in Hrun. now injection Hrun as <- _ _.
Defined.

Section PathFacts.
Import JavaFinder MinecraftManager.

(** A name without a slash, other than the empty one and the single dot,
    is one part of a path. *)
Lemma parts_of_name (name : string) :
  has_char "/" name = false -> name <> EmptyString -> name <> "." ->
  parts_of name = [name].
Proof.
  intros Hslash Hne Hdot. unfold parts_of.
  rewrite (split_no_sep _ _ Hslash).
  destruct name as [|c name]; [congruence|].
  cbn [has_char] in Hslash. apply orb_false_iff in Hslash as [Hc _].
  cbn [startswith]. rewrite Ascii.eqb_sym, Hc. cbn [List.filter].
  destruct (String.eqb_spec (String c name) EmptyString); [discriminate|].
  destruct (String.eqb_spec (String c name) "."); [contradiction|reflexivity].
Qed.

Lemma joinpath_name (p : Path) (name : string) :
  has_char "/" name = false -> name <> EmptyString -> name <> "." ->
  joinpath p name = p ++ [name].
Proof.
  intros Hslash Hne Hdot. unfold joinpath.
  rewrite (parts_of_name _ Hslash Hne Hdot).
  destruct name as [|c name]; [congruence|].
  cbn [has_char] in Hslash. apply orb_false_iff in Hslash as [Hc _].
  cbn [startswith]. now rewrite Ascii.eqb_sym, Hc.
Qed.

(** The name and the parent of a path that ends with a part after others. *)
Lemma path_name_last (p : Path) (name : string) :
  p <> [] -> path_name (p ++ [name]) = name /\ parent (p ++ [name]) = p.
Proof.
  intros Hp. destruct p as [|x p]; [congruence|].
  unfold path_name, parent. cbn [app].
  destruct (p ++ [name]) as [|y q] eqn:Hq; [now destruct p|].
  rewrite <- Hq. split.
  - change (x :: p ++ [name]) with ((x :: p) ++ [name]). apply last_last.
  - change (x :: p ++ [name]) with ((x :: p) ++ [name]). apply removelast_last.
Qed.

End PathFacts.

(** X21. The jar that a Vanilla installation downloads is the jar that a
    later start launches.  For a base version without a dash that is a file
    name (it has no slash and is neither empty nor a single dot), installed
    in its directory under the base directory: the directory is named after
    the version, its name is inferred to be a Vanilla server of that
    version, every download of the installation goes to a file directly in
    the server directory, and the launch command for the directory runs the
    file of that name, whatever the file system holds by then. *)
Theorem vanilla_install_target_is_the_launched_jar {FS : Type}
    (client_get : string -> Z -> result Response)
    (json_loads : string -> result json)
    (non_string_get : json -> Z -> result Response)
    (mkdir_parents : Path -> FS -> result unit * FS)
    (http_download : json -> Path -> FS -> result unit * FS)
    (describe : exn -> string)
    (popen_run : list string -> Path -> FS -> spawn_outcome * FS)
    (unlink : Path -> FS -> result unit * FS)
    (glob_unix_args : FS -> Path -> list Path)
    (exists_ : FS -> Path -> bool) (read_text : FS -> Path -> result string)
    (chmod_755 : Path -> FS -> result unit * FS)
    (strip : string -> string) (shlex_split : string -> result (list string))
    (str_of_path : Path -> string) (resolve : Path -> Path)
    (mc_version java_path : string) (files files' : FS)
    (r : result unit) (trace : list install_step)
    (url : json) (target : Path) :
  let server_dir :=
    joinpath MINECRAFT_SERVER_BASE_DIR (_get_server_dir_name VANILLA mc_version None) in
  has_char "-" mc_version = false ->
  has_char "/" mc_version = false ->
  mc_version <> EmptyString -> mc_version <> "." ->
  _install_server_core client_get json_loads non_string_get mkdir_parents
    http_download describe popen_run unlink
    VANILLA mc_version None server_dir java_path files = (r, trace, files') ->
  Download url target ∈ trace ->
  server_dir = MINECRAFT_SERVER_BASE_DIR ++ [mc_version]
  /\ _infer_server_type (path_name server_dir) = VANILLA
  /\ _infer_mc_version (path_name server_dir) = mc_version
  /\ exists jar,
       target = joinpath server_dir jar
       /\ parent target = server_dir /\ path_name target = jar
       /\ forall (java : string) (later : FS),
            launch_command glob_unix_args exists_ read_text chmod_755 strip
              shlex_split str_of_path resolve
              (_infer_server_type (path_name server_dir)) java server_dir later
            = (Ok [java; "-Xmx2G"; "-Xms1G"; "-jar"; jar; "nogui"], later).
Proof.
  intros server_dir Hdash Hslash Hne Hdot Hrun Hin.
  assert (Hdir : server_dir = MINECRAFT_SERVER_BASE_DIR ++ [mc_version]).
  { unfold server_dir. cbn [_get_server_dir_name]. now apply joinpath_name. }
  assert (Hname : path_name server_dir = mc_version).
  { rewrite Hdir. now apply path_name_last. }
  assert (Htype : _infer_server_type mc_version = VANILLA).
  { unfold _infer_server_type.
    rewrite !(contains_no_char "-" _ (lower mc_version));
      try reflexivity; now rewrite has_dash_lower. }
  split; [exact Hdir|].
  rewrite Hname, Htype. split; [reflexivity|]. split.
  { unfold _infer_mc_version. now rewrite split_no_sep. }
  exists (mc_version +:+ ".jar").
  assert (Hjar : joinpath server_dir (mc_version +:+ ".jar")
                 = server_dir ++ [mc_version +:+ ".jar"]).
  { apply joinpath_name.
    - rewrite has_char_app, Hslash. reflexivity.
    - destruct mc_version; [congruence | discriminate].
    - destruct mc_version as [|c [|c' v]]; [congruence | discriminate | discriminate]. }
  assert (Htarget : target = joinpath server_dir (mc_version +:+ ".jar")).
  { unfold _install_server_core, and_then, quietly, download, logged in Hrun.
    cbn [_get_server_dir_name] in Hrun.
    destruct (mkdir_parents server_dir files) as [[[]|e] fs1].
    + destruct (get_minecraft_download_url _ _ _ mc_version) as [u|e].
      * destruct (truth u); simpl in Hrun.
        -- destruct (_download_file http_download describe u _ fs1) as [r3 fs3].
           injection Hrun as _ <- _.
           apply elem_of_cons in Hin as [Hin|Hin]; [discriminate|].
           apply list_elem_of_singleton in Hin. now injection Hin as _ ->.
        -- injection Hrun as _ <- _.
           apply list_elem_of_singleton in Hin. discriminate.
      * injection Hrun as _ <- _.
        apply list_elem_of_singleton in Hin. discriminate.
    + injection Hrun as _ <- _.
      apply list_elem_of_singleton in Hin. discriminate. }
  split; [exact Htarget|].
  rewrite Htarget, Hjar.
  assert (Hd : server_dir <> []) by (rewrite Hdir; discriminate).
  destruct (path_name_last server_dir (mc_version +:+ ".jar") Hd) as [Hn Hp].
  split; [exact Hp|]. split; [exact Hn|].
  intros java later. unfold launch_command. now rewrite Hname.
Qed.

Lemma vanilla_install_target_is_the_launched_jar_witness :
  launch_command (fun (_ : gmap Path string) _ => []) Samples.disk_exists
    Samples.disk_read_text Samples.disk_mkdir Samples.sample_strip
    (fun s => Ok [s]) Samples.sample_str_of_path Samples.host_resolve
    (_infer_server_type "1.21") "java" ["minecraft_server"; "1.21"] ∅
  = (Ok ["java"; "-Xmx2G"; "-Xms1G"; "-jar"; "1.21.jar"; "nogui"], ∅)
  /\ parent ["minecraft_server"; "1.21"; "1.21.jar"] = ["minecraft_server"; "1.21"].
Proof.
  destruct (vanilla_install_target_is_the_launched_jar
              Samples.remote_ok Samples.documents Samples.no_other_url
              Samples.disk_mkdir Samples.disk_download Samples.sample_describe
              (Samples.installer_returning 0) Samples.disk_unlink
              (fun (_ : gmap Path string) _ => []) Samples.disk_exists
              Samples.disk_read_text Samples.disk_mkdir Samples.sample_strip
              (fun s => Ok [s]) Samples.sample_str_of_path Samples.host_resolve
              "1.21" "java" ∅ _ _ _
              (JStr "https://dl/server.jar")
              ["minecraft_server"; "1.21"; "1.21.jar"]
              eq_refl eq_refl ltac:(discriminate) ltac:(discriminate) eq_refl)
    as (_ & _ & _ & jar & Htarget & Hparent & Hjar & Hlaunch).
  - apply elem_of_cons. right. apply elem_of_cons. now left.
  - split; [|exact Hparent]. cbn in Hjar. subst jar. apply Hlaunch.
Defined.

(** ** Choosing the base version *)

Section VersionPromptFacts.
Import Py ApiClients.

(** A failed fetch of the manifest gives no versions. *)
Lemma manifest_fetch_failure (client_get : string -> Z -> result Response)
    (json_loads : string -> result json) (filter_type : string) :
  fetch_failure json_loads is_JSONDecodeError (client_get mojang_manifest_url 10) ->
  get_minecraft_versions client_get json_loads filter_type = Ok [].
Proof.
  intros H. unfold get_minecraft_versions.
  inversion H as [e He Hr | response Hs Hr | response e Hp He Hr]; simpl.
  - now rewrite He.
  - unfold raise_for_status. now rewrite Hs.
  - unfold raise_for_status, response_json. rewrite Hp, He.
    now destruct ((400 <=? status_code response) && (status_code response <? 600)).
Qed.

(** An error of another class from the parser comes out of the listing. *)
Lemma manifest_parser_error (client_get : string -> Z -> result Response)
    (json_loads : string -> result json) (filter_type : string)
    (response : Response) (e : exn) :
  client_get mojang_manifest_url 10 = Ok response ->
  raise_for_status response = Ok tt ->
  json_loads (content response) = Raise e ->
  is_JSONDecodeError e = false -> is_RequestException e = false ->
  get_minecraft_versions client_get json_loads filter_type = Raise e.
Proof.
  intros Hget Hstatus Hp Hdec Hreq. unfold get_minecraft_versions, response_json.
  rewrite Hget. simpl. rewrite Hstatus. simpl. rewrite Hp, Hdec. simpl.
  now rewrite Hreq.
Qed.

End VersionPromptFacts.

(** X22. [_prompt_for_mc_version] asks nothing and raises [IOError] when the
    fetch of the manifest fails in a way the listing absorbs (the transport
    raises, the server answers 404, or the payload is not JSON), since the
    list of releases is then empty; an error of another class that the
    parser raises on the manifest comes out as it is, also before anything
    is asked.  When the releases all have a string id, the version it
    returns is the id of one of them, and it raises only when the input ends
    or the operator hits CTRL+C: neither menu leads outside its list. *)
Theorem prompt_for_mc_version_returns_listed_release
    (client_get : string -> Z -> result Response)
    (json_loads : string -> result json)
    (strip : string -> string) (parse_int : string -> option Z)
    (c c' : console) (r : result (option string)) :
  _prompt_for_mc_version client_get json_loads strip parse_int c = (r, c') ->
  (fetch_failure json_loads is_JSONDecodeError (client_get mojang_manifest_url 10) ->
   r = Raise (OSError "未能获取到 Minecraft 版本列表。") /\ c' = c)
  /\ (forall response e,
        client_get mojang_manifest_url 10 = Ok response ->
        raise_for_status response = Ok tt ->
        json_loads (content response) = Raise e ->
        is_JSONDecodeError e = false -> is_RequestException e = false ->
        r = Raise e /\ c' = c)
  /\ (forall all_versions ids,
        get_minecraft_versions client_get json_loads "release" = Ok all_versions ->
        all_versions <> [] ->
        version_ids all_versions = Ok ids ->
        (forall v_id, r = Ok (Some v_id) ->
           v_id ∈ ids /\ JStr v_id ∈ map MinecraftVersion.id all_versions)
        /\ (forall e, r = Raise e -> e = EOFError \/ e = KeyboardInterrupt)).
Proof.
  unfold _prompt_for_mc_version. intros H. split; [|split].
  - intros Hfail. rewrite (manifest_fetch_failure _ _ _ Hfail) in H.
    simpl in H. now injection H as <- <-.
  - intros response e Hget Hstatus Hp Hdec Hreq.
    rewrite (manifest_parser_error _ _ _ _ _ Hget Hstatus Hp Hdec Hreq) in H.
    now injection H as <- <-.
  - intros all_versions ids Hall Hne Hids. rewrite Hall, Hids in H.
    assert (Hlisted : forall v_id, v_id ∈ ids ->
              JStr v_id ∈ map MinecraftVersion.id all_versions).
    { clear -Hids. revert ids Hids.
      induction all_versions as [|v rest IH]; intros ids Hids v_id Hin.
      - injection Hids as <-. now apply elem_of_nil in Hin.
      - simpl in Hids. destruct (MinecraftVersion.id v) as [| | | |s| |] eqn:Hv;
          try discriminate.
        destruct (version_ids rest) as [ids'|e]; [|discriminate].
        injection Hids as <-. simpl. rewrite Hv.
        apply elem_of_cons in Hin as [->|Hin]; [now left|].
        right. now apply (IH ids'). }
    destruct all_versions as [|v0 rest0]; [contradiction|]. cbn [bool_of_list negb] in H.
    destruct (show_menu strip parse_int _ _ (major_series_of ids) c)
      as [choice c1] eqn:Hmenu1.
    destruct (show_menu_outcome _ _ _ _ _ _ _ _ Hmenu1) as (_ & Hrange1 & Hraise1).
    destruct choice as [choice|e].
    2:{ injection H as <- <-. split; [discriminate|].
        intros ? [= <-]. exact (Hraise1 _ eq_refl). }
    destruct (Z.eqb_spec choice (-1)) as [->|Hne1].
    { injection H as <- <-. split; discriminate. }
    destruct (Hrange1 _ eq_refl) as [?|Hin1]; [contradiction|].
    destruct (list_getitem_choice _ _ Hin1) as (selected_series & _ & Hget1).
    rewrite Hget1 in H.
    set (specific_versions :=
           List.filter (fun v_id => String.eqb (get_major_minor v_id) selected_series)
                       ids) in *.
    destruct (show_menu strip parse_int _ _ specific_versions c1)
      as [choice2 c2] eqn:Hmenu2.
    destruct (show_menu_outcome _ _ _ _ _ _ _ _ Hmenu2) as (_ & Hrange2 & Hraise2).
    destruct choice2 as [choice2|e].
    2:{ injection H as <- <-. split; [discriminate|].
        intros ? [= <-]. exact (Hraise2 _ eq_refl). }
    destruct (Z.eqb_spec choice2 (-1)) as [->|Hne2].
    { injection H as <- <-. split; discriminate. }
    destruct (Hrange2 _ eq_refl) as [?|Hin2]; [contradiction|].
    destruct (list_getitem_choice _ _ Hin2) as (v_id & Hlookup & Hget2).
    rewrite Hget2 in H. injection H as <- <-. split; [|discriminate].
    intros ? [= <-].
    assert (Hv : v_id ∈ ids).
    { apply list_elem_of_lookup_2 in Hlookup.
      apply list_elem_of_In in Hlookup. apply List.filter_In in Hlookup as [Hv _].
      now apply list_elem_of_In. }
    split; [exact Hv | now apply Hlisted].
Qed.

Lemma prompt_for_mc_version_returns_listed_release_witness :
  _prompt_for_mc_version Samples.remote_404 Samples.documents
    Samples.sample_strip Samples.sample_parse_int2
    {| stdin := [Line "1"]; transcript := [] |}
  = (Raise (OSError "未能获取到 Minecraft 版本列表。"),
     {| stdin := [Line "1"]; transcript := [] |})
  /\ _prompt_for_mc_version Samples.remote_ok Samples.overflow_json
       Samples.sample_strip Samples.sample_parse_int2
       {| stdin := [Line "1"]; transcript := [] |}
     = (Raise RecursionError, {| stdin := [Line "1"]; transcript := [] |})
  /\ fst (_prompt_for_mc_version Samples.remote_ok Samples.documents
            Samples.sample_strip Samples.sample_parse_int2
            {| stdin := [Line "1"; Line "1"]; transcript := [] |})
     = Ok (Some "1.21")
  /\ JStr "1.21"
     ∈ map MinecraftVersion.id
         (match get_minecraft_versions Samples.remote_ok Samples.documents
                  "release" with
          | Ok all_versions => all_versions
          | Raise _ => []
          end).
Proof.
  split; [|split; [|split]].
  - destruct (prompt_for_mc_version_returns_listed_release
                Samples.remote_404 Samples.documents
                Samples.sample_strip Samples.sample_parse_int2
                {| stdin := [Line "1"]; transcript := [] |} _ _
                (surjective_pairing _)) as [Hfail _].
    destruct Hfail as [Hr Hc]; [now apply http_not_found|].
    rewrite (surjective_pairing (_prompt_for_mc_version _ _ _ _ _)).
    now rewrite Hr, Hc.
  - destruct (prompt_for_mc_version_returns_listed_release
                Samples.remote_ok Samples.overflow_json
                Samples.sample_strip Samples.sample_parse_int2
                {| stdin := [Line "1"]; transcript := [] |} _ _
                (surjective_pairing _)) as (_ & Hother & _).
    destruct (Hother {| status_code := 200; content := mojang_manifest_url |}
                RecursionError eq_refl eq_refl eq_refl eq_refl eq_refl)
      as [Hr Hc].
    rewrite (surjective_pairing (_prompt_for_mc_version _ _ _ _ _)).
    now rewrite Hr, Hc.
  - reflexivity.
  - destruct (prompt_for_mc_version_returns_listed_release
                Samples.remote_ok Samples.documents
                Samples.sample_strip Samples.sample_parse_int2
                {| stdin := [Line "1"; Line "1"]; transcript := [] |} _ _
                (surjective_pairing _)) as (_ & _ & Hlisted).
    destruct (get_minecraft_versions Samples.remote_ok Samples.documents "release")
      as [all_versions|e] eqn:Hall; [|discriminate].
    destruct (version_ids all_versions) as [ids|e] eqn:Hids;
      [|revert Hids; injection Hall as <-; discriminate].
    refine (proj2 (proj1 (Hlisted all_versions ids eq_refl _ Hids) "1.21" eq_refl)).
    injection Hall as <-. discriminate.
Defined.

(** ** A new installation *)

Section TranscriptFacts.
Import Py Utils.

Variable strip : string -> string.
Variable parse_int : string -> option Z.

(** The dialogues only add to the transcript. *)
Lemma show_menu_loop_extends (full_prompt : string) (n_items : nat)
    (keys : list key) (log : list (string * answer))
    (r : result Z) (c' : console) :
  show_menu_loop strip parse_int full_prompt n_items keys log = (r, c') ->
  exists added, transcript c' = log ++ added.
Proof.
  revert log. induction keys as [|[s|] keys IH]; intros log; simpl.
  - intros [= <- <-]. simpl. eauto.
  - assert (Hrec : show_menu_loop strip parse_int full_prompt n_items keys
                     (log ++ [(full_prompt, Typed s)]) = (r, c') ->
                   exists added, transcript c' = log ++ added).
    { intros H. destruct (IH _ H) as [added ->].
      rewrite <- app_assoc. eauto. }
    destruct (String.eqb (lower (strip s)) "q" || String.eqb (lower (strip s)) "quit").
    + intros [= <- <-]. simpl. eauto.
    + destruct (parse_int (lower (strip s))) as [choice|]; [|exact Hrec].
      destruct ((1 <=? choice) && (choice <=? Z.of_nat n_items)); [|exact Hrec].
      intros [= <- <-]. simpl. eauto.
  - intros [= <- <-]. simpl. eauto.
Qed.

Lemma show_menu_extends (title prompt : string) (items : list string)
    (c c' : console) (r : result Z) :
  show_menu strip parse_int title prompt items c = (r, c') ->
  exists added, transcript c' = transcript c ++ added.
Proof.
  unfold show_menu. destruct items.
  - intros [= <- <-]. exists []. now rewrite app_nil_r.
  - apply show_menu_loop_extends.
Qed.

Lemma prompt_yes_no_loop_extends (full_prompt : string)
    (keys : list key) (log : list (string * answer))
    (r : result (option bool)) (c' : console) :
  prompt_yes_no_loop strip full_prompt keys log = (r, c') ->
  exists added, transcript c' = log ++ added.
Proof.
  revert log. induction keys as [|[s|] keys IH]; intros log; simpl.
  - intros [= <- <-]. simpl. eauto.
  - destruct (String.eqb (lower (strip s)) "y"); [intros [= <- <-]; simpl; eauto|].
    destruct (String.eqb (lower (strip s)) "n"); [intros [= <- <-]; simpl; eauto|].
    destruct (String.eqb (lower (strip s)) "q" || String.eqb (lower (strip s)) "quit");
      [intros [= <- <-]; simpl; eauto|].
    intros H. destruct (IH _ H) as [added ->]. rewrite <- app_assoc. eauto.
  - intros [= <- <-]. simpl. eauto.
Qed.

(** A confirmation is a line that reads [y], and it is on the transcript. *)
Lemma prompt_yes_no_confirmed (question : string) (c c' : console) :
  prompt_yes_no strip question c = (Ok (Some true), c') ->
  exists line,
    (colorize question GREEN +:+ " (y/n/q): ", Typed line) ∈ transcript c'
    /\ lower (strip line) = "y".
Proof.
  intros H. unfold prompt_yes_no in H.
  apply prompt_yes_no_loop_spec in H as (skipped & line & _ & _ & Hline & ->).
  exists line. split.
  - apply elem_of_app. right. rewrite map_app. apply elem_of_app. right. now left.
  - unfold yes_no_meaning in Hline.
    destruct (String.eqb_spec (lower (strip line)) "y") as [Hy|_]; [exact Hy|].
    destruct (String.eqb (lower (strip line)) "n"); [discriminate|].
    destruct (String.eqb (lower (strip line)) "q" || String.eqb (lower (strip line)) "quit");
      discriminate.
Qed.

End TranscriptFacts.

Section InstallNewFacts.
Import Py ApiClients JavaFinder Utils MinecraftManager.

Context {FS : Type}.
Variable client_get : string -> Z -> result Response.
Variable json_loads : string -> result json.
Variable ET_fromstring : string -> result element.
Variable non_string_get : json -> Z -> result Response.
Variable strip : string -> string.
Variable parse_int : string -> option Z.
Variable format_value : json -> string.
Variable exists_ : FS -> Path -> bool.
Variable read_text : FS -> Path -> result string.
Variable is_file : FS -> Path -> bool.
Variable access_X_OK : FS -> Path -> bool.
Variable mkdir_parents : Path -> FS -> result unit * FS.
Variable write_text : Path -> string -> FS -> result unit * FS.
Variable mkdir : Path -> FS -> result unit * FS.
Variable rmtree : Path -> FS -> result unit * FS.
Variable http_download : json -> Path -> FS -> result unit * FS.
Variable describe : exn -> string.
Variable popen_run : list string -> Path -> FS -> spawn_outcome * FS.
Variable unlink : Path -> FS -> result unit * FS.
Variable json_dumps : json -> string.
Variable Path_of : string -> Path.
Variable str_of_path : Path -> string.

Lemma on_terminal_spec {A} (dialogue : console -> result A * console)
    (w w' : @world FS) (r : result A) :
  on_terminal dialogue w = (r, w') ->
  fs w' = fs w /\ dialogue (terminal w) = (r, terminal w').
Proof.
  unfold on_terminal. destruct (dialogue (terminal w)) as [r1 c1].
  intros [= <- <-]. auto.
Qed.

Lemma on_files_spec {A} (operation : FS -> result A * FS)
    (w w' : @world FS) (r : result A) :
  on_files operation w = (r, w') ->
  terminal w' = terminal w /\ operation (fs w) = (r, fs w').
Proof.
  unfold on_files. destruct (operation (fs w)) as [r1 fs1].
  intros [= <- <-]. auto.
Qed.

Lemma select_java_extends (mc_version : string) (server_dir : Path)
    (java_future : result (list JavaInstallation)) (w w' : @world FS)
    (r : result (option string)) :
  _select_java_for_version exists_ read_text is_file access_X_OK
    mkdir_parents write_text json_loads json_dumps Path_of str_of_path
    strip parse_int mc_version server_dir java_future w = (r, w') ->
  exists added, transcript (terminal w') = transcript (terminal w) ++ added.
Proof.
  assert (Hsame : exists added : list (string * answer),
            transcript (terminal w) = transcript (terminal w) ++ added)
    by (exists []; now rewrite app_nil_r).
  unfold _select_java_for_version.
  destruct (saved_java _ _ _ _ _ _ _ (fs w) _) as [[java_exec|]|e];
    try (intros [= <- <-]; exact Hsame).
  destruct java_future as [[|inst installations]|e];
    try (intros [= <- <-]; exact Hsame).
  destruct (show_menu strip parse_int _ _ _ (terminal w)) as [choice c1] eqn:Hmenu.
  apply show_menu_extends in Hmenu as [added1 Hc1].
  destruct choice as [choice|e]; [|intros [= <- <-]; simpl; eauto].
  destruct (choice =? -1); [intros [= <- <-]; simpl; eauto|].
  destruct (_ !! Z.to_nat (choice - 1)) as [selected_java|];
    [|intros [= <- <-]; simpl; eauto].
  destruct (prompt_yes_no strip _ c1) as [save_default c2] eqn:Hsave.
  unfold prompt_yes_no in Hsave.
  apply prompt_yes_no_loop_extends in Hsave as [added2 Hc2].
  assert (Hboth : exists added, transcript c2 = transcript (terminal w) ++ added).
  { rewrite Hc2, Hc1, <- app_assoc. eauto. }
  destruct save_default as [[[|]|]|e]; try (intros [= <- <-]; exact Hboth).
  destruct (mkdir_parents server_dir (fs w)) as [[[]|e] fs1];
    [|intros [= <- <-]; exact Hboth].
  destruct (write_text _ _ fs1) as [[[]|e] fs2]; intros [= <- <-]; exact Hboth.
Qed.

(** Step 4: the directory is removed only on a confirmation. *)
Lemma clear_server_dir_spec (server_dir_name : string) (server_dir : Path)
    (w w' : @world FS) (r : result bool) :
  clear_server_dir strip exists_ rmtree server_dir_name server_dir w = (r, w') ->
  (exists_ (fs w) server_dir = false /\ r = Ok true /\ w' = w)
  \/ (exists_ (fs w) server_dir = true /\ fs w' = fs w /\ r <> Ok true)
  \/ (exists_ (fs w) server_dir = true
      /\ exists line,
           (colorize (overwrite_question server_dir_name) GREEN +:+ " (y/n/q): ",
            Typed line) ∈ transcript (terminal w')
           /\ lower (strip line) = "y").
Proof.
  unfold clear_server_dir.
  destruct (exists_ (fs w) server_dir); [|intros [= <- <-]; now left].
  destruct (on_terminal _ w) as [overwrite w1] eqn:Hask.
  apply on_terminal_spec in Hask as [Hfs Hask].
  destruct overwrite as [[[|]|]|e];
    try (intros [= <- <-]; right; left; split; [reflexivity|];
         split; [exact Hfs | discriminate]).
  destruct (on_files _ w1) as [removed w2] eqn:Hrm.
  apply on_files_spec in Hrm as [Hterm _].
  apply prompt_yes_no_confirmed in Hask.
  intros H. right. right. split; [reflexivity|].
  destruct removed as [[]|e]; injection H as <- <-; now rewrite Hterm.
Qed.

(** Steps 4 to 6 leave the files as they are, unless the directory was
    not there or its removal was confirmed; and what they return is the
    directory with a licence file that is accepted. *)
Lemma install_chosen_spec (server_type : ServerType) (mc_version : string)
    (mod_version : option string)
    (java_future : result (list JavaInstallation)) (w w' : @world FS)
    (r : result (option (Path * string))) :
  let server_dir_name := _get_server_dir_name server_type mc_version mod_version in
  let server_dir := joinpath MINECRAFT_SERVER_BASE_DIR server_dir_name in
  install_chosen client_get json_loads non_string_get strip parse_int exists_
    read_text is_file access_X_OK mkdir_parents write_text mkdir rmtree
    http_download describe popen_run unlink json_dumps Path_of str_of_path
    server_type mc_version mod_version java_future w = (r, w') ->
  (fs w' = fs w
   \/ exists_ (fs w) server_dir = false
   \/ exists line,
        (colorize (overwrite_question server_dir_name) GREEN +:+ " (y/n/q): ",
         Typed line) ∈ transcript (terminal w')
        /\ lower (strip line) = "y")
  /\ (forall installed java_path, r = Ok (Some (installed, java_path)) ->
        installed = server_dir /\ java_path <> EmptyString
        /\ exists before,
             _accept_eula exists_ read_text mkdir write_text
               (joinpath server_dir "eula.txt") before = (Ok tt, fs w')).
Proof.
  intros server_dir_name server_dir. unfold install_chosen.
  fold server_dir_name. fold server_dir.
  destruct (clear_server_dir _ _ _ server_dir_name server_dir w)
    as [cleared w1] eqn:Hclear.
  apply clear_server_dir_spec in Hclear.
  assert (Hsame : exists added : list (string * answer),
            transcript (terminal w1) = transcript (terminal w1) ++ added)
    by (exists []; now rewrite app_nil_r).
  assert (Hweak : forall w2 : @world FS,
            (exists added, transcript (terminal w2)
                           = transcript (terminal w1) ++ added) ->
            cleared = Ok true ->
            fs w2 = fs w
            \/ exists_ (fs w) server_dir = false
            \/ exists line,
                 (colorize (overwrite_question server_dir_name) GREEN
                    +:+ " (y/n/q): ", Typed line) ∈ transcript (terminal w2)
                 /\ lower (strip line) = "y").
  { intros w2 [added Hadded] Hc.
    destruct Hclear as [(Hno & _)|[(_ & _ & Hr)|(_ & line & Hin & Hy)]].
    - right. now left.
    - contradiction.
    - right. right. exists line. split; [|exact Hy].
      rewrite Hadded. apply elem_of_app. now left. }
  destruct cleared as [[|]|e].
  - destruct (_select_java_for_version _ _ _ _ _ _ _ _ _ _ _ _ _ _ _ w1)
      as [java w2] eqn:Hjava.
    apply select_java_extends in Hjava as Hadd2.
    destruct java as [[java_path|]|e];
      try (intros [= <- <-]; split; [now apply Hweak | discriminate]).
    destruct (truthy java_path) eqn:Htruthy; cbn [negb];
      [|intros [= <- <-]; split; [now apply Hweak | discriminate]].
    destruct (on_files _ w2) as [installed w3] eqn:Hinst.
    apply on_files_spec in Hinst as [Hterm3 _].
    assert (Hadd3 : exists added, transcript (terminal w3)
                                  = transcript (terminal w1) ++ added)
      by now rewrite Hterm3.
    destruct installed as [[]|e];
      [|intros [= <- <-]; split; [now apply Hweak | discriminate]].
    destruct (on_files _ w3) as [accepted w4] eqn:Hacc.
    apply on_files_spec in Hacc as [Hterm4 Hacc].
    assert (Hadd4 : exists added, transcript (terminal w4)
                                  = transcript (terminal w1) ++ added)
      by now rewrite Hterm4.
    destruct accepted as [[]|e]; intros [= <- <-];
      (split; [now apply Hweak|]); [|discriminate].
    intros ? ? [= <- <-]. split; [reflexivity|].
    split; [intros ->; discriminate | eauto].
  - intros [= <- <-]. split; [|discriminate].
    destruct Hclear as [(_ & [=] & _)|[(_ & Hfs & _)|(_ & line & Hin & Hy)]]; eauto.
  - intros [= <- <-]. split; [|discriminate].
    destruct Hclear as [(_ & [=] & _)|[(_ & Hfs & _)|(_ & line & Hin & Hy)]]; eauto.
Qed.

Variable exotic_version :
  ServerType -> string -> json -> @world FS ->
  result (option (Path * string)) * @world FS.

(** Steps 1 to 3 use only the console. *)
Lemma choose_server_files (w w1 : @world FS)
    (chosen : result (option (ServerType * string * option json))) :
  choose_server client_get json_loads ET_fromstring strip parse_int format_value w
  = (chosen, w1) ->
  fs w1 = fs w.
Proof.
  unfold choose_server.
  destruct (on_terminal _ w) as [picked_version w2] eqn:H1.
  apply on_terminal_spec in H1 as [Hfs1 _].
  destruct picked_version as [[mc_version|]|e];
    try (intros [= <- <-]; exact Hfs1).
  destruct (truthy mc_version); cbn [negb]; [|intros [= <- <-]; exact Hfs1].
  destruct (on_terminal _ w2) as [offered w3] eqn:H2.
  apply on_terminal_spec in H2 as [Hfs2 _]. rewrite Hfs1 in Hfs2.
  destruct offered as [[server_type|]|e];
    try (intros [= <- <-]; exact Hfs2).
  destruct (ServerType_eq_dec server_type VANILLA) as [Hv|Hv];
    [intros [= <- <-]; exact Hfs2|].
  destruct (get_forge_versions _ _ mc_version) as [forge_versions|e]; simpl;
    [|intros [= <- <-]; exact Hfs2].
  destruct (get_fabric_loader_versions _ _ mc_version) as [fabric_versions|e]; simpl;
    [|intros [= <- <-]; exact Hfs2].
  destruct (get_neoforge_versions _ _ mc_version) as [neoforge_versions|e]; simpl;
    [|intros [= <- <-]; exact Hfs2].
  destruct (on_terminal _ w3) as [picked w4] eqn:H3.
  apply on_terminal_spec in H3 as [Hfs3 _]. rewrite Hfs2 in Hfs3.
  destruct picked as [[mod_version|]|e];
    try (intros [= <- <-]; exact Hfs3).
  destruct (truth mod_version); cbn [negb]; intros [= <- <-]; exact Hfs3.
Qed.

(** Up to step 3 only the console is used; then the method either has
    stopped, or goes on to steps 4 to 6 with what was chosen. *)
Lemma install_new_server_cases
    (java_future : result (list JavaInstallation)) (w w' : @world FS)
    (r : result (option (Path * string))) :
  _install_new_server client_get json_loads ET_fromstring non_string_get strip
    parse_int format_value exists_ read_text is_file access_X_OK mkdir_parents
    write_text mkdir rmtree http_download describe popen_run unlink json_dumps
    Path_of str_of_path exotic_version java_future w = (r, w') ->
  (fs w' = fs w /\ forall chosen, r <> Ok (Some chosen))
  \/ (exists server_type mc_version mod_version w1,
        choose_server client_get json_loads ET_fromstring strip parse_int
          format_value w
        = (Ok (Some (server_type, mc_version, JStr <$> mod_version)), w1)
        /\ fs w1 = fs w
        /\ install_chosen client_get json_loads non_string_get strip parse_int
             exists_ read_text is_file access_X_OK mkdir_parents write_text mkdir
             rmtree http_download describe popen_run unlink json_dumps Path_of
             str_of_path server_type mc_version mod_version java_future w1
           = (r, w'))
  \/ (exists server_type mc_version mod_version w1,
        choose_server client_get json_loads ET_fromstring strip parse_int
          format_value w
        = (Ok (Some (server_type, mc_version, Some mod_version)), w1)
        /\ (forall m, mod_version <> JStr m)
        /\ exotic_version server_type mc_version mod_version w1 = (r, w')).
Proof.
  unfold _install_new_server.
  destruct (choose_server _ _ _ _ _ _ w) as [chosen w1] eqn:Hchoose.
  pose proof (choose_server_files _ _ _ Hchoose) as Hfs.
  destruct chosen as [[[[server_type mc_version] [mod_version|]]|]|e];
    try (intros [= <- <-]; left; split; [exact Hfs | discriminate]).
  - destruct mod_version as [| | | |m| |];
      try (intros H; right; right;
           eexists server_type, mc_version, _, w1;
           split; [reflexivity|]; split; [discriminate | exact H]).
    intros H. right. left. exists server_type, mc_version, (Some m), w1. auto.
  - intros H. right. left. exists server_type, mc_version, None, w1. auto.
Qed.

(** On a file system where a written file is there and reads back as
    written, a licence file that [_accept_eula] has dealt with is accepted. *)
Lemma accept_eula_accepted (eula_file : Path) (files files' : FS) :
  (forall p s f f', write_text p s f = (Ok tt, f') ->
     exists_ f' p = true /\ read_text f' p = Ok s) ->
  _accept_eula exists_ read_text mkdir write_text eula_file files = (Ok tt, files') ->
  eula_accepted exists_ read_text files' eula_file = Ok true.
Proof.
  intros Hwrite Hrun. unfold _accept_eula in Hrun.
  destruct (eula_accepted exists_ read_text files eula_file) as [[|]|e] eqn:Hhead.
  - now injection Hrun as <-.
  - destruct (mkdir (parent eula_file) files) as [[[]|e] fs1]; [|discriminate].
    destruct (Hwrite _ _ _ _ Hrun) as [He Hr].
    now rewrite (eula_accepted_read _ _ _ _ _ He Hr).
  - discriminate.
Qed.

End InstallNewFacts.

(** X23. [_install_new_server] removes nothing unasked.  Unless the loader
    version chosen is not a string, a run that changes anything on the file
    system is a run in which the operator chose a base version, a server
    type and, for a loader, a version, and in which the directory named
    after these was not there, or the operator answered [y] to the question
    whether to overwrite it; every other run leaves the files exactly as
    they were. *)
Theorem install_new_server_changes_files_only_on_confirmation {FS : Type}
    (client_get : string -> Z -> result Response)
    (json_loads : string -> result json)
    (ET_fromstring : string -> result element)
    (non_string_get : json -> Z -> result Response)
    (strip : string -> string) (parse_int : string -> option Z)
    (format_value : json -> string)
    (exists_ : FS -> Path -> bool) (read_text : FS -> Path -> result string)
    (is_file access_X_OK : FS -> Path -> bool)
    (mkdir_parents : Path -> FS -> result unit * FS)
    (write_text : Path -> string -> FS -> result unit * FS)
    (mkdir rmtree : Path -> FS -> result unit * FS)
    (http_download : json -> Path -> FS -> result unit * FS)
    (describe : exn -> string)
    (popen_run : list string -> Path -> FS -> spawn_outcome * FS)
    (unlink : Path -> FS -> result unit * FS)
    (json_dumps : json -> string) (Path_of : string -> Path)
    (str_of_path : Path -> string)
    (exotic_version : ServerType -> string -> json -> @world FS ->
                      result (option (Path * string)) * @world FS)
    (java_future : result (list JavaInstallation)) (w w' : @world FS)
    (r : result (option (Path * string))) :
  _install_new_server client_get json_loads ET_fromstring non_string_get strip
    parse_int format_value exists_ read_text is_file access_X_OK mkdir_parents
    write_text mkdir rmtree http_download describe popen_run unlink json_dumps
    Path_of str_of_path exotic_version java_future w = (r, w') ->
  let chosen :=
    choose_server client_get json_loads ET_fromstring strip parse_int
      format_value w in
  fs w' = fs w
  \/ (exists server_type mc_version mod_version w1,
        chosen = (Ok (Some (server_type, mc_version, JStr <$> mod_version)), w1)
        /\ let server_dir_name :=
             _get_server_dir_name server_type mc_version mod_version in
           exists_ (fs w) (joinpath MINECRAFT_SERVER_BASE_DIR server_dir_name)
           = false
           \/ exists line,
                (colorize (overwrite_question server_dir_name) GREEN
                   +:+ " (y/n/q): ", Typed line) ∈ transcript (terminal w')
                /\ lower (strip line) = "y")
  \/ (exists server_type mc_version mod_version w1,
        chosen = (Ok (Some (server_type, mc_version, Some mod_version)), w1)
        /\ (forall m, mod_version <> JStr m)
        /\ exotic_version server_type mc_version mod_version w1 = (r, w')).
Proof.
  intros H chosen. unfold chosen. clear chosen.
  apply install_new_server_cases in H
    as [[Hfs _]
       |[(server_type & mc_version & mod_version & w1 & Hchoose & Hfs & H)|H]].
  - now left.
  - apply install_chosen_spec in H as [[H|[H|H]] _].
    + left. now rewrite H.
    + right. left. exists server_type, mc_version, mod_version, w1.
      split; [exact Hchoose|]. left. now rewrite <- Hfs.
    + right. left. exists server_type, mc_version, mod_version, w1.
      split; [exact Hchoose|]. now right.
  - right. now right.
Qed.

Lemma install_new_server_changes_files_only_on_confirmation_witness :
  let w := {| fs := (∅ : gmap Path string);
              terminal := {| stdin := [Line "1"; Line "1"; Line "1"; Line "n"];
                             transcript := [] |} |} in
  fs (snd (_install_new_server Samples.remote_ok Samples.documents
             Samples.reject_xml Samples.no_other_url Samples.sample_strip
             Samples.sample_parse_int2 (fun _ => "?") Samples.vanilla_exists
             Samples.disk_read_text Samples.disk_is_java Samples.disk_is_java
             Samples.disk_mkdir Samples.disk_write_text Samples.disk_mkdir
             Samples.disk_rmtree Samples.disk_download Samples.sample_describe
             (Samples.installer_returning 0) Samples.disk_unlink
             Samples.sample_json_dumps Samples.sample_Path_of
             Samples.sample_str_of_path Samples.decline_exotic
             (Ok [Samples.installation_at Samples.opt_java]) w)) = ∅.
Proof.
  intros w.
  destruct (install_new_server_changes_files_only_on_confirmation
              Samples.remote_ok Samples.documents
              Samples.reject_xml Samples.no_other_url Samples.sample_strip
              Samples.sample_parse_int2 (fun _ => "?") Samples.vanilla_exists
              Samples.disk_read_text Samples.disk_is_java Samples.disk_is_java
              Samples.disk_mkdir Samples.disk_write_text Samples.disk_mkdir
              Samples.disk_rmtree Samples.disk_download Samples.sample_describe
              (Samples.installer_returning 0) Samples.disk_unlink
              Samples.sample_json_dumps Samples.sample_Path_of
              Samples.sample_str_of_path Samples.decline_exotic
              (Ok [Samples.installation_at Samples.opt_java]) w _ _
              (surjective_pairing _)) as [Hfs|[Hrun|Hexotic]].
  - exact Hfs.
  - vm_compute. reflexivity.
  - vm_compute. reflexivity.
Defined.

(** X24. What [_install_new_server] returns is the directory, under the
    base directory, named after the base version, the server type and the
    loader version the operator chose, and a Java path that is not empty;
    and, on a file system where a written file is there and reads back as
    written, the licence file in that directory is accepted by then.  (A
    loader version that is not a string is left aside.) *)
Theorem install_new_server_returns_accepted_server {FS : Type}
    (client_get : string -> Z -> result Response)
    (json_loads : string -> result json)
    (ET_fromstring : string -> result element)
    (non_string_get : json -> Z -> result Response)
    (strip : string -> string) (parse_int : string -> option Z)
    (format_value : json -> string)
    (exists_ : FS -> Path -> bool) (read_text : FS -> Path -> result string)
    (is_file access_X_OK : FS -> Path -> bool)
    (mkdir_parents : Path -> FS -> result unit * FS)
    (write_text : Path -> string -> FS -> result unit * FS)
    (mkdir rmtree : Path -> FS -> result unit * FS)
    (http_download : json -> Path -> FS -> result unit * FS)
    (describe : exn -> string)
    (popen_run : list string -> Path -> FS -> spawn_outcome * FS)
    (unlink : Path -> FS -> result unit * FS)
    (json_dumps : json -> string) (Path_of : string -> Path)
    (str_of_path : Path -> string)
    (exotic_version : ServerType -> string -> json -> @world FS ->
                      result (option (Path * string)) * @world FS)
    (java_future : result (list JavaInstallation)) (w w' : @world FS)
    (server_dir : Path) (java_path : string) :
  (forall p s f f', write_text p s f = (Ok tt, f') ->
     exists_ f' p = true /\ read_text f' p = Ok s) ->
  _install_new_server client_get json_loads ET_fromstring non_string_get strip
    parse_int format_value exists_ read_text is_file access_X_OK mkdir_parents
    write_text mkdir rmtree http_download describe popen_run unlink json_dumps
    Path_of str_of_path exotic_version java_future w
  = (Ok (Some (server_dir, java_path)), w') ->
  let chosen :=
    choose_server client_get json_loads ET_fromstring strip parse_int
      format_value w in
  (java_path <> EmptyString
   /\ (exists server_type mc_version mod_version w1,
         chosen = (Ok (Some (server_type, mc_version, JStr <$> mod_version)), w1)
         /\ server_dir
            = joinpath MINECRAFT_SERVER_BASE_DIR
                (_get_server_dir_name server_type mc_version mod_version))
   /\ eula_accepted exists_ read_text (fs w') (joinpath server_dir "eula.txt")
      = Ok true)
  \/ (exists server_type mc_version mod_version w1,
        chosen = (Ok (Some (server_type, mc_version, Some mod_version)), w1)
        /\ (forall m, mod_version <> JStr m)
        /\ exotic_version server_type mc_version mod_version w1
           = (Ok (Some (server_dir, java_path)), w')).
Proof.
  intros Hwrite H chosen. unfold chosen. clear chosen.
  apply install_new_server_cases in H
    as [[_ Hno]
       |[(server_type & mc_version & mod_version & w1 & Hchoose & Hfs & H)|H]].
  - now destruct (Hno (server_dir, java_path)).
  - left. apply install_chosen_spec in H as [_ H].
    destruct (H _ _ eq_refl) as (-> & Hjava & before & Hacc).
    split; [exact Hjava|]. split; [eauto 6|].
    eapply accept_eula_accepted; [exact Hwrite | exact Hacc].
  - now right.
Qed.

Lemma install_new_server_returns_accepted_server_witness :
  let w := {| fs := (∅ : gmap Path string);
              terminal :=
                {| stdin := [Line "1"; Line "1"; Line "1"; Line "1"; Line "n"];
                   transcript := [] |} |} in
  let run :=
    _install_new_server Samples.remote_ok Samples.documents
      Samples.reject_xml Samples.no_other_url Samples.sample_strip
      Samples.sample_parse_int2 (fun _ => "?") Samples.disk_exists
      Samples.disk_read_text Samples.disk_is_java Samples.disk_is_java
      Samples.disk_mkdir Samples.disk_write_text Samples.disk_mkdir
      Samples.disk_rmtree Samples.disk_download Samples.sample_describe
      (Samples.installer_returning 0) Samples.disk_unlink
      Samples.sample_json_dumps Samples.sample_Path_of
      Samples.sample_str_of_path Samples.decline_exotic
      (Ok [Samples.installation_at Samples.opt_java]) w in
  eula_accepted Samples.disk_exists Samples.disk_read_text (fs (snd run))
    ["minecraft_server"; "1.21"; "eula.txt"] = Ok true
  /\ exists server_type mc_version mod_version,
       fst (choose_server Samples.remote_ok Samples.documents Samples.reject_xml
              Samples.sample_strip Samples.sample_parse_int2 (fun _ => "?") w)
       = Ok (Some (server_type, mc_version, JStr <$> mod_version))
       /\ ["minecraft_server"; "1.21"]
          = joinpath MINECRAFT_SERVER_BASE_DIR
              (_get_server_dir_name server_type mc_version mod_version).
Proof.
  intros w run.
  destruct (install_new_server_returns_accepted_server
              Samples.remote_ok Samples.documents
              Samples.reject_xml Samples.no_other_url Samples.sample_strip
              Samples.sample_parse_int2 (fun _ => "?") Samples.disk_exists
              Samples.disk_read_text Samples.disk_is_java Samples.disk_is_java
              Samples.disk_mkdir Samples.disk_write_text Samples.disk_mkdir
              Samples.disk_rmtree Samples.disk_download Samples.sample_describe
              (Samples.installer_returning 0) Samples.disk_unlink
              Samples.sample_json_dumps Samples.sample_Path_of
              Samples.sample_str_of_path Samples.decline_exotic
              (Ok [Samples.installation_at Samples.opt_java]) w (snd run)
              ["minecraft_server"; "1.21"] "/opt/jdk-17/bin/java")
    as [(_ & (server_type & mc_version & mod_version & w1 & Hchoose & Hdir) & Hacc)
       |(server_type & mc_version & mod_version & w1 & _ & _ & Hex)].
  - intros p s f f' [= <-]. unfold Samples.disk_exists, Samples.disk_read_text.
    rewrite lookup_insert_eq. split; [|reflexivity].
    apply bool_decide_eq_true. eauto.
  - apply injective_projections; [vm_compute; reflexivity | reflexivity].
  - split; [exact Hacc|]. exists server_type, mc_version, mod_version.
    split; [now rewrite Hchoose | exact Hdir].
  - discriminate.
Defined.
